(** * CryptoScope front end: observable store, API gateway, pagination and
    detail-range cache, presentation formatters.

    A shallow embedding of [js/state.js], [js/api.js], [js/ui.js],
    [js/app.js], [js/theme.js], [js/router.js] and [js/utils.js].
    JavaScript values are an inductive type; an [async] function is
    sequentialised ([await] is the bind of a state-and-exception monad)
    except where calls can overlap, which is modelled by splitting the
    function at its [await]; the network, the random source and the host's
    number/string built-ins are an explicit environment.

    Three abstractions run through the file: a number is an exact
    rational, not a double (no rounding, no overflow: statements that
    depend on either carry bounds on the numbers); a string is the UTF-8
    encoding of a well-formed string, and [trim] and [toUpperCase] know
    ASCII only; [String(v)] and [Number(v)] are given for the values they
    return on ([opaque] says where they throw). *)

From Stdlib Require Import ZArith QArith Qabs Qround Qminmax List String Ascii Bool Lia Lqa.
From Stdlib Require Import Permutation Sorted.
From Stdlib Require DecimalString DecimalNat.
From stdpp Require Import gmap strings.
Import ListNotations.

Set Warnings "-register-all".

Local Open Scope string_scope.
Local Open Scope Z_scope.

(** ** JavaScript values *)

Module JS.

(** The result of [ToNumber]: an IEEE double is abstracted as an exact
    rational, with the three non-finite values kept apart. *)
Inductive number : Type :=
| NaN
| Inf (negative : bool)
| Fin (q : Q).

(** Values that reach the front end: what [JSON.parse] produces, plus
    [undefined] (absent property).  JSON has no literal for [NaN] or
    [Infinity], so [VNum] carries a finite number. *)
Inductive value : Type :=
| VUndef
| VNull
| VBool (b : bool)
| VNum (q : Q)
| VStr (s : string)
| VArr (l : list value)
| VObj (kv : list (string * value)).

(** What a [throw] carries: the two built-in failures the code can meet,
    or any value thrown by a callback. *)
Inductive error : Type :=
| TypeError
| NetworkError
| Thrown (v : value).

(** Completion of a call: normal return or a thrown exception. *)
Inductive outcome (A : Type) : Type :=
| Returns (a : A)
| Throws (e : error).
Arguments Returns {A} a.
Arguments Throws {A} e.

(** [!v] is [negb (truthy v)]. *)
Definition truthy (v : value) : bool :=
  match v with
  | VUndef | VNull => false
  | VBool b => b
  | VNum q => negb (Qeq_bool q 0)
  | VStr s => negb (String.eqb s "")
  | VArr _ | VObj _ => true
  end.

(** [a || b] *)
Definition or_else (a b : value) : value := if truthy a then a else b.

(** [v == null] *)
Definition nullish (v : value) : bool :=
  match v with
  | VUndef | VNull => true
  | _ => false
  end.

(** [a ?? b] *)
Definition coalesce (a b : value) : value := if nullish a then b else a.

Definition isArray (v : value) : bool :=
  match v with
  | VArr _ => true
  | _ => false
  end.

(** Whether converting [v] to a primitive ([String(v)], [Number(v)],
    [isNaN(v)], a template [${v}], [v < w], [v - w]) throws a [TypeError].
    An object parsed from JSON has no function among its properties: with an
    own [toString] key neither that nor [valueOf] yields a primitive, and the
    conversion throws; without one, [Object.prototype.toString] answers.  An
    array is converted by [join], which converts every element that is not
    [null]. *)
Fixpoint opaque (v : value) : bool :=
  match v with
  | VObj kv => existsb (fun p => String.eqb (fst p) "toString") kv
  | VArr l =>
      (fix any (l : list value) : bool :=
         match l with
         | [] => false
         | x :: r => opaque x || any r
         end) l
  | _ => false
  end.

(** Own-property lookup in an object literal parsed from JSON: the last
    occurrence of a duplicated key wins. *)
Fixpoint lookup_key (k : string) (kv : list (string * value)) : value :=
  match kv with
  | [] => VUndef
  | (k', v) :: rest =>
      match lookup_key k rest with
      | VUndef => if String.eqb k k' then v else VUndef
      | found => found
      end
  end.

(** [v?.k] for a key [k] that no prototype defines ([items], [total],
    [date], [price], ...). *)
Definition get (v : value) (k : string) : value :=
  match v with
  | VObj kv => lookup_key k kv
  | _ => VUndef
  end.

(** [v.length] on a value that is not nullish. *)
Definition get_length (v : value) : value :=
  match v with
  | VArr l => VNum (inject_Z (Z.of_nat (List.length l)))
  | VStr s => VNum (inject_Z (Z.of_nat (String.length s)))
  | VObj kv => lookup_key "length" kv
  | _ => VUndef
  end.

(** *** Strings (a string is its UTF-8 bytes; [trim] and case mapping are
    those of JavaScript on strings of ASCII characters) *)

(** The string holds ASCII characters only. *)
Fixpoint ascii_only (s : string) : bool :=
  match s with
  | EmptyString => true
  | String c r => (nat_of_ascii c <? 128)%nat && ascii_only r
  end.

Definition upper_ascii (c : ascii) : ascii :=
  let n := nat_of_ascii c in
  if ((97 <=? n)%nat && (n <=? 122)%nat)%bool then ascii_of_nat (n - 32) else c.

Fixpoint toUpperCase (s : string) : string :=
  match s with
  | EmptyString => EmptyString
  | String c r => String (upper_ascii c) (toUpperCase r)
  end.

(** The double-quote character. *)
Definition dquote : ascii := "034"%char.

(** [s.includes(needle)] *)
Fixpoint includes (needle s : string) : bool :=
  String.prefix needle s ||
  match s with
  | EmptyString => false
  | String _ r => includes needle r
  end.

(** [s.replace(/c/g, rep)] for a one-character pattern. *)
Fixpoint replaceAll (c : ascii) (rep s : string) : string :=
  match s with
  | EmptyString => EmptyString
  | String x r =>
      if Ascii.eqb x c then rep ++ replaceAll c rep r
      else String x (replaceAll c rep r)
  end.

(** [s.replace("c", rep)]: a string pattern replaces the first match only. *)
Fixpoint replaceFirst (c : ascii) (rep s : string) : string :=
  match s with
  | EmptyString => EmptyString
  | String x r =>
      if Ascii.eqb x c then rep ++ r else String x (replaceFirst c rep r)
  end.

Definition is_space (c : ascii) : bool :=
  let n := nat_of_ascii c in
  ((n =? 32) || ((9 <=? n) && (n <=? 13)))%nat.

Fixpoint trimStart (s : string) : string :=
  match s with
  | EmptyString => EmptyString
  | String c r => if is_space c then trimStart r else s
  end.

Fixpoint trimEnd (s : string) : string :=
  match s with
  | EmptyString => EmptyString
  | String c r =>
      match trimEnd r with
      | EmptyString => if is_space c then EmptyString else String c EmptyString
      | r' => String c r'
      end
  end.

Definition trim (s : string) : string := trimEnd (trimStart s).

Fixpoint string_ltb (a b : string) : bool :=
  match a, b with
  | _, EmptyString => false
  | EmptyString, String _ _ => true
  | String x r, String y t =>
      let nx := nat_of_ascii x in
      let ny := nat_of_ascii y in
      if (nx <? ny)%nat then true
      else if (ny <? nx)%nat then false
      else string_ltb r t
  end.

(** *** Arrays *)

(** [Array.prototype.sort] with a consistent comparator: the sort is stable,
    so an element moves behind exactly those that must precede it.
    [behind x y] says that the comparator puts [x] after [y]. *)
Fixpoint insertStable {A : Type} (behind : A -> A -> bool) (x : A) (l : list A) : list A :=
  match l with
  | [] => [x]
  | y :: r => if behind x y then y :: insertStable behind x r else x :: y :: r
  end.

Definition stableSort {A : Type} (behind : A -> A -> bool) (l : list A) : list A :=
  List.fold_right (insertStable behind) [] l.

(** *** Numbers *)

Definition num_is_nan (n : number) : bool :=
  match n with
  | NaN => true
  | _ => false
  end.

(** [Number.isFinite] *)
Definition num_is_finite (n : number) : bool :=
  match n with
  | Fin _ => true
  | _ => false
  end.

(** [a < b] on numbers; any comparison with [NaN] is false. *)
Definition num_ltb (a b : number) : bool :=
  match a, b with
  | NaN, _ | _, NaN => false
  | Inf true, Inf true => false
  | Inf true, _ => true
  | _, Inf true => false
  | Inf false, _ => false
  | _, Inf false => true
  | Fin x, Fin y => negb (Qle_bool y x)
  end.

(** [a === b] on numbers *)
Definition num_eqb (a b : number) : bool :=
  match a, b with
  | Fin x, Fin y => Qeq_bool x y
  | Inf s, Inf t => Bool.eqb s t
  | _, _ => false
  end.

Definition num_leb (a b : number) : bool := num_ltb a b || num_eqb a b.

Definition num_abs (n : number) : number :=
  match n with
  | NaN => NaN
  | Inf _ => Inf false
  | Fin q => Fin (Qabs q)
  end.

(** [a - b] *)
Definition num_sub (a b : number) : number :=
  match a, b with
  | NaN, _ | _, NaN => NaN
  | Inf s, Inf t => if Bool.eqb s t then NaN else Inf s
  | Inf s, Fin _ => Inf s
  | Fin _, Inf t => Inf (negb t)
  | Fin x, Fin y => Fin (x - y)
  end.

Definition q_negative (q : Q) : bool := negb (Qle_bool 0 q).

(** [a + b] *)
Definition num_add (a b : number) : number :=
  match a, b with
  | NaN, _ | _, NaN => NaN
  | Inf s, Inf t => if Bool.eqb s t then Inf s else NaN
  | Inf s, Fin _ | Fin _, Inf s => Inf s
  | Fin x, Fin y => Fin (x + y)
  end.

(** [a * b] (the sign of a zero is not tracked) *)
Definition num_mul (a b : number) : number :=
  match a, b with
  | NaN, _ | _, NaN => NaN
  | Inf s, Inf t => Inf (xorb s t)
  | Inf s, Fin y | Fin y, Inf s =>
      if Qeq_bool y 0 then NaN else Inf (xorb s (q_negative y))
  | Fin x, Fin y => Fin (x * y)
  end.

(** [a / b] (the sign of a zero is not tracked) *)
Definition num_div (a b : number) : number :=
  match a, b with
  | NaN, _ | _, NaN => NaN
  | Inf _, Inf _ => NaN
  | Inf s, Fin y => Inf (xorb s (q_negative y))
  | Fin _, Inf _ => Fin 0
  | Fin x, Fin y =>
      if Qeq_bool y 0 then (if Qeq_bool x 0 then NaN else Inf (q_negative x))
      else Fin (x / y)
  end.

(** [Math.min(...l)] and [Math.max(...l)] *)
Definition num_min2 (a b : number) : number :=
  match a, b with
  | NaN, _ | _, NaN => NaN
  | _, _ => if num_ltb b a then b else a
  end.

Definition num_max2 (a b : number) : number :=
  match a, b with
  | NaN, _ | _, NaN => NaN
  | _, _ => if num_ltb a b then b else a
  end.

Definition num_min (l : list number) : number := List.fold_left num_min2 l (Inf false).
Definition num_max (l : list number) : number := List.fold_left num_max2 l (Inf true).

(** [n || d] on a number: zero and [NaN] are falsy. *)
Definition num_or (n d : number) : number :=
  match n with
  | NaN => d
  | Fin q => if Qeq_bool q 0 then d else n
  | Inf _ => n
  end.

(** The host's built-in conversions and formatters.  They are library code
    of the browser, not of this repository. *)
Class Host : Type := {
  (** [ToNumber] applied to a string *)
  StringToNumber : string -> number;
  (** [Number.prototype.toString] *)
  NumberToString : number -> string;
  (** [n.toLocaleString("en-US", {minimumFractionDigits: 2, maximumFractionDigits: 2})] *)
  toLocaleFixed2 : number -> string;
  (** [n.toLocaleString("en-US", {maximumFractionDigits: 2})] *)
  toLocaleMax2 : number -> string;
  (** [n.toPrecision(6)] *)
  toPrecision6 : number -> string;
  (** [n.toFixed(2)] *)
  toFixed2 : number -> string;
  (** [new Intl.NumberFormat("en-US", {style: "currency", currency: "USD",
      notation: "compact", maximumFractionDigits: 2}).format(n)];
      [None] when the constructor or [format] throws. *)
  intlCompactUSD : number -> option string;
  (** [encodeURIComponent] *)
  encodeURIComponent : string -> string;
  (** The n-th value drawn from [Math.random()] in a session. *)
  random : nat -> Q
}.

Section Conversions.
Context `{Host}.

(** [String(v)], for a value that is not [opaque]. *)
Fixpoint ToString (v : value) : string :=
  match v with
  | VUndef => "undefined"
  | VNull => "null"
  | VBool true => "true"
  | VBool false => "false"
  | VNum q => NumberToString (Fin q)
  | VStr s => s
  | VArr l =>
      (fix join (l : list value) : string :=
         match l with
         | [] => ""
         | x :: r =>
             let sx := match x with
                       | VUndef | VNull => ""
                       | _ => ToString x
                       end in
             match r with
             | [] => sx
             | _ :: _ => sx ++ "," ++ join r
             end
         end) l
  | VObj _ => "[object Object]"
  end.

(** [Number(v)], for a value that is not [opaque]. *)
Definition ToNumber (v : value) : number :=
  match v with
  | VUndef => NaN
  | VNull => Fin 0
  | VBool b => Fin (if b then 1 else 0)
  | VNum q => Fin q
  | VStr s => StringToNumber s
  | VArr _ | VObj _ => StringToNumber (ToString v)
  end.

(** The global [isNaN(v)], for a value that is not [opaque]. *)
Definition isNaN (v : value) : bool := num_is_nan (ToNumber v).

(** [a < b] on arbitrary values (the abstract relational comparison), for
    values that are not [opaque]. *)
Definition lt (a b : value) : bool :=
  let prim v := match v with
                | VArr _ | VObj _ => VStr (ToString v)
                | _ => v
                end in
  match prim a, prim b with
  | VStr x, VStr y => string_ltb x y
  | x, y => num_ltb (ToNumber x) (ToNumber y)
  end.

End Conversions.

End JS.
Export JS.

(** ** js/ui.js: presentation formatters *)

Module Format.
Section Format.
Context `{Host}.

Definition dash : string := "—".

Definition formatPrice (v : value) : string :=
  if nullish v || isNaN v then dash
  else
    let n := ToNumber v in
    if num_eqb n (Fin 0) then "$0.00"
    else if num_leb (Fin 1) n then "$" ++ toLocaleFixed2 n
    else "$" ++ toPrecision6 n.

Record Styled : Type := { text : string; cls : string }.

Definition formatChange (ch : value) : Styled :=
  if nullish ch || isNaN ch then {| text := dash; cls := "" |}
  else
    let n := ToNumber ch in
    {| text := (if num_leb (Fin 0) n then "+" else "") ++ toFixed2 n ++ "%";
       cls := if num_ltb (Fin 0) n then "text-emerald-500 bg-emerald-500/10"
              else if num_ltb n (Fin 0) then "text-red-500 bg-red-500/10"
              else "text-gray-500 bg-gray-500/10" |}.

Definition formatIndicatorValue (v : value) : string :=
  if nullish v || isNaN v then dash
  else
    let n := ToNumber v in
    if num_leb (Fin 1000) (num_abs n) then toLocaleMax2 n else toFixed2 n.

Definition formatSignal (signalRaw : value) : Styled :=
  if negb (truthy signalRaw)
  then {| text := dash; cls := "text-gray-500 bg-gray-500/10" |}
  else
    let s := toUpperCase (ToString signalRaw) in
    let cls :=
      if String.eqb s "BUY" || String.eqb s "STRONG_BUY" || includes "BULL" s
      then "text-emerald-500 bg-emerald-500/10"
      else if String.eqb s "SELL" || String.eqb s "STRONG_SELL" || includes "BEAR" s
      then "text-red-500 bg-red-500/10"
      else if String.eqb s "HOLD" || String.eqb s "NEUTRAL"
      then "text-amber-500 bg-amber-500/10"
      else "text-gray-500 bg-gray-500/10" in
    {| text := replaceFirst "_" " " s; cls := cls |}.

Definition formatUSDCompact (v : value) : string :=
  if nullish v || isNaN v then dash
  else
    match intlCompactUSD (ToNumber v) with
    | Some s => s
    | None => "$" ++ toLocaleMax2 (ToNumber v)
    end.

(** [esc]: HTML-escape a string; anything that is not a string yields "". *)
Definition esc (str : value) : string :=
  match str with
  | VStr s =>
      replaceAll "'" "&#039;"
        (replaceAll dquote "&quot;"
           (replaceAll ">" "&gt;"
              (replaceAll "<" "&lt;"
                 (replaceAll "&" "&amp;" s))))
  | _ => ""
  end.

End Format.
End Format.
Export Format.

(** ** js/state.js: the observable store *)

Module Store.

(** An entry as [mapSymbolToCoin] builds it. *)
Record Coin : Type := {
  id : value;
  rank : value;
  symbol : value;
  fullSymbol : value;
  name : value;
  price : value;
  change : value;
  vol : value;
  mcap : value
}.

(** The exported [state] object. *)
Record State : Type := {
  coins : list Coin;
  filteredCoins : list Coin;
  totalCoins : value;
  watchlist : list value;
  filter : string;
  currentQuery : string;
  theme : string;
  fullHistory : list value;
  currentSymbol : value;
  topCoins : list Coin
}.

Definition initialState : State :=
  {| coins := []; filteredCoins := []; totalCoins := VNum 0;
     watchlist := [VNum 1; VNum 3]; filter := ""; currentQuery := "";
     theme := "light"; fullHistory := []; currentSymbol := VNull;
     topCoins := [] |}.

(** A patch object: the keys it carries. *)
Record Patch : Type := {
  p_coins : option (list Coin);
  p_filteredCoins : option (list Coin);
  p_totalCoins : option value;
  p_watchlist : option (list value);
  p_filter : option string;
  p_currentQuery : option string;
  p_theme : option string;
  p_fullHistory : option (list value);
  p_currentSymbol : option value;
  p_topCoins : option (list Coin)
}.

Definition emptyPatch : Patch :=
  {| p_coins := None; p_filteredCoins := None; p_totalCoins := None;
     p_watchlist := None; p_filter := None; p_currentQuery := None;
     p_theme := None; p_fullHistory := None; p_currentSymbol := None;
     p_topCoins := None |}.

(** [Object.assign(state, patch)]: shallow, field by field. *)
Definition assign (st : State) (p : Patch) : State :=
  {| coins := default (coins st) (p_coins p);
     filteredCoins := default (filteredCoins st) (p_filteredCoins p);
     totalCoins := default (totalCoins st) (p_totalCoins p);
     watchlist := default (watchlist st) (p_watchlist p);
     filter := default (filter st) (p_filter p);
     currentQuery := default (currentQuery st) (p_currentQuery p);
     theme := default (theme st) (p_theme p);
     fullHistory := default (fullHistory st) (p_fullHistory p);
     currentSymbol := default (currentSymbol st) (p_currentSymbol p);
     topCoins := default (topCoins st) (p_topCoins p) |}.

Section Store.
(** What subscribers act upon (the page).  A subscriber reads the state it
    is handed; calling back into the store from inside a subscriber is
    outside this model. *)
Context {W : Type}.

(** A listener function: [sid] is its identity in the [Set], [run] its body,
    which may throw after changing the page. *)
Record Subscriber : Type := {
  sid : nat;
  run : State -> Patch -> State -> W -> W * option error
}.

Record World : Type := {
  state : State;
  listeners : list Subscriber;
  page : W;
  console : list error
}.

Definition registered (n : nat) (ls : list Subscriber) : bool :=
  existsb (fun l => Nat.eqb (sid l) n) ls.

(** [subscribe(fn)]; [None] stands for an argument that is not a function.
    A [Set] keeps insertion order and ignores a second [add]. *)
Definition subscribe (fn : option Subscriber) (w : World) : World :=
  match fn with
  | None => w
  | Some f =>
      if registered (sid f) (listeners w) then w
      else {| state := state w; listeners := listeners w ++ [f];
              page := page w; console := console w |}
  end.

(** The function [subscribe] returns. *)
Definition unsubscribe (n : nat) (w : World) : World :=
  {| state := state w;
     listeners := List.filter (fun l => negb (Nat.eqb (sid l) n)) (listeners w);
     page := page w; console := console w |}.

(** [listeners.forEach(fn => { try { fn(state, patch, prev) } catch (err)
    { console.error(...) } })] *)
Fixpoint notify (ls : list Subscriber) (st : State) (p : Patch) (prev : State)
    (pg : W) (log : list error) : W * list error :=
  match ls with
  | [] => (pg, log)
  | fn :: rest =>
      match run fn st p prev pg with
      | (pg', None) => notify rest st p prev pg' log
      | (pg', Some err) => notify rest st p prev pg' (log ++ [err])
      end
  end.

(** [setState(patch)]; [None] stands for an argument that is falsy or not
    an object.  The function has no [throw] of its own and catches its
    subscribers', so it always returns. *)
Definition setState (patch : option Patch) (w : World) : World :=
  match patch with
  | None => w
  | Some p =>
      let prev := state w in
      let st := assign (state w) p in
      let '(pg, log) := notify (listeners w) st p prev (page w) (console w) in
      {| state := st; listeners := listeners w; page := pg; console := log |}
  end.

End Store.
Arguments Subscriber : clear implicits.
Arguments World : clear implicits.

End Store.

(** ** Effects: mutable state and exceptions *)

Module Eff.

(** A computation over a mutable state [S] that returns or throws; what it
    wrote before throwing stays written. *)
Definition Eff (S A : Type) : Type := S -> S * outcome A.

Definition ret {S A : Type} (a : A) : Eff S A := fun s => (s, Returns a).

Definition bind {S A B : Type} (m : Eff S A) (k : A -> Eff S B) : Eff S B :=
  fun s =>
    match m s with
    | (s', Returns a) => k a s'
    | (s', Throws e) => (s', Throws e)
    end.

Definition throw {S A : Type} (e : error) : Eff S A := fun s => (s, Throws e).

(** [try { m } catch (e) { h e }] *)
Definition try_catch {S A : Type} (m : Eff S A) (h : error -> Eff S A) : Eff S A :=
  fun s =>
    match m s with
    | (s', Returns a) => (s', Returns a)
    | (s', Throws e) => h e s'
    end.

Definition gets {S A : Type} (f : S -> A) : Eff S A := fun s => (s, Returns (f s)).

Definition modify {S : Type} (f : S -> S) : Eff S unit := fun s => (f s, Returns tt).

Definition of_outcome {S A : Type} (o : outcome A) : Eff S A := fun s => (s, o).

(** Run a computation on a component of a larger state. *)
Definition zoom {S T A : Type} (get : T -> S) (set : S -> T -> T) (m : Eff S A) : Eff T A :=
  fun t => let '(s', r) := m (get t) in (set s' t, r).

Fixpoint mapM {S A B : Type} (f : A -> Eff S B) (l : list A) : Eff S (list B) :=
  match l with
  | [] => ret []
  | x :: r => bind (f x) (fun y => bind (mapM f r) (fun ys => ret (y :: ys)))
  end.

(** [l.map(f)] for a callback that may throw. *)
Fixpoint mapO {A B : Type} (f : A -> outcome B) (l : list A) : outcome (list B) :=
  match l with
  | [] => Returns []
  | x :: r =>
      match f x with
      | Throws e => Throws e
      | Returns y =>
          match mapO f r with
          | Throws e => Throws e
          | Returns ys => Returns (y :: ys)
          end
      end
  end.

End Eff.
Import Eff.

Notation "x <- m ;; k" := (Eff.bind m (fun x => k))
  (at level 100, m at next level, right associativity, only parsing).
Notation "m ;;; k" := (Eff.bind m (fun _ => k))
  (at level 100, right associativity, only parsing).

(** ** js/api.js: the API client *)

Module Api.
Import Store.

(** The request a URL stands for.  The URL text ([URLSearchParams],
    [encodeURIComponent], the base address) is not modelled; two requests
    are the same when endpoint and parameters are. *)
Inductive Url : Type :=
| SymbolsUrl (page pageSize : Z) (q : option string)
| PricesUrl (symbol : string) (timeframe : option string)
| TechnicalUrl (symbol : string)
| LstmUrl (symbol : string) (lookback : Z)
| SentimentUrl (symbol window : string) (limit : Z)
| OnchainUrl (symbol : string)
| SignalUrl (symbol : string).

(** An HTTP response as [getJson] looks at it: [res.ok], and the value
    [res.json()] resolves to ([None] when it rejects: the body is not JSON). *)
Record Response : Type := { ok : bool; json : option value }.

(** [fetch(url)] settles with a response (any status) or rejects. *)
Inductive FetchResult : Type :=
| Rejected
| Responded (r : Response).

(** The backend and the wire: what the [n]-th request of the session, for
    [url], meets. *)
Class Network : Type := { serve : nat -> Url -> FetchResult }.

(** The state of the client is the list of requests issued so far. *)
Definition Net (A : Type) : Type := Eff (list Url) A.

Section Api.
Context `{Host} `{Network}.

Definition fetch (url : Url) : Net Response :=
  fun log =>
    ((log ++ [url])%list,
     match serve (List.length log) url with
     | Rejected => Throws NetworkError
     | Responded r => Returns r
     end).

Definition getJson (url : Url) : Net value :=
  res <- fetch url ;;
  if negb (ok res) then ret VNull
  else match json res with
       | Some v => ret v
       | None => ret VNull
       end.

(** [{ items, total }] *)
Definition normalizeSymbolsResponse (payload : value) : value * value :=
  let items := if isArray payload then payload
               else or_else (get payload "items") (VArr []) in
  let total := if isArray payload then get_length items
               else coalesce (get payload "total")
                      (if truthy items then get_length items else VNum 0) in
  (items, total).

(** [Number.isFinite(x) ? x : null] for [x = v != null ? Number(v) : null],
    when [Number(v)] returns. *)
Definition finiteOrNull (v : value) : value :=
  if nullish v then VNull
  else match ToNumber v with
       | Fin q => VNum q
       | _ => VNull
       end.

(** What [mapSymbolToCoin(raw)] returns.  Its two calls of [Number] are its
    only steps that can throw; [unmappable] says when one does. *)
Definition mapSymbolToCoin (raw : value) : Coin :=
  {| id := get raw "id";
     rank := get raw "rank";
     symbol := get raw "name";
     fullSymbol := get raw "symbol";
     name := get raw "name";
     price := finiteOrNull (get raw "price");
     change := finiteOrNull (get raw "change");
     vol := coalesce (get raw "vol") VNull;
     mcap := coalesce (get raw "mcap") VNull |}.

(** [{ coins, total }] *)
Record SymbolsPage : Type := { page_coins : list Coin; page_total : value }.

(** [mapSymbolToCoin(raw)] throws: [Number(raw.price)] or
    [Number(raw.change)] does. *)
Definition unmappable (raw : value) : bool :=
  opaque (get raw "price") || opaque (get raw "change").

(** [l.map(mapSymbolToCoin)] on an array: the first entry that throws ends
    the map. *)
Definition mapCoins (l : list value) : outcome (list Coin) :=
  if existsb unmappable l then Throws TypeError
  else Returns (List.map mapSymbolToCoin l).

(** [items.map(mapSymbolToCoin)]: only an array has a callable [map]. *)
Definition mapItems (items : value) : outcome (list Coin) :=
  match items with
  | VArr l => mapCoins l
  | _ => Throws TypeError
  end.

(** [if (q && q.trim()) params.set("q", q.trim())] *)
Definition queryParam (q : string) : option string :=
  if negb (String.eqb q "") && negb (String.eqb (trim q) "")
  then Some (trim q) else None.

Definition fetchSymbolsPage (page pageSize : Z) (q : string) : Net SymbolsPage :=
  payload <- getJson (SymbolsUrl page pageSize (queryParam q)) ;;
  if negb (truthy payload) then ret {| page_coins := []; page_total := VNum 0 |}
  else
    let '(items, total) := normalizeSymbolsResponse payload in
    cs <- of_outcome (mapItems items) ;;
    ret {| page_coins := cs; page_total := total |}.

(** The comparator of [fetchPrices]:
    [(a, b) => a.date < b.date ? -1 : a.date > b.date ? 1 : 0]. *)
Definition dateBefore (a b : value) : bool := JS.lt (get a "date") (get b "date").

(** [payload.sort(cmp)] on an array parsed from JSON.  The sort is stable
    (an element moves behind those that compare before it); with two or more
    elements each one is handed to the comparator, whose [a.date] throws on
    [null] and whose [<] throws on a date that is [opaque]. *)
Definition undatable (p : value) : bool := nullish p || opaque (get p "date").

Definition sortByDate (l : list value) : outcome (list value) :=
  if (2 <=? List.length l)%nat && existsb undatable l then Throws TypeError
  else Returns (stableSort (fun x y => dateBefore y x) l).

(** [if (timeframe) url += ...] *)
Definition timeframeParam (timeframe : option string) : option string :=
  match timeframe with
  | Some t => if String.eqb t "" then None else Some t
  | None => None
  end.

Definition fetchPrices (symbol : string) (timeframe : option string) : Net (list value) :=
  if String.eqb symbol "" then ret []
  else
    payload <- getJson (PricesUrl symbol (timeframeParam timeframe)) ;;
    match payload with
    | VArr l => of_outcome (sortByDate l)
    | _ => ret []
    end.

Definition fetchTechnical (symbol : string) : Net value :=
  if String.eqb symbol "" then ret VNull else getJson (TechnicalUrl symbol).

Definition fetchLstm (symbol : string) (lookback : Z) : Net value :=
  if String.eqb symbol "" then ret VNull else getJson (LstmUrl symbol lookback).

Definition fetchSentiment (symbol window : string) (limit : Z) : Net value :=
  if String.eqb symbol "" then ret VNull else getJson (SentimentUrl symbol window limit).

Definition fetchOnchain (symbol : string) : Net value :=
  if String.eqb symbol "" then ret VNull else getJson (OnchainUrl symbol).

Definition fetchSignal (symbol : string) : Net value :=
  if String.eqb symbol "" then ret VNull else getJson (SignalUrl symbol).

(** The seven fetch operations under one roof, to state what they share. *)
Inductive Call : Type :=
| CallSymbolsPage (page pageSize : Z) (q : string)
| CallPrices (symbol : string) (timeframe : option string)
| CallTechnical (symbol : string)
| CallLstm (symbol : string) (lookback : Z)
| CallSentiment (symbol window : string) (limit : Z)
| CallOnchain (symbol : string)
| CallSignal (symbol : string).

Inductive Answer : Type :=
| APage (p : SymbolsPage)
| ASeries (l : list value)
| APayload (v : value).

Definition perform (c : Call) : Net Answer :=
  match c with
  | CallSymbolsPage p ps q => r <- fetchSymbolsPage p ps q ;; ret (APage r)
  | CallPrices s tf => r <- fetchPrices s tf ;; ret (ASeries r)
  | CallTechnical s => r <- fetchTechnical s ;; ret (APayload r)
  | CallLstm s lb => r <- fetchLstm s lb ;; ret (APayload r)
  | CallSentiment s w l => r <- fetchSentiment s w l ;; ret (APayload r)
  | CallOnchain s => r <- fetchOnchain s ;; ret (APayload r)
  | CallSignal s => r <- fetchSignal s ;; ret (APayload r)
  end.

(** The absent/empty result of each operation. *)
Definition absent (c : Call) : Answer :=
  match c with
  | CallSymbolsPage _ _ _ => APage {| page_coins := []; page_total := VNum 0 |}
  | CallPrices _ _ => ASeries []
  | _ => APayload VNull
  end.

(** Whether the operation goes to the network at all ([if (!symbol) return]). *)
Definition requests (c : Call) : bool :=
  match c with
  | CallSymbolsPage _ _ _ => true
  | CallPrices s _ | CallTechnical s | CallLstm s _
  | CallSentiment s _ _ | CallOnchain s | CallSignal s => negb (String.eqb s "")
  end.

End Api.
End Api.

(** ** The page: DOM, caches, and the session as a whole *)

Module Page.
Import Store Api.

(** [internal.pagination] *)
Record PaginationState : Type := { pageSize : Z; currentPage : Z }.

(** What an event listener does when it fires.  A listener created by
    [renderDashboard] is a closure; the constructor keeps what it captured. *)
Inductive Handler : Type :=
| OpenCoin                         (* reads the element's own data attribute *)
| ChangePageSize
| PrevPage
| NextPage (totalPages : Z).

(** One row of the market table: the values interpolated into the
    template, in order, and the listeners on its "View" button. *)
Record Row : Type := {
  globalIndex : Z;
  row_initial : string;
  row_name : value;
  row_symbol : string;
  row_price : string;
  row_changeCls : string;
  row_changeText : string;
  row_vol : value;
  row_detailSymbol : string;
  row_listeners : list Handler
}.

(** A sparkline path: the coordinates printed into the [d] attribute. *)
Record SparkPath : Type := { d : list (number * number); width : Q; height : Q }.

(** One summary card and the listeners on it. *)
Record Card : Type := {
  card_detailSymbol : string;
  card_initial : string;
  card_name : value;
  card_symbol : string;
  card_changeCls : string;
  card_changeText : string;
  card_price : string;
  card_path : SparkPath;
  card_stroke : string;
  card_listeners : list Handler
}.

(** The pagination bar written by [renderDashboard]. *)
Record PagBar : Type := {
  bar_pageSize : Z;
  bar_from : Z;
  bar_to : Q;
  bar_total : Q;
  bar_page : Z;
  bar_totalPages : Z;
  sel_listeners : list Handler;
  prev_disabled : bool;
  prev_listeners : list Handler;
  next_disabled : bool;
  next_listeners : list Handler
}.

(** The elements the scripts look up.  [None] is an element that is not in
    the document. *)
Record Dom : Type := {
  tableBody : option (list Row);           (* #market-table-body *)
  topCards : option (list Card);           (* #top-cards-container *)
  noResults : option bool;                 (* #no-results, [true] when shown *)
  panel : bool;                            (* #view-dashboard .panel-clean *)
  paginationContainer : option (option PagBar);  (* #pagination-container *)
  ticker : option (list (string * string * string));  (* #ticker *)
  detailPrice : option string;             (* #detail-price *)
  datasetStart : option value;             (* #dataset-start-date *)
  datasetPoints : option string;           (* #dataset-points *)
  detailCanvas : bool;                     (* #detail-chart-canvas and Chart.js *)
  href : option string;                    (* assigned window.location.href *)
  searchSymbol : option string             (* the page URL's symbol parameter *)
}.

(** The exported [internal] object (the chart handles are left out). *)
Record Internal : Type := {
  pagination : option PaginationState;
  pricesByRange : option (gmap string (list value));
  detailPrices : option (list value);
  detailRange : option string
}.

Definition initialInternal : Internal :=
  {| pagination := None; pricesByRange := None; detailPrices := None;
     detailRange := None |}.

(** Everything a page session can change. *)
Record App : Type := {
  store : Store.World Dom;
  internal : Internal;
  sent : list Url;       (* requests issued so far *)
  draws : nat            (* calls of [Math.random] so far *)
}.

Definition M (A : Type) : Type := Eff App A.

Definition state_of (a : App) : State := Store.state (store a).
Definition dom_of (a : App) : Dom := Store.page (store a).

Definition with_store (f : Store.World Dom -> Store.World Dom) (a : App) : App :=
  {| store := f (store a); internal := internal a; sent := sent a; draws := draws a |}.

Definition with_dom (f : Dom -> Dom) (a : App) : App :=
  with_store (fun w => {| Store.state := Store.state w; Store.listeners := Store.listeners w;
                          Store.page := f (Store.page w); Store.console := Store.console w |}) a.

Definition with_state (f : State -> State) (a : App) : App :=
  with_store (fun w => {| Store.state := f (Store.state w); Store.listeners := Store.listeners w;
                          Store.page := Store.page w; Store.console := Store.console w |}) a.

Definition with_internal (f : Internal -> Internal) (a : App) : App :=
  {| store := store a; internal := f (internal a); sent := sent a; draws := draws a |}.

Definition with_sent (l : list Url) (a : App) : App :=
  {| store := store a; internal := internal a; sent := l; draws := draws a |}.

Definition with_draws (n : nat) (a : App) : App :=
  {| store := store a; internal := internal a; sent := sent a; draws := n |}.

Definition log_error (e : error) (a : App) : App :=
  with_store (fun w => {| Store.state := Store.state w; Store.listeners := Store.listeners w;
                          Store.page := Store.page w;
                          Store.console := (Store.console w ++ [e])%list |}) a.

(** An API call made from the page. *)
Definition api {A : Type} (m : Net A) : M A := zoom sent with_sent m.

(** [setState(patch)] as the page calls it. *)
Definition setState (p : Patch) : M unit := modify (with_store (Store.setState (Some p))).

Definition set_pagination (p : PaginationState) (i : Internal) : Internal :=
  {| pagination := Some p; pricesByRange := pricesByRange i;
     detailPrices := detailPrices i; detailRange := detailRange i |}.

Definition set_pricesByRange (m : gmap string (list value)) (i : Internal) : Internal :=
  {| pagination := pagination i; pricesByRange := Some m;
     detailPrices := detailPrices i; detailRange := detailRange i |}.

Definition set_detail (ps : list value) (r : string) (i : Internal) : Internal :=
  {| pagination := pagination i; pricesByRange := pricesByRange i;
     detailPrices := Some ps; detailRange := Some r |}.

Definition set_detailRange (r : string) (i : Internal) : Internal :=
  {| pagination := pagination i; pricesByRange := pricesByRange i;
     detailPrices := detailPrices i; detailRange := Some r |}.

Definition set_tableBody (rows : list Row) (dm : Dom) : Dom :=
  {| tableBody := Some rows; topCards := topCards dm; noResults := noResults dm;
     panel := panel dm; paginationContainer := paginationContainer dm;
     ticker := ticker dm; detailPrice := detailPrice dm;
     datasetStart := datasetStart dm; datasetPoints := datasetPoints dm;
     detailCanvas := detailCanvas dm; href := href dm;
     searchSymbol := searchSymbol dm |}.

Definition set_topCards (cards : list Card) (dm : Dom) : Dom :=
  {| tableBody := tableBody dm; topCards := Some cards; noResults := noResults dm;
     panel := panel dm; paginationContainer := paginationContainer dm;
     ticker := ticker dm; detailPrice := detailPrice dm;
     datasetStart := datasetStart dm; datasetPoints := datasetPoints dm;
     detailCanvas := detailCanvas dm; href := href dm;
     searchSymbol := searchSymbol dm |}.

(** Show or hide [#no-results] when it exists. *)
Definition set_noResults (shown : bool) (dm : Dom) : Dom :=
  {| tableBody := tableBody dm; topCards := topCards dm;
     noResults := match noResults dm with Some _ => Some shown | None => None end;
     panel := panel dm; paginationContainer := paginationContainer dm;
     ticker := ticker dm; detailPrice := detailPrice dm;
     datasetStart := datasetStart dm; datasetPoints := datasetPoints dm;
     detailCanvas := detailCanvas dm; href := href dm;
     searchSymbol := searchSymbol dm |}.

Definition set_paginationContainer (c : option (option PagBar)) (dm : Dom) : Dom :=
  {| tableBody := tableBody dm; topCards := topCards dm; noResults := noResults dm;
     panel := panel dm; paginationContainer := c;
     ticker := ticker dm; detailPrice := detailPrice dm;
     datasetStart := datasetStart dm; datasetPoints := datasetPoints dm;
     detailCanvas := detailCanvas dm; href := href dm;
     searchSymbol := searchSymbol dm |}.

Definition set_ticker (t : list (string * string * string)) (dm : Dom) : Dom :=
  {| tableBody := tableBody dm; topCards := topCards dm; noResults := noResults dm;
     panel := panel dm; paginationContainer := paginationContainer dm;
     ticker := match ticker dm with Some _ => Some t | None => None end;
     detailPrice := detailPrice dm;
     datasetStart := datasetStart dm; datasetPoints := datasetPoints dm;
     detailCanvas := detailCanvas dm; href := href dm;
     searchSymbol := searchSymbol dm |}.

Definition set_detailHeader (pr : option string) (st : option value) (pts : option string)
    (dm : Dom) : Dom :=
  {| tableBody := tableBody dm; topCards := topCards dm; noResults := noResults dm;
     panel := panel dm; paginationContainer := paginationContainer dm;
     ticker := ticker dm; detailPrice := pr;
     datasetStart := st; datasetPoints := pts;
     detailCanvas := detailCanvas dm; href := href dm;
     searchSymbol := searchSymbol dm |}.

Definition set_href (u : string) (dm : Dom) : Dom :=
  {| tableBody := tableBody dm; topCards := topCards dm; noResults := noResults dm;
     panel := panel dm; paginationContainer := paginationContainer dm;
     ticker := ticker dm; detailPrice := detailPrice dm;
     datasetStart := datasetStart dm; datasetPoints := datasetPoints dm;
     detailCanvas := detailCanvas dm; href := Some u;
     searchSymbol := searchSymbol dm |}.

End Page.

(** ** js/ui.js and js/app.js: dashboard *)

Module Dashboard.
Import Store Api Page.

Section Dashboard.
Context `{Host} `{Network}.

Definition getPaginationState : M PaginationState :=
  fun a =>
    match pagination (internal a) with
    | Some p => (a, Returns p)
    | None =>
        let p := {| pageSize := 50; currentPage := 1 |} in
        (with_internal (set_pagination p) a, Returns p)
    end.

(** Writing a field of the object [getPaginationState] returned. *)
Definition putPagination (p : PaginationState) : M unit :=
  modify (with_internal (set_pagination p)).

(** [ensurePaginationContainer]: the element, created under the panel when
    missing.  Without a panel the new element stays outside the document,
    and what is written to it is never shown: the result says whether the
    container is in the document. *)
Definition ensurePaginationContainer : M bool :=
  fun a =>
    match paginationContainer (dom_of a) with
    | Some _ => (a, Returns true)
    | None =>
        if panel (dom_of a)
        then (with_dom (set_paginationContainer (Some None)) a, Returns true)
        else (a, Returns false)
    end.

(** [pag.innerHTML = ...] *)
Definition writePagination (attached : bool) (c : option PagBar) : M unit :=
  if attached then modify (with_dom (set_paginationContainer (Some c))) else ret tt.

Definition mathRandom : M number :=
  fun a => (with_draws (S (draws a)) a, Returns (Fin (random (draws a)))).

Definition of_nat (n : nat) : number := Fin (inject_Z (Z.of_nat n)).

Definition buildSparklinePoints (changePercent : value) : M (list number) :=
  let n := 20%nat in
  let base := Fin 100 in
  let trendFactor :=
    num_add (Fin 1) (num_div (num_or (ToNumber changePercent) (Fin 0)) (Fin 100)) in
  let end_ := num_mul base trendFactor in
  mapM (fun i =>
          let t := num_div (of_nat i) (of_nat (n - 1)) in
          r <- mathRandom ;;
          ret (num_add (num_add base (num_mul (num_sub end_ base) t))
                       (num_mul (num_sub r (Fin (1 # 2))) (Fin 4))))
       (List.seq 0 n).

Definition buildSparklinePath (points : list number) : SparkPath :=
  let width := 100%Q in
  let height := 32%Q in
  match points with
  | [] => {| d := []; width := width; height := height |}
  | _ :: _ =>
      let min := num_min points in
      let max := num_max points in
      let span := num_or (num_sub max min) (Fin 1) in
      let coords :=
        List.map (fun '(i, p) =>
                    (num_mul (num_div (of_nat i) (of_nat (List.length points - 1))) (Fin width),
                     num_sub (Fin height)
                       (num_mul (num_div (num_sub p min) span) (Fin height))))
                 (List.combine (List.seq 0 (List.length points)) points) in
      {| d := coords; width := width; height := height |}
  end.

Definition MAX_SAFE_INTEGER : Q := inject_Z 9007199254740991.

(** [a.rank ?? Number.MAX_SAFE_INTEGER], as the subtraction reads it. *)
Definition rankKey (c : Coin) : number :=
  ToNumber (coalesce (rank c) (VNum MAX_SAFE_INTEGER)).

(** The comparator of [renderTopCards]: [ra - rb]. *)
Definition rankCompare (a b : Coin) : number := num_sub (rankKey a) (rankKey b).

Definition sortByRank (l : list Coin) : list Coin :=
  stableSort (fun x y => num_ltb (Fin 0) (rankCompare x y)) l.

(** [coin.symbol || coin.name || coin.fullSymbol || "—"] *)
Definition symbolDisplay (c : Coin) : value :=
  or_else (or_else (or_else (symbol c) (name c)) (fullSymbol c)) (VStr dash).

(** [coin.name && coin.name !== symbolDisplay ? coin.name : symbolDisplay]
    when [symbolDisplay] is the string [s]. *)
Definition nameDisplay (c : Coin) (s : string) : value :=
  let same := match name c with
              | VStr n => String.eqb n s
              | _ => false
              end in
  if truthy (name c) && negb same then name c else VStr s.

(** [encodeURIComponent(coin.fullSymbol || coin.symbol || coin.name || "")] *)
Definition detailSymbol (c : Coin) : string :=
  encodeURIComponent
    (ToString (or_else (or_else (or_else (fullSymbol c) (symbol c)) (name c)) (VStr ""))).

(** [s.charAt(0) || "?"] *)
Definition initialOf (s : string) : string :=
  match s with
  | EmptyString => "?"
  | String c _ => String c EmptyString
  end.

(** The callback of [top.map] in [renderTopCards].  The template calls
    [symbolDisplay.charAt], which only a string has; the sparkline is drawn
    before the template is evaluated. *)
Definition cardOf (c : Coin) : M Card :=
  let priceText := formatPrice (price c) in
  let ch := formatChange (change c) in
  pts <- buildSparklinePoints (change c) ;;
  let path := buildSparklinePath pts in
  let isUp := num_leb (Fin 0) (ToNumber (or_else (change c) (VNum 0))) in
  match symbolDisplay c with
  | VStr s =>
      ret {| card_detailSymbol := detailSymbol c;
             card_initial := initialOf s;
             card_name := nameDisplay c s;
             card_symbol := s;
             card_changeCls := cls ch;
             card_changeText := text ch;
             card_price := priceText;
             card_path := path;
             card_stroke := if isUp then "#22c55e" else "#ef4444";
             card_listeners := [] |}
  | _ => throw TypeError
  end.

(** [card.addEventListener("click", ...)] *)
Definition listenCard (h : Handler) (c : Card) : Card :=
  {| card_detailSymbol := card_detailSymbol c; card_initial := card_initial c;
     card_name := card_name c; card_symbol := card_symbol c;
     card_changeCls := card_changeCls c; card_changeText := card_changeText c;
     card_price := card_price c; card_path := card_path c;
     card_stroke := card_stroke c;
     card_listeners := (card_listeners c ++ [h])%list |}.

Definition renderTopCards : M unit :=
  dm <- gets dom_of ;;
  match topCards dm with
  | None => ret tt
  | Some _ =>
      st <- gets state_of ;;
      let allCoins := match topCoins st with
                      | [] => coins st
                      | _ :: _ => topCoins st
                      end in
      match allCoins with
      | [] => modify (with_dom (set_topCards []))
      | _ :: _ =>
          let top := List.firstn 5 (sortByRank allCoins) in
          cards <- mapM cardOf top ;;
          modify (with_dom (set_topCards cards)) ;;;
          modify (with_dom (set_topCards (List.map (listenCard OpenCoin) cards)))
      end
  end.

(** The callback of [coins.map] in [renderDashboard]. *)
Definition rowOf (startIndex : Z) (ic : nat * Coin) : outcome Row :=
  let '(idx, c) := ic in
  let ch := formatChange (change c) in
  match symbolDisplay c with
  | VStr s =>
      Returns {| globalIndex := startIndex + Z.of_nat idx + 1;
                 row_initial := initialOf s;
                 row_name := nameDisplay c s;
                 row_symbol := s;
                 row_price := formatPrice (price c);
                 row_changeCls := cls ch;
                 row_changeText := text ch;
                 row_vol := if nullish (vol c) then VStr dash else vol c;
                 row_detailSymbol := detailSymbol c;
                 row_listeners := [] |}
  | _ => Throws TypeError
  end.

(** [btn.addEventListener("click", ...)] *)
Definition listenRow (h : Handler) (r : Row) : Row :=
  {| globalIndex := globalIndex r; row_initial := row_initial r;
     row_name := row_name r; row_symbol := row_symbol r;
     row_price := row_price r; row_changeCls := row_changeCls r;
     row_changeText := row_changeText r; row_vol := row_vol r;
     row_detailSymbol := row_detailSymbol r;
     row_listeners := (row_listeners r ++ [h])%list |}.

(** [typeof state.totalCoins === "number" ? state.totalCoins : coins.length] *)
Definition totalOf (st : State) (coins : list Coin) : Q :=
  match totalCoins st with
  | VNum q => q
  | _ => inject_Z (Z.of_nat (List.length coins))
  end.

(** [pagination.pageSize || 50] *)
Definition pageSizeOf (p : PaginationState) : Z :=
  if pageSize p =? 0 then 50 else pageSize p.

(** [Math.max(1, Math.ceil(total / pageSize))] *)
Definition totalPagesOf (total : Q) (pageSize : Z) : Z :=
  Z.max 1 (Qceiling (total / inject_Z pageSize)).

(** [Math.min(Math.max(pagination.currentPage, 1), totalPages)] *)
Definition clampPage (currentPage totalPages : Z) : Z :=
  Z.min (Z.max currentPage 1) totalPages.

(** The pagination bar once its three listeners are attached. *)
Definition pagBar (pageSize startIndex : Z) (endIndex total : Q) (page totalPages : Z) : PagBar :=
  {| bar_pageSize := pageSize;
     bar_from := startIndex + 1;
     bar_to := endIndex;
     bar_total := total;
     bar_page := page;
     bar_totalPages := totalPages;
     sel_listeners := ([] ++ [ChangePageSize])%list;
     prev_disabled := page <=? 1;
     prev_listeners := ([] ++ [PrevPage])%list;
     next_disabled := totalPages <=? page;
     next_listeners := ([] ++ [NextPage totalPages])%list |}.

(** What lines 299-308 of [renderDashboard] compute. *)
Record PageWindow : Type := {
  w_total : Q;
  w_pageSize : Z;
  w_totalPages : Z;
  w_page : Z;
  w_startIndex : Z;
  w_endIndex : Q
}.

(** Lines 299-308 of [renderDashboard]: the totals, and the page number
    clamped into them and written back to [internal.pagination]. *)
Definition paginate (st : State) (coins : list Coin) : M PageWindow :=
  pagination <- getPaginationState ;;
  let total := totalOf st coins in
  let pageSize := pageSizeOf pagination in
  let totalPages := totalPagesOf total pageSize in
  let page := clampPage (currentPage pagination) totalPages in
  putPagination {| pageSize := Page.pageSize pagination; currentPage := page |} ;;;
  let startIndex := (page - 1) * pageSize in
  let endIndex := Qmin (inject_Z (startIndex + Z.of_nat (List.length coins))) total in
  ret {| w_total := total; w_pageSize := pageSize; w_totalPages := totalPages;
         w_page := page; w_startIndex := startIndex; w_endIndex := endIndex |}.

(** [renderDashboard] from line 280 on: the table and the pagination bar. *)
Definition renderTable : M unit :=
  st <- gets state_of ;;
  let coins := filteredCoins st in
  match coins with
  | [] =>
      modify (with_dom (set_tableBody [])) ;;;
      modify (with_dom (set_noResults true)) ;;;
      pag <- ensurePaginationContainer ;;
      writePagination pag None
  | _ :: _ =>
      modify (with_dom (set_noResults false)) ;;;
      w <- paginate st coins ;;
      rows <- of_outcome
                (mapO (rowOf (w_startIndex w))
                      (List.combine (List.seq 0 (List.length coins)) coins)) ;;
      modify (with_dom (set_tableBody rows)) ;;;
      modify (with_dom (set_tableBody (List.map (listenRow OpenCoin) rows))) ;;;
      pag <- ensurePaginationContainer ;;
      writePagination pag
        (Some (pagBar (w_pageSize w) (w_startIndex w) (w_endIndex w) (w_total w)
                      (w_page w) (w_totalPages w)))
  end.

Definition renderDashboard : M unit :=
  dm <- gets dom_of ;;
  match tableBody dm with
  | None => ret tt
  | Some _ => renderTopCards ;;; renderTable
  end.

(** *** js/app.js *)

(** The loop of [renderTicker] throws: among the first 20 entries one has a
    [change] that [change >= 0] cannot convert, or a [symbol] that the
    template cannot. *)
Definition tickerThrows (coinsPage : list Coin) : bool :=
  existsb (fun c => opaque (change c) || opaque (symbol c)) (List.firstn 20 coinsPage).

(** [renderTicker(coinsPage, { page })].  The markup is assigned after the
    loop, so a loop that throws leaves the ticker as it was. *)
Definition renderTicker (coinsPage : list Coin) (page : Z) : M unit :=
  dm <- gets dom_of ;;
  match ticker dm with
  | None => ret tt
  | Some _ =>
      if negb (page =? 1) then ret tt
      else if tickerThrows coinsPage then throw TypeError
      else
        let item (c : Coin) :=
          let change := coalesce (change c) (VNum 0) in
          (ToString (symbol c),
           if num_leb (Fin 0) (ToNumber change) then "text-emerald-400" else "text-red-400",
           if nullish (Store.change c) then "0.00" else toFixed2 (ToNumber change)) in
        let html := List.map item (List.firstn 20 coinsPage) in
        modify (with_dom (set_ticker (html ++ html)%list))
  end.

Definition pagePatch (cs : list Coin) (total : value) : Patch :=
  {| p_coins := Some cs; p_filteredCoins := Some cs; p_totalCoins := Some total;
     p_watchlist := None; p_filter := None; p_currentQuery := None;
     p_theme := None; p_fullHistory := None; p_currentSymbol := None;
     p_topCoins := None |}.

Definition topPatch (cs : list Coin) : Patch :=
  {| p_coins := None; p_filteredCoins := None; p_totalCoins := None;
     p_watchlist := None; p_filter := None; p_currentQuery := None;
     p_theme := None; p_fullHistory := None; p_currentSymbol := None;
     p_topCoins := Some cs |}.

Definition loadCoinsPage (page pageSize : Z) : M unit :=
  q <- gets (fun a => currentQuery (state_of a)) ;;
  try_catch
    (r <- api (fetchSymbolsPage (if page =? 0 then 1 else page)
                                (if pageSize =? 0 then 50 else pageSize) q) ;;
     setState (pagePatch (page_coins r) (page_total r)) ;;;
     top <- gets (fun a => topCoins (state_of a)) ;;
     (if (page =? 1) && (match top with [] => true | _ :: _ => false end)
      then setState (topPatch (page_coins r))
      else ret tt) ;;;
     renderTicker (page_coins r) page)
    (fun err =>
       modify (log_error err) ;;;
       setState (pagePatch [] (VNum 0)) ;;;
       renderTicker [] page).

(** [app.init] *)
Definition init : M unit :=
  p <- getPaginationState ;;
  let p' := {| pageSize := if pageSize p =? 0 then 50 else pageSize p;
               currentPage := if currentPage p =? 0 then 1 else currentPage p |} in
  putPagination p' ;;;
  loadCoinsPage (currentPage p') (pageSize p').

(** *** Event listeners of the dashboard *)

(** What the browser hands to a listener: the clicked element's data
    attribute, or the value chosen in the rows-per-page select. *)
Inductive Event : Type :=
| Clicked (dataSymbol : string)
| Changed (selected : Z).

Definition runHandler (h : Handler) (ev : Event) : M unit :=
  match h, ev with
  | OpenCoin, Clicked sym =>
      if String.eqb sym "" then ret tt
      else modify (with_dom (set_href ("coin.html?symbol=" ++ sym)))
  | ChangePageSize, Changed v =>
      p <- getPaginationState ;;
      let p' := {| pageSize := if v =? 0 then 50 else v; currentPage := 1 |} in
      putPagination p' ;;;
      loadCoinsPage (currentPage p') (pageSize p') ;;;
      renderDashboard
  | PrevPage, _ =>
      p <- getPaginationState ;;
      if 1 <? currentPage p then
        let p' := {| pageSize := pageSize p; currentPage := currentPage p - 1 |} in
        putPagination p' ;;;
        loadCoinsPage (currentPage p') (pageSize p') ;;;
        renderDashboard
      else ret tt
  | NextPage totalPages, _ =>
      p <- getPaginationState ;;
      if currentPage p <? totalPages then
        let p' := {| pageSize := pageSize p; currentPage := currentPage p + 1 |} in
        putPagination p' ;;;
        loadCoinsPage (currentPage p') (pageSize p') ;;;
        renderDashboard
      else ret tt
  | _, _ => ret tt
  end.

(** An event on an element runs the element's listeners in the order they
    were added. *)
Fixpoint fire (hs : list Handler) (ev : Event) : M unit :=
  match hs with
  | [] => ret tt
  | h :: rest => runHandler h ev ;;; fire rest ev
  end.

(** The listeners now on the "Prev" / "Next" buttons of the document. *)
Definition barListeners (pick : PagBar -> list Handler) (a : App) : list Handler :=
  match paginationContainer (dom_of a) with
  | Some (Some bar) => pick bar
  | _ => []
  end.

Definition clickPrev : M unit :=
  hs <- gets (barListeners prev_listeners) ;; fire hs (Clicked "").

Definition clickNext : M unit :=
  hs <- gets (barListeners next_listeners) ;; fire hs (Clicked "").

Definition changeRowsPerPage (v : Z) : M unit :=
  hs <- gets (barListeners sel_listeners) ;; fire hs (Changed v).

(** [ui.handleSearch] *)
Definition handleSearch (query : string) : M unit :=
  modify (with_state (fun st =>
    {| coins := coins st; filteredCoins := filteredCoins st;
       totalCoins := totalCoins st; watchlist := watchlist st;
       filter := filter st; currentQuery := trim query; theme := theme st;
       fullHistory := fullHistory st; currentSymbol := currentSymbol st;
       topCoins := topCoins st |})) ;;;
  p <- getPaginationState ;;
  let p' := {| pageSize := pageSize p; currentPage := 1 |} in
  putPagination p' ;;;
  loadCoinsPage (currentPage p') (if pageSize p' =? 0 then 50 else pageSize p') ;;;
  renderDashboard.

End Dashboard.
End Dashboard.

(** ** js/ui.js: detail view, price series per range *)

Module Detail.
Import Store Api Page.

Section Detail.
Context `{Host} `{Network}.

Definition rangeLabelToTimeframeParam (rangeLabel : string) : option string :=
  let label := toUpperCase rangeLabel in
  if String.eqb label "1D" then Some "1d"
  else if String.eqb label "1Y" then Some "1y"
  else if String.eqb label "10Y" then Some "10y"
  else None.

(** [internal.pricesByRange], an object used as a map.  Its keys are
    upper-cased labels, which no inherited property name equals. *)
Definition rangeCache (a : App) : gmap string (list value) :=
  default ∅ (pricesByRange (internal a)).

Definition isString (v : value) (s : string) : bool :=
  match v with
  | VStr x => String.eqb x s
  | _ => false
  end.

(** [updateDetailHeader]: the price, start date and point count (the
    name, symbol and icon nodes are left out).  [last.close] and
    [first.date] throw on [null]. *)
Definition updateDetailHeader (symbolKey : string) (prices : list value) : M unit :=
  dm <- gets dom_of ;;
  st <- gets state_of ;;
  let urlSymbol := match searchSymbol dm with
                   | Some s => if String.eqb s "" then symbolKey else s
                   | None => symbolKey
                   end in
  let coin :=
    match List.find (fun c => isString (fullSymbol c) urlSymbol
                              || isString (symbol c) urlSymbol
                              || isString (name c) urlSymbol) (coins st) with
    | Some c => Some c
    | None => List.find (fun c => isString (fullSymbol c) symbolKey) (coins st)
    end in
  price' <- of_outcome
    match detailPrice dm with
    | None => Returns None
    | Some _ =>
        match prices with
        | _ :: _ =>
            let last := List.last prices VUndef in
            if nullish last then Throws TypeError
            else Returns (Some (formatPrice (get last "close")))
        | [] =>
            match coin with
            | Some c => Returns (Some (formatPrice (price c)))
            | None => Returns (Some "$0.00")
            end
        end
    end ;;
  modify (with_dom (set_detailHeader price' (datasetStart dm) (datasetPoints dm))) ;;;
  match prices with
  | [] => ret tt
  | first :: _ =>
      start' <- of_outcome
        match datasetStart dm with
        | None => Returns None
        | Some old =>
            if nullish first then Throws TypeError
            else Returns (Some (if truthy (get first "date") then get first "date" else old))
        end ;;
      let points' := match datasetPoints dm with
                     | None => None
                     | Some _ => Some (NumberToString (Fin (inject_Z (Z.of_nat (List.length prices)))))
                     end in
      modify (with_dom (set_detailHeader price' start' points'))
  end.

(** [renderDetailChart]: what it writes to [internal]; building the chart
    maps [p => p.date] over the series, which throws on [null]. *)
Definition renderDetailChart (prices : list value) (rangeLabel : string) : M unit :=
  dm <- gets dom_of ;;
  if negb (detailCanvas dm) then ret tt
  else
    modify (fun a =>
      let r := if negb (String.eqb rangeLabel "") then rangeLabel
               else match detailRange (internal a) with
                    | Some old => if String.eqb old "" then "10Y" else old
                    | None => "10Y"
                    end in
      with_internal (set_detail prices r) a) ;;;
    if existsb nullish prices then throw TypeError else ret tt.

(** A call of [loadAndRenderDetailRange] that waits at its [await]: the
    arguments it goes on with, and what [api.fetchPrices] resolves to.  The
    request went out when the call began; reading the response and sorting
    the series touch nothing that is shared, so the rest of the call is one
    step, taken when the response is in. *)
Record Waiting : Type := {
  w_symbolKey : string;
  w_label : string;
  w_prices : outcome (list value)
}.

(** What a call has when it comes to its [await]. *)
Inductive Began : Type :=
| Cached (prices : list value)    (* the range was cached: there is no [await] *)
| Awaiting (w : Waiting).         (* the request is on its way *)

(** [loadAndRenderDetailRange] up to its [await]: the cache is looked up
    and, on a miss, the request sent.  A stored series is an array, hence
    truthy: [!prices] holds exactly when the key is absent. *)
Definition beginRange (symbolKey rangeLabel : string) : M Began :=
  modify (fun a => with_internal (set_pricesByRange (rangeCache a)) a) ;;;
  let tfParam := rangeLabelToTimeframeParam rangeLabel in
  let cacheKey := toUpperCase rangeLabel in
  cache <- gets rangeCache ;;
  match cache !! cacheKey with
  | Some prices => ret (Cached prices)
  | None =>
      fun a =>
        let '(log, r) := fetchPrices symbolKey tfParam (sent a) in
        (with_sent log a,
         Returns (Awaiting {| w_symbolKey := symbolKey; w_label := rangeLabel;
                              w_prices := r |}))
  end.

(** The three calls that end [loadAndRenderDetailRange].
    [attachDownloadButtons] only installs the two export handlers; it reads
    nothing but its arguments and is left out. *)
Definition showRange (symbolKey rangeLabel : string) (prices : list value) : M unit :=
  updateDetailHeader symbolKey prices ;;;
  renderDetailChart prices (toUpperCase rangeLabel).

(** The call from its [await] on: what [api.fetchPrices] threw is thrown
    on, a series is stored under the key, over what is there, and shown. *)
Definition resumeRange (w : Waiting) : M unit :=
  prices <- of_outcome (w_prices w) ;;
  modify (fun a =>
    with_internal (set_pricesByRange (<[toUpperCase (w_label w) := prices]> (rangeCache a))) a) ;;;
  showRange (w_symbolKey w) (w_label w) prices.

(** [loadAndRenderDetailRange] when nothing else runs while it waits. *)
Definition loadAndRenderDetailRange (symbolKey effectiveSymbol rangeLabel : string) : M unit :=
  b <- beginRange symbolKey rangeLabel ;;
  match b with
  | Cached prices => showRange symbolKey rangeLabel prices
  | Awaiting w => resumeRange w
  end.

(** The detail page between two events: the session, and the calls that
    wait for their responses. *)
Record Detailed : Type := { app : App; waiting : list Waiting }.

(** What happens on the detail page once its range buttons are live. *)
Inductive DetailEvent : Type :=
| ClickRange (label : string)   (* a click on the button with this (trimmed, upper-cased) text *)
| Arrive (i : nat).             (* the response of the [i]-th waiting call is in *)

Definition without {A : Type} (i : nat) (l : list A) : list A :=
  (List.firstn i l ++ List.skipn (S i) l)%list.

(** One event.  The listener of a range button sets [internal.detailRange]
    and calls [loadAndRenderDetailRange]; what a listener throws is
    reported by the browser and the page goes on.  Responses arrive in any
    order. *)
Definition detailStep (symbolKey : string) (ev : DetailEvent) (d : Detailed) : Detailed :=
  match ev with
  | ClickRange label =>
      match beginRange symbolKey label (with_internal (set_detailRange label) (app d)) with
      | (a1, Returns (Cached prices)) =>
          {| app := fst (showRange symbolKey label prices a1); waiting := waiting d |}
      | (a1, Returns (Awaiting w)) => {| app := a1; waiting := (waiting d ++ [w])%list |}
      | (a1, Throws _) => {| app := a1; waiting := waiting d |}
      end
  | Arrive i =>
      match List.nth_error (waiting d) i with
      | Some w => {| app := fst (resumeRange w (app d)); waiting := without i (waiting d) |}
      | None => d
      end
  end.

Definition detailRun (symbolKey : string) (evs : list DetailEvent) (d : Detailed) : Detailed :=
  List.fold_left (fun d ev => detailStep symbolKey ev d) evs d.

End Detail.
End Detail.

(** ** js/theme.js *)

Module Theme.
Import Store.

(** What [theme.js] reads and writes outside the store. *)
Record Browser : Type := {
  localTheme : option string;   (* [localStorage.theme]; [None]: no such key *)
  prefersDark : bool;           (* [window.matchMedia && matchMedia("(prefers-color-scheme: dark)").matches] *)
  darkClass : bool              (* [document.documentElement.classList.contains("dark")] *)
}.

Section Theme.
Context {W : Type}.

(** The [ctx] handed to [createTheme], with the browser around it. *)
Record Ctx : Type := {
  world : Store.World W;
  hasSetState : bool;           (* [typeof ctx.setState === "function"] *)
  browser : Browser
}.

Definition themePatch (next : string) : Patch :=
  {| p_coins := None; p_filteredCoins := None; p_totalCoins := None;
     p_watchlist := None; p_filter := None; p_currentQuery := None;
     p_theme := Some next; p_fullHistory := None; p_currentSymbol := None;
     p_topCoins := None |}.

(** [ctx.state.theme = next] *)
Definition assignTheme (next : string) (w : Store.World W) : Store.World W :=
  let st := Store.state w in
  {| Store.state :=
       {| coins := coins st; filteredCoins := filteredCoins st;
          totalCoins := totalCoins st; watchlist := watchlist st;
          filter := filter st; currentQuery := currentQuery st; theme := next;
          fullHistory := fullHistory st; currentSymbol := currentSymbol st;
          topCoins := topCoins st |};
     Store.listeners := Store.listeners w; Store.page := Store.page w;
     Store.console := Store.console w |}.

(** [theme.set(val)] *)
Definition set (val : value) (c : Ctx) : Ctx :=
  let next := match val with
              | VStr s => if String.eqb s "dark" then "dark" else "light"
              | _ => "light"
              end in
  {| world := if hasSetState c then Store.setState (Some (themePatch next)) (world c)
              else assignTheme next (world c);
     hasSetState := hasSetState c;
     browser := {| localTheme := Some next;
                   prefersDark := prefersDark (browser c);
                   darkClass := String.eqb next "dark" |} |}.

(** [theme.toggle()] *)
Definition toggle (c : Ctx) : Ctx :=
  set (VStr (if String.eqb (theme (Store.state (world c))) "dark" then "light" else "dark")) c.

(** [theme.init()] *)
Definition init (c : Ctx) : Ctx :=
  let stored := localTheme (browser c) in
  let isDark := match stored with
                | Some s => String.eqb s "dark"
                | None => false
                end in
  let absent := match stored with
                | Some _ => false
                | None => true
                end in
  if isDark || (absent && prefersDark (browser c)) then set (VStr "dark") c
  else set (VStr "light") c.

End Theme.
Arguments Ctx : clear implicits.

End Theme.

(** ** js/router.js *)

Module Router.

Inductive Warning : Type :=
| NeedsSymbol                   (* router.go("detail") requires data.symbol *)
| UnknownView (view : value).

(** The window as the router acts on it. *)
Record Window : Type := {
  location : option string;     (* the address last assigned to [location.href] *)
  warned : list Warning;        (* [console.warn] *)
  wentBack : nat                (* calls of [history.back()] *)
}.

Section Router.
Context `{Host}.

Definition navigate (url : string) (w : Window) : Window :=
  {| location := Some url; warned := warned w; wentBack := wentBack w |}.

Definition warn (x : Warning) (w : Window) : Window :=
  {| location := location w; warned := (warned w ++ [x])%list; wentBack := wentBack w |}.

(** [router.go(view, data)]: [switch] compares with [===]. *)
Definition go (view data : value) (w : Window) : Window :=
  match view with
  | VStr v =>
      if String.eqb v "landing" then navigate "index.html" w
      else if String.eqb v "dashboard" then navigate "dashboard.html" w
      else if String.eqb v "watchlist" then navigate "watchlist.html" w
      else if String.eqb v "detail" then
        if negb (truthy data) || negb (truthy (get data "symbol")) then warn NeedsSymbol w
        else navigate ("coin.html?symbol=" ++ encodeURIComponent (ToString (get data "symbol"))) w
      else warn (UnknownView view) w
  | _ => warn (UnknownView view) w
  end.

(** [router.back()] *)
Definition back (w : Window) : Window :=
  {| location := location w; warned := warned w; wentBack := S (wentBack w) |}.

End Router.
End Router.

(** ** js/api.js and js/app.js: the whole list *)

Module AllCoins.
Import Store Api Page.

Section AllCoins.
Context `{Host} `{Network}.

(** [!items.length] for the [items] of [normalizeSymbolsResponse]. *)
Definition noLength (items : value) : bool := negb (truthy (get_length items)).

(** [[...items]]: arrays and strings are iterable, a string yields its
    characters; anything else makes the spread throw. *)
Fixpoint characters (s : string) : list value :=
  match s with
  | EmptyString => []
  | String c r => VStr (String c EmptyString) :: characters r
  end.

Definition spread (items : value) : outcome (list value) :=
  match items with
  | VArr l => Returns l
  | VStr s => Returns (characters s)
  | _ => Throws TypeError
  end.

(** [n >= total] for a number [n] and a [total] that is not [opaque]:
    false when [total] converts to [NaN]. *)
Definition reaches (n : nat) (total : value) : bool :=
  let t := ToNumber total in
  negb (num_is_nan t) && negb (num_ltb (Fin (inject_Z (Z.of_nat n))) t).

(** The [while (true)] loop of [fetchAllSymbols], from the top of an
    iteration with [page] and [all] as they are.  [fuel] bounds the
    iterations run: [None] is a loop that is still going when it is used
    up.  In [!total || all.length >= total] the comparison is evaluated for
    a truthy [total] only, and converting an [opaque] one throws. *)
Fixpoint fetchAllFrom (fuel : nat) (pageSize page : Z) (all : list value)
    : Net (option (list value)) :=
  match fuel with
  | O => ret None
  | S fuel' =>
      payload <- getJson (SymbolsUrl page pageSize None) ;;
      if negb (truthy payload) then ret (Some all)
      else
        let '(items, total) := normalizeSymbolsResponse payload in
        if noLength items then ret (Some all)
        else
          more <- of_outcome (spread items) ;;
          let all' := (all ++ more)%list in
          if negb (truthy total) then ret (Some all')
          else if opaque total then throw TypeError
          else if reaches (List.length all') total then ret (Some all')
          else fetchAllFrom fuel' pageSize (page + 1) all'
  end.

(** [api.fetchAllSymbols({ pageSize })]; it ends with
    [all.map(mapSymbolToCoin)]. *)
Definition fetchAllSymbols (fuel : nat) (pageSize : Z) : Net (option (list Coin)) :=
  all <- fetchAllFrom fuel pageSize 1 [] ;;
  match all with
  | None => ret None
  | Some l => cs <- of_outcome (mapCoins l) ;; ret (Some cs)
  end.

Definition allPatch (cs : list Coin) : Patch :=
  {| p_coins := Some cs; p_filteredCoins := Some cs;
     p_totalCoins := Some (VNum (inject_Z (Z.of_nat (List.length cs))));
     p_watchlist := None; p_filter := None; p_currentQuery := None;
     p_theme := None; p_fullHistory := None; p_currentSymbol := None;
     p_topCoins := None |}.

(** [app.loadAllCoins()]; [None] when the loop of [fetchAllSymbols] is
    still going. *)
Definition loadAllCoins (fuel : nat) : M (option unit) :=
  try_catch
    (r <- api (fetchAllSymbols fuel 500) ;;
     match r with
     | None => ret None
     | Some coins =>
         Page.setState (allPatch coins) ;;;
         top <- gets (fun a => topCoins (state_of a)) ;;
         (match top with
          | [] => Page.setState (Dashboard.topPatch (List.firstn 100 coins))
          | _ :: _ => ret tt
          end) ;;;
         ret (Some tt)
     end)
    (fun err =>
       modify (log_error err) ;;;
       Page.setState (Dashboard.pagePatch [] (VNum 0)) ;;;
       ret (Some tt)).

End AllCoins.
End AllCoins.

(** ** js/ui.js: the watchlist table *)

Module Watch.
Import Store Api Page Dashboard.

(** One row of the watchlist table: the values interpolated into the
    template, in order. *)
Record WatchRow : Type := {
  wr_index : Z;
  wr_initial : string;
  wr_name : value;
  wr_symbol : string;
  wr_price : string;
  wr_changeCls : string;
  wr_changeText : string;
  wr_vol : value
}.

(** The comparison of [Set.prototype.has].  Two values parsed from JSON at
    different places are never the same object. *)
Definition sameValueZero (a b : value) : bool :=
  match a, b with
  | VUndef, VUndef | VNull, VNull => true
  | VBool x, VBool y => Bool.eqb x y
  | VNum x, VNum y => Qeq_bool x y
  | VStr x, VStr y => String.eqb x y
  | _, _ => false
  end.

(** [watch.has(k)] *)
Definition has (watch : list value) (k : value) : bool := existsb (sameValueZero k) watch.

(** [c.fullSymbol || c.symbol || c.name] *)
Definition watchKey (c : Coin) : value := or_else (or_else (fullSymbol c) (symbol c)) (name c).

Section Watch.
Context `{Host}.

(** The callback of [coins.map] in [renderWatchlist]. *)
Definition watchRowOf (ic : nat * Coin) : outcome WatchRow :=
  let '(idx, c) := ic in
  let ch := formatChange (change c) in
  match symbolDisplay c with
  | VStr s =>
      Returns {| wr_index := Z.of_nat idx + 1;
                 wr_initial := initialOf s;
                 wr_name := nameDisplay c s;
                 wr_symbol := s;
                 wr_price := formatPrice (price c);
                 wr_changeCls := cls ch;
                 wr_changeText := text ch;
                 wr_vol := if nullish (vol c) then VStr dash else vol c |}
  | _ => Throws TypeError
  end.

(** [ui.renderWatchlist]: the content of [#watchlist-table-body] afterwards,
    [None] being a page without that element.  When a row throws, nothing
    has been written. *)
Definition renderWatchlist (st : State) (tbody : option (list WatchRow))
    : outcome (option (list WatchRow)) :=
  match tbody with
  | None => Returns None
  | Some _ =>
      let coins := List.filter (fun c => has (watchlist st) (watchKey c)) (Store.coins st) in
      match mapO watchRowOf (List.combine (List.seq 0 (List.length coins)) coins) with
      | Returns rows => Returns (Some rows)
      | Throws e => Throws e
      end
  end.

End Watch.
End Watch.

(** ** js/utils.js *)

Module Utils.

(** The clock and the date parser of the browser. *)
Class Clock : Type := {
  now : Q;                      (* [Date.now()] *)
  timeOf : value -> number      (* [new Date(v).getTime()] *)
}.

Section Utils.
Context `{Host} `{Clock}.

(** The object literal [ms] of [filterPrices], looked up by key. *)
Definition windowMs (key : string) : option Q :=
  if String.eqb key "1D" then Some (inject_Z (1 * 24 * 60 * 60 * 1000))
  else if String.eqb key "1M" then Some (inject_Z (30 * 24 * 60 * 60 * 1000))
  else if String.eqb key "1Y" then Some (inject_Z (365 * 24 * 60 * 60 * 1000))
  else if String.eqb key "10Y" then Some (inject_Z (3650 * 24 * 60 * 60 * 1000))
  else None.

(** The callback of [list.filter]: [Number.isFinite(t) && t >= cutoff]. *)
Definition since (cutoff : Q) (p : value) : bool :=
  match timeOf (get p "date") with
  | Fin t => Qle_bool cutoff t
  | _ => false
  end.

(** [utils.filterPrices(prices, range)] *)
Definition filterPrices (prices range : value) : list value :=
  let list := match prices with
              | VArr l => l
              | _ => []
              end in
  match windowMs (toUpperCase (ToString (or_else range (VStr "")))) with
  | None => list
  | Some w => List.filter (since (now - w)) list
  end.

End Utils.
End Utils.

(** ** js/ui.js: the export buttons *)

Module Download.

Section Download.
Context `{Host}.

(** The class [[A-Za-z0-9\-_.]] *)
Definition safeChar (c : ascii) : bool :=
  let n := nat_of_ascii c in
  ((65 <=? n) && (n <=? 90) || (97 <=? n) && (n <=? 122) || (48 <=? n) && (n <=? 57)
   || (n =? 45) || (n =? 95) || (n =? 46))%nat.

Fixpoint sanitize (s : string) : string :=
  match s with
  | EmptyString => EmptyString
  | String c r => String (if safeChar c then c else "_"%char) (sanitize r)
  end.

(** [(symbol || "asset").replace(/[^A-Za-z0-9\-_.]/g, "_")] *)
Definition safeSymbol (symbol : string) : string :=
  sanitize (if String.eqb symbol "" then "asset" else symbol).

Definition csvFileName (symbol : string) : string := safeSymbol symbol ++ "_ohlcv.csv".
Definition jsonFileName (symbol : string) : string := safeSymbol symbol ++ "_ohlcv.json".

Definition quote : string := String dquote EmptyString.

(** The callback that writes one cell of a line. *)
Definition csvCell (val : value) : string :=
  if nullish val then ""
  else
    let s := ToString val in
    if includes "," s || includes quote s
    then quote ++ replaceAll dquote (quote ++ quote) s ++ quote
    else s.

(** [[p.date ?? "", p.open ?? "", ...]]; reading a property of [null]
    throws. *)
Definition csvFields (p : value) : outcome (list value) :=
  if nullish p then Throws TypeError
  else Returns (List.map (fun k => coalesce (get p k) (VStr ""))
                  ["date"; "open"; "high"; "low"; "close"; "volume"]).

(** [l.join(sep)] on strings *)
Fixpoint join (sep : string) (l : list string) : string :=
  match l with
  | [] => ""
  | [x] => x
  | x :: r => x ++ sep ++ join sep r
  end.

Definition csvLine (fields : list value) : string := join "," (List.map csvCell fields).

(** The lines of the file the CSV button builds. *)
Definition csvLines (prices : list value) : outcome (list string) :=
  match mapO csvFields prices with
  | Returns rows =>
      Returns (join "," ["date"; "open"; "high"; "low"; "close"; "volume"]
               :: List.map csvLine rows)
  | Throws e => Throws e
  end.

(** The text of the file: [csvLines.join("\n")]. *)
Definition csvText (prices : list value) : outcome string :=
  match csvLines prices with
  | Returns lines => Returns (join (String "010"%char EmptyString) lines)
  | Throws e => Throws e
  end.

End Download.
End Download.

(** *** js/ui.js: the table of technical indicators *)

Module Indicators.
Section Indicators.
Context `{Host}.

(** The property name of the [i]-th element of an array or string: [i] in
    decimal digits. *)
Definition indexName (i : nat) : string := DecimalString.NilEmpty.string_of_uint (Nat.to_uint i).

(** The names of a list, each at its first occurrence. *)
Fixpoint distinct (l : list string) : list string :=
  match l with
  | [] => []
  | x :: r => x :: List.filter (fun y => negb (String.eqb y x)) (distinct r)
  end.

(** [Object.keys(v)] of a value that is not nullish: the names of an object
    parsed from JSON, the indices of an array or of a string, nothing for a
    number or a boolean.  JavaScript lists integer-like names first; the
    function below only counts the names or sorts them. *)
Definition keys (v : value) : list string :=
  match v with
  | VObj kv => distinct (List.map fst kv)
  | VArr l => List.map indexName (List.seq 0 (List.length l))
  | VStr s => List.map indexName (List.seq 0 (String.length s))
  | _ => []
  end.

(** [!names.length] *)
Definition noNames (names : list string) : bool :=
  match names with
  | [] => true
  | _ :: _ => false
  end.

(** [l[name]] for an array from JSON, when [name] is one of its indices. *)
Definition element (l : list value) (name : string) : value :=
  match List.find (fun i => String.eqb (indexName i) name) (List.seq 0 (List.length l)) with
  | Some i => List.nth i l VUndef
  | None => VUndef
  end.

(** [inds?.[name]], as far as its [value] and [signal] show: the own
    property of an object, the element of an array.  What a prototype
    supplies for other names (functions, the length, the characters of a
    string) has neither [value] nor [signal], like a missing entry. *)
Definition entryOf (inds : value) (name : string) : value :=
  match inds with
  | VObj kv => lookup_key name kv
  | VArr l => element l name
  | _ => VUndef
  end.

(** The timeframes of the table, in the order of its columns. *)
Definition order : list string := ["1d"; "1y"; "10y"].

(** [tfs[key]?.indicators] *)
Definition indicatorsOf (tfs : value) (key : string) : value :=
  get (get tfs key) "indicators".

(** One cell: the value and the signal badge of an indicator in a timeframe. *)
Record Cell : Type := { valText : string; sigText : string; sigCls : string }.

Definition cellOf (tfs : value) (indName key : string) : Cell :=
  let entry := or_else (entryOf (indicatorsOf tfs key) indName) VNull in
  let sig := formatSignal (get entry "signal") in
  {| valText := formatIndicatorValue (get entry "value");
     sigText := text sig; sigCls := cls sig |}.

Record IndicatorRow : Type := { indName : string; cells : list Cell }.

(** What the body of the indicator table holds: the line that says there is
    no data for a symbol, or one row per indicator. *)
Inductive TableBody : Type :=
| NoData (symbol : string)
| Rows (rows : list IndicatorRow).

(** [names.sort()]: ascending by code units, [x] moves behind [y] when
    [y < x]. *)
Definition sortNames (names : list string) : list string :=
  stableSort (fun x y => string_ltb y x) names.

(** [renderIndicatorsSection(symbol, indicatorsPayload)], on the body of the
    indicator table ([None]: the page has none). *)
Definition renderIndicatorsSection (symbol indicatorsPayload : value)
    (tbody : option TableBody) : option TableBody :=
  match tbody with
  | None => None
  | Some _ =>
      let tfs := get indicatorsPayload "timeframes" in
      if negb (truthy tfs) || noNames (keys tfs) then Some (NoData (ToString symbol))
      else
        let firstKey := List.find (fun k => truthy (indicatorsOf tfs k)) order in
        let indicatorNames :=
          match firstKey with
          | Some k => keys (or_else (indicatorsOf tfs k) (VObj []))
          | None => []
          end in
        if noNames indicatorNames then Some (NoData (ToString symbol))
        else
          Some (Rows (List.map (fun n => {| indName := n;
                                            cells := List.map (cellOf tfs n) order |})
                        (sortNames indicatorNames)))
  end.

End Indicators.
End Indicators.

(** ** A host to run examples on *)

Module Sample.
Import Store Api Page.

(** Decimal digits only, for running examples; every built-in of the
    class answers with a fixed text otherwise. *)
Fixpoint digits (s : string) (acc : Z) : option Z :=
  match s with
  | EmptyString => Some acc
  | String c r =>
      let n := Z.of_nat (nat_of_ascii c) in
      if (48 <=? n) && (n <=? 57) then digits r (10 * acc + (n - 48)) else None
  end.

Definition host : Host :=
  {| StringToNumber := fun s =>
       match s with
       | EmptyString => Fin 0
       | _ => match digits s 0 with
              | Some z => Fin (inject_Z z)
              | None => NaN
              end
       end;
     NumberToString := fun _ => "#";
     toLocaleFixed2 := fun _ => "#.##";
     toLocaleMax2 := fun _ => "#.##";
     toPrecision6 := fun _ => "#.#####";
     toFixed2 := fun _ => "#.##";
     intlCompactUSD := fun _ => Some "$#";
     encodeURIComponent := fun s => s;
     random := fun n => Z.of_nat (n mod 7) # 7 |}.

(** A network that is down: every [fetch] rejects. *)
Definition offline : Network := {| serve := fun _ _ => Rejected |}.

(** A network whose first request is lost and which answers every later one
    with the same two-point series. *)
Definition point (date : string) : value := VObj [("date", VStr date); ("close", VNum 1)].

Definition flaky : Network :=
  {| serve := fun n _ =>
       match n with
       | O => Rejected
       | _ => Responded {| ok := true; json := Some (VArr [point "2024-01-02"; point "2024-01-01"]) |}
       end |}.

(** A backend whose series has grown by a point after the first request. *)
Definition growing : Network :=
  {| serve := fun n _ =>
       match n with
       | O => Responded {| ok := true; json := Some (VArr [point "2024-01-01"]) |}
       | _ => Responded {| ok := true; json := Some (VArr [point "2024-01-01"; point "2024-01-02"]) |}
       end |}.

(** A backend that answers every request with a 503 and an HTML body. *)
Definition unavailable : Network :=
  {| serve := fun _ _ => Responded {| ok := false; json := None |} |}.

(** A backend that answers every request with the same body. *)
Definition always (body : value) : Network :=
  {| serve := fun _ _ => Responded {| ok := true; json := Some body |} |}.

Definition coin (n : string) (r : value) (ch : value) : Coin :=
  {| id := VStr n; rank := r; symbol := VStr n; fullSymbol := VStr (n ++ "USDT");
     name := VStr n; price := VNum 1; change := ch; vol := VNull; mcap := VNull |}.

Definition dashboardDom : Dom :=
  {| tableBody := Some []; topCards := Some []; noResults := Some false;
     panel := true; paginationContainer := None; ticker := Some [];
     detailPrice := None; datasetStart := None; datasetPoints := None;
     detailCanvas := false; href := None; searchSymbol := None |}.

Definition detailDom : Dom :=
  {| tableBody := None; topCards := None; noResults := None;
     panel := false; paginationContainer := None; ticker := None;
     detailPrice := Some ""; datasetStart := Some VNull; datasetPoints := Some "";
     detailCanvas := true; href := None; searchSymbol := Some "BTCUSDT" |}.

Definition session (dm : Dom) (st : State) : App :=
  {| store := {| Store.state := st; Store.listeners := []; Store.page := dm;
                 Store.console := [] |};
     internal := initialInternal; sent := []; draws := 0 |}.

(** A backend with nothing to list at first and one entry later on. *)
Definition bitcoin : value :=
  VObj [("id", VNum 1); ("rank", VNum 1); ("name", VStr "BTC");
        ("symbol", VStr "BTCUSDT"); ("price", VNum 1); ("change", VNum 0)].

Definition restocked : Network :=
  {| serve := fun n _ =>
       match n with
       | O => Responded {| ok := true; json := Some (VArr []) |}
       | _ => Responded {| ok := true; json := Some (VArr [bitcoin]) |}
       end |}.

(** One page of entries as the table holds it. *)
Definition entries : list Coin :=
  [coin "A" (VNum 2) (VNum 0); coin "B" VNull (VNum 5); coin "C" (VNum 1) (VNum 0)].

Definition listing (total : value) (top : list Coin) : State :=
  {| coins := entries; filteredCoins := entries; totalCoins := total;
     watchlist := []; filter := ""; currentQuery := ""; theme := "light";
     fullHistory := []; currentSymbol := VNull; topCoins := top |}.

(** The dashboard with 137 entries in all, 50 per page, asked for page [n]. *)
Definition dashboardAt (n : Z) : App :=
  with_internal (set_pagination {| pageSize := 50; currentPage := n |})
    (session dashboardDom (listing (VNum 137) [])).

End Sample.

(** ** Vocabulary of the statements *)

Module Spec.
Import Store Api Page Dashboard Detail.

(** The HTML entity of a character, as the documentation of [esc] has it. *)
Definition entityOf (c : ascii) : string :=
  if Ascii.eqb c "&" then "&amp;"
  else if Ascii.eqb c "<" then "&lt;"
  else if Ascii.eqb c ">" then "&gt;"
  else if Ascii.eqb c dquote then "&quot;"
  else if Ascii.eqb c "'" then "&#039;"
  else String c EmptyString.

(** Every character replaced by its entity, in one pass. *)
Fixpoint escapeEach (s : string) : string :=
  match s with
  | EmptyString => EmptyString
  | String c r => entityOf c ++ escapeEach r
  end.

(** The characters that open or close markup or an attribute value. *)
Definition markup (c : ascii) : bool :=
  Ascii.eqb c "<" || Ascii.eqb c ">" || Ascii.eqb c dquote || Ascii.eqb c "'".

Fixpoint has_char (p : ascii -> bool) (s : string) : bool :=
  match s with
  | EmptyString => false
  | String c r => p c || has_char p r
  end.

(** The placeholder of [formatSignal]. *)
Definition signalPlaceholder : Styled :=
  {| text := dash; cls := "text-gray-500 bg-gray-500/10" |}.

(** The placeholder of [formatChange]. *)
Definition changePlaceholder : Styled := {| text := dash; cls := "" |}.

(** The style class of an upper-cased signal label: green for a buy or a
    bullish one, red for a sell or a bearish one, amber for hold and
    neutral, grey for any other. *)
Definition signalClass (label : string) : string :=
  if String.eqb label "BUY" || String.eqb label "STRONG_BUY" || includes "BULL" label
  then "text-emerald-500 bg-emerald-500/10"
  else if String.eqb label "SELL" || String.eqb label "STRONG_SELL" || includes "BEAR" label
  then "text-red-500 bg-red-500/10"
  else if String.eqb label "HOLD" || String.eqb label "NEUTRAL"
  then "text-amber-500 bg-amber-500/10"
  else "text-gray-500 bg-gray-500/10".

(** The five replacements of [esc], applied to [s]. *)
Definition escChain (s : string) : string :=
  replaceAll "'" "&#039;"
    (replaceAll dquote "&quot;"
       (replaceAll ">" "&gt;"
          (replaceAll "<" "&lt;"
             (replaceAll "&" "&amp;" s)))).

(** The lower-case letter that "NaN" contains. *)
Definition lower_a (c : ascii) : bool := Ascii.eqb c "a".

(** One subscriber's turn: its effect on the page and, if it threw, the
    error that [console.error] reports. *)
Definition turn {W : Type} (st : State) (p : Patch) (prev : State)
    (acc : W * list error) (fn : Subscriber W) : W * list error :=
  let '(pg, log) := acc in
  let '(pg', r) := run fn st p prev pg in
  (pg', match r with
        | Some e => (log ++ [e])%list
        | None => log
        end).

(** The request an operation issues when it goes to the network. *)
Definition urlOf (c : Call) : Url :=
  match c with
  | CallSymbolsPage p ps q => SymbolsUrl p ps (queryParam q)
  | CallPrices s tf => PricesUrl s (timeframeParam tf)
  | CallTechnical s => TechnicalUrl s
  | CallLstm s lb => LstmUrl s lb
  | CallSentiment s w l => SentimentUrl s w l
  | CallOnchain s => OnchainUrl s
  | CallSignal s => SignalUrl s
  end.

(** A response with a non-success status, or whose body is not JSON. *)
Definition failed (r : Response) : bool :=
  negb (ok r) || match json r with
                 | Some _ => false
                 | None => true
                 end.

(** [l.length] as a value. *)
Definition lengthOf {A : Type} (l : list A) : value :=
  VNum (inject_Z (Z.of_nat (List.length l))).

(** [internal.pagination] as [getPaginationState] returns it. *)
Definition paginationOr (a : App) : PaginationState :=
  default {| pageSize := 50; currentPage := 1 |} (pagination (internal a)).

(** The pagination state after the clamping step of a render. *)
Definition clamped (st : State) (coins : list Coin) (p : PaginationState) : PaginationState :=
  {| pageSize := pageSize p;
     currentPage := clampPage (currentPage p) (totalPagesOf (totalOf st coins) (pageSizeOf p)) |}.

(** Setting the content of [#top-cards-container], or removing it. *)
Definition put_topCards (tc : option (list Card)) (dm : Dom) : Dom :=
  {| tableBody := tableBody dm; topCards := tc; noResults := noResults dm;
     panel := panel dm; paginationContainer := paginationContainer dm;
     ticker := ticker dm; detailPrice := detailPrice dm;
     datasetStart := datasetStart dm; datasetPoints := datasetPoints dm;
     detailCanvas := detailCanvas dm; href := href dm;
     searchSymbol := searchSymbol dm |}.

(** A session without its summary cards and its count of random draws. *)
Definition sansCards (a : App) : App := with_draws 0 (with_dom (put_topCards None) a).

(** A computation that changes nothing but the cards and that count. *)
Definition cards_only {A : Type} (m : M A) : Prop :=
  forall a, sansCards (fst (m a)) = sansCards a.

(** [!l.length] *)
Definition isEmpty {A : Type} (l : list A) : bool :=
  match l with
  | [] => true
  | _ :: _ => false
  end.

(** [renderTicker(coinsPage, { page })] throws in the session [a]: the
    ticker is on the page, the page asked for is the first, and the loop
    throws. *)
Definition tickerFails `{Host} (coinsPage : list Coin) (page : Z) (a : App) : bool :=
  match ticker (dom_of a) with
  | Some _ => (page =? 1) && tickerThrows coinsPage
  | None => false
  end.

(** The [catch] block of [loadCoinsPage] up to its [renderTicker]: the error
    is reported and the listing emptied. *)
Definition emptied (e : error) (a : App) : App :=
  with_store (Store.setState (Some (pagePatch [] (VNum 0)))) (log_error e a).

(** The rank an entry is sorted by, as a rational: a missing rank counts as
    [Number.MAX_SAFE_INTEGER]. *)
Definition rankQ (c : Coin) : Q :=
  match coalesce (rank c) (VNum MAX_SAFE_INTEGER) with
  | VNum q => q
  | _ => 0
  end.

(** The rank is a number or missing. *)
Definition rankKnown (c : Coin) : bool :=
  match rank c with
  | VUndef | VNull | VNum _ => true
  | _ => false
  end.

Definition rankLe (a b : Coin) : Prop := (rankQ a <= rankQ b)%Q.

(** What a summary card shows of an entry. *)
Definition cardShows `{Host} (card : Card) (c : Coin) : Prop :=
  symbolDisplay c = VStr (card_symbol card) /\
  card_price card = formatPrice (price c) /\
  card_changeText card = text (formatChange (change c)) /\
  card_detailSymbol card = detailSymbol c.

Section Faces.
Context `{Host}.

(** A card without its sparkline. *)
Definition noPath : SparkPath := {| d := []; width := 0; height := 0 |}.

Definition erasePath (c : Card) : Card :=
  {| card_detailSymbol := card_detailSymbol c; card_initial := card_initial c;
     card_name := card_name c; card_symbol := card_symbol c;
     card_changeCls := card_changeCls c; card_changeText := card_changeText c;
     card_price := card_price c; card_path := noPath;
     card_stroke := card_stroke c; card_listeners := card_listeners c |}.

(** A session without the sparklines of its cards and its count of draws. *)
Definition sansSparklines (a : App) : App :=
  with_draws 0
    (with_dom (fun dm => put_topCards (option_map (List.map erasePath) (topCards dm)) dm) a).

(** [cardOf] without the sparkline: what the card shows of the entry. *)
Definition cardFace (c : Coin) : outcome Card :=
  let ch := formatChange (change c) in
  let isUp := num_leb (Fin 0) (ToNumber (or_else (change c) (VNum 0))) in
  match symbolDisplay c with
  | VStr s =>
      Returns {| card_detailSymbol := detailSymbol c;
                 card_initial := initialOf s;
                 card_name := nameDisplay c s;
                 card_symbol := s;
                 card_changeCls := cls ch;
                 card_changeText := text ch;
                 card_price := formatPrice (price c);
                 card_path := noPath;
                 card_stroke := if isUp then "#22c55e" else "#ef4444";
                 card_listeners := [] |}
  | _ => Throws TypeError
  end.

(** [renderTopCards] without sparklines and random draws. *)
Definition renderTopFaces : M unit :=
  dm <- gets dom_of ;;
  match topCards dm with
  | None => ret tt
  | Some _ =>
      st <- gets state_of ;;
      let allCoins := match topCoins st with
                      | [] => coins st
                      | _ :: _ => topCoins st
                      end in
      match allCoins with
      | [] => modify (with_dom (set_topCards []))
      | _ :: _ =>
          cards <- of_outcome (mapO cardFace (List.firstn 5 (sortByRank allCoins))) ;;
          modify (with_dom (set_topCards (List.map (listenCard OpenCoin) cards)))
      end
  end.

(** [renderDashboard] without sparklines and random draws. *)
Definition renderFaces : M unit :=
  dm <- gets dom_of ;;
  match tableBody dm with
  | None => ret tt
  | Some _ => renderTopFaces ;;; renderTable
  end.

Definition eraseO (o : outcome (list Card)) : outcome (list Card) :=
  match o with
  | Returns cards => Returns (List.map erasePath cards)
  | Throws e => Throws e
  end.

(** A computation that only draws random numbers, and returns. *)
Definition draws_only {A : Type} (m : M A) : Prop :=
  forall a, exists n x, m a = (with_draws n a, Returns x).

(** The entries the cards are drawn from. *)
Definition cardSource (st : State) : list Coin :=
  match topCoins st with
  | [] => coins st
  | _ :: _ => topCoins st
  end.

(** Whether what is written to the pagination container shows on the page. *)
Definition attached (a : App) : bool :=
  match paginationContainer (dom_of a) with
  | Some _ => true
  | None => panel (dom_of a)
  end.

Definition writeBar (c : option PagBar) (a : App) : App :=
  if attached a then with_dom (set_paginationContainer (Some c)) a else a.

(** The totals and the page of a render, from the state and the pagination
    it starts with. *)
Definition windowOf (st : State) (coins : list Coin) (p : PaginationState) : PageWindow :=
  let total := totalOf st coins in
  let pageSize := pageSizeOf p in
  let totalPages := totalPagesOf total pageSize in
  let page := clampPage (currentPage p) totalPages in
  let startIndex := (page - 1) * pageSize in
  {| w_total := total; w_pageSize := pageSize; w_totalPages := totalPages;
     w_page := page; w_startIndex := startIndex;
     w_endIndex := Qmin (inject_Z (startIndex + Z.of_nat (List.length coins))) total |}.

Definition barOf (w : PageWindow) : PagBar :=
  pagBar (w_pageSize w) (w_startIndex w) (w_endIndex w) (w_total w) (w_page w) (w_totalPages w).

Definition rowsOf (coins : list Coin) (w : PageWindow) : outcome (list Row) :=
  mapO (rowOf (w_startIndex w)) (List.combine (List.seq 0 (List.length coins)) coins).

(** [renderTable], written out. *)
Definition tableOf (a : App) : App * outcome unit :=
  match filteredCoins (state_of a) with
  | [] =>
      (writeBar None (with_dom (set_noResults true) (with_dom (set_tableBody []) a)),
       Returns tt)
  | c :: cs =>
      let w := windowOf (state_of a) (c :: cs) (paginationOr a) in
      let a3 := with_internal
                  (set_pagination {| pageSize := pageSize (paginationOr a);
                                     currentPage := w_page w |})
                  (with_dom (set_noResults false) a) in
      match rowsOf (c :: cs) w with
      | Throws e => (a3, Throws e)
      | Returns rows =>
          (writeBar (Some (barOf w))
             (with_dom (set_tableBody (List.map (listenRow OpenCoin) rows)) a3),
           Returns tt)
      end
  end.

(** The listener lists of the elements that [renderDashboard] writes. *)
Definition listenersOf (a : App) : list (list Handler) :=
  (match tableBody (dom_of a) with
   | Some rows => List.map row_listeners rows
   | None => []
   end
   ++ match topCards (dom_of a) with
      | Some cards => List.map card_listeners cards
      | None => []
      end
   ++ match paginationContainer (dom_of a) with
      | Some (Some bar) => [sel_listeners bar; prev_listeners bar; next_listeners bar]
      | _ => []
      end)%list.

Definition single (hs : list Handler) : Prop := List.length hs = 1%nat.

End Faces.

(** Whether two numbers print the same. *)
Definition num_same (a b : number) : bool :=
  match a, b with
  | NaN, NaN => true
  | _, _ => num_eqb a b
  end.

Fixpoint allEqb {A : Type} (eqb : A -> A -> bool) (l m : list A) : bool :=
  match l, m with
  | [], [] => true
  | x :: l', y :: m' => eqb x y && allEqb eqb l' m'
  | _, _ => false
  end.

Definition pathEqb (p q : SparkPath) : bool :=
  allEqb (fun u v => num_same (fst u) (fst v) && num_same (snd u) (snd v)) (d p) (d q).

(** The sparklines on the page. *)
Definition sparklines (a : App) : list SparkPath :=
  match topCards (dom_of a) with
  | Some cards => List.map card_path cards
  | None => []
  end.

(** Whether two pages show the same sparklines. *)
Definition sameSparklines (a b : App) : bool :=
  allEqb pathEqb (sparklines a) (sparklines b).

End Spec.

(** ** Vocabulary of the further statements *)

Module Terms.
Import Store Api Page Dashboard Detail Spec.

(** [page || 1] and [pageSize || 50] as [loadCoinsPage] reads its arguments. *)
Definition pageOr1 (page : Z) : Z := if page =? 0 then 1 else page.
Definition sizeOr50 (pageSize : Z) : Z := if pageSize =? 0 then 50 else pageSize.

(** The request [loadCoinsPage(page, pageSize)] issues in the session [a]. *)
Definition pageRequest (page pageSize : Z) (a : App) : Url :=
  SymbolsUrl (pageOr1 page) (sizeOr50 pageSize) (queryParam (currentQuery (state_of a))).

(** The query parameter of a search for [query]. *)
Definition searchParam (query : string) : option string :=
  if String.eqb (trim query) "" then None else Some (trim query).

(** The number printed in front of the [i]-th row of a page. *)
Definition numberOf (p : PaginationState) (i : nat) : Z :=
  (currentPage p - 1) * pageSizeOf p + Z.of_nat i + 1.

(** A finite number of magnitude at most [bound]. *)
Definition within (bound : Q) (p : number) : Prop :=
  match p with
  | Fin q => (Qabs q <= bound)%Q
  | _ => False
  end.

(** A coordinate pair inside the view box [0, w] x [0, h]. *)
Definition inBox (w h : Q) (xy : number * number) : Prop :=
  match xy with
  | (Fin x, Fin y) => (0 <= x <= w)%Q /\ (0 <= y <= h)%Q
  | _ => False
  end.

(** [Number(changePercent) || 0] as a rational, for a change that is not
    infinite. *)
Definition changeOr0 `{Host} (changePercent : value) : Q :=
  match num_or (ToNumber changePercent) (Fin 0) with
  | Fin q => q
  | _ => 0
  end.

(** The straight line a sparkline jitters around: from 100 to
    100 * (1 + change / 100) over 20 points. *)
Definition trendAt (change : Q) (i : nat) : Q :=
  100 + (100 * (1 + change / 100) - 100) * (inject_Z (Z.of_nat i) / 19).

(** The point [buildSparklinePoints] pushes at index [i] when
    [Math.random()] answers [r]. *)
Definition jittered (change : Q) (i : nat) (r : Q) : Q :=
  trendAt change i + (r - (1 # 2)) * 4.

(** A point of a price series that carries its date as a string. *)
Definition dated (v : value) : Prop := exists s, get v "date" = VStr s.

(** [a] is not dated after [b]: the dates compared as strings, code unit
    by code unit. *)
Definition dateLe (a b : value) : Prop :=
  match get a "date", get b "date" with
  | VStr x, VStr y => string_ltb y x = false
  | _, _ => False
  end.

(** The theme is one of the two known ones, and the store, [localStorage]
    and the class of the root element agree on it. *)
Definition coherent {W : Type} (c : Theme.Ctx W) : Prop :=
  let t := theme (Store.state (Theme.world c)) in
  (t = "dark" \/ t = "light") /\
  Theme.localTheme (Theme.browser c) = Some t /\
  Theme.darkClass (Theme.browser c) = String.eqb t "dark".

(** The theme in force. *)
Definition themeOf {W : Type} (c : Theme.Ctx W) : string :=
  theme (Store.state (Theme.world c)).

(** The requests for [n] consecutive pages from [page] on. *)
Definition pagesFrom (pageSize page : Z) (n : nat) : list Url :=
  List.map (fun i => SymbolsUrl (page + Z.of_nat i) pageSize None) (List.seq 0 n).

(** An envelope that carries a non-empty array of items, each with a price
    and a change that convert to numbers, and the total [T]. *)
Definition fullPage (T : Q) (payload : value) : Prop :=
  exists x l, get payload "items" = VArr (x :: l) /\ get payload "total" = VNum T /\
              existsb unmappable (x :: l) = false.

(** A key that is a string, or missing. *)
Definition textual (v : value) : bool :=
  match v with
  | VUndef | VNull | VStr _ => true
  | _ => false
  end.

(** The fields of one line of a CSV file (RFC 4180): commas separate
    fields outside quotes, a quoted field ends at a quote that is not
    doubled.  [inq] says whether the reader is inside quotes, [acc] is the
    field read so far. *)
Fixpoint csvRead (inq : bool) (acc : string) (s : string) : list string :=
  match s with
  | EmptyString => [acc]
  | String c r =>
      if inq then
        if Ascii.eqb c dquote then
          match r with
          | String c' r' =>
              if Ascii.eqb c' dquote then csvRead true (acc ++ String dquote EmptyString) r'
              else csvRead false acc r
          | EmptyString => csvRead false acc r
          end
        else csvRead true (acc ++ String c EmptyString) r
      else if Ascii.eqb c "," then acc :: csvRead false EmptyString r
      else if Ascii.eqb c dquote then csvRead true acc r
      else csvRead false (acc ++ String c EmptyString) r
  end.

Definition csvParse (line : string) : list string := csvRead false EmptyString line.

(** What a cell stands for: the text of the value, nothing for a missing
    one. *)
Definition cellText `{Host} (v : value) : string :=
  if nullish v then "" else ToString v.

(** The text an entry of the backend is listed under: its [name], else its
    [symbol], else the dash. *)
Definition listedAs (raw : value) : value :=
  or_else (or_else (get raw "name") (get raw "symbol")) (VStr dash).

(** An entry that can be listed: the text it is listed under is a string. *)
Definition listable (raw : value) : Prop := exists s, listedAs raw = VStr s.

(** What the row of the table shows of an entry of the backend. *)
Definition rowShows `{Host} (row : Row) (raw : value) : Prop :=
  listedAs raw = VStr (row_symbol row) /\
  row_price row = formatPrice (price (mapSymbolToCoin raw)) /\
  row_changeText row = text (formatChange (change (mapSymbolToCoin raw))).

(** An entry of the state that a summary card can be drawn for. *)
Definition drawable (c : Coin) : Prop := exists s, symbolDisplay c = VStr s.

(** An entry of the backend whose fields can be converted where the load
    and the two templates convert them. *)
Definition printable (raw : value) : bool :=
  negb (opaque (get raw "price") || opaque (get raw "change") || opaque (get raw "vol")
        || opaque (get raw "name") || opaque (get raw "symbol") || opaque (get raw "rank")).

(** An entry of the state whose fields can be converted where the sort and
    the template of the cards convert them. *)
Definition plain (c : Coin) : bool :=
  negb (opaque (price c) || opaque (change c) || opaque (rank c)
        || opaque (name c) || opaque (symbol c) || opaque (fullSymbol c)).

Import Store Api Page Dashboard Detail Spec Indicators.

(** The first timeframe, in column order, that carries indicators. *)
Definition leading (tfs : value) : option string :=
  List.find (fun k => truthy (indicatorsOf tfs k)) order.

(** The cell of an indicator that a timeframe does not have. *)
Definition blank : Cell :=
  {| valText := dash; sigText := dash; sigCls := "text-gray-500 bg-gray-500/10" |}.

(** Strictly ascending by code units. *)
Definition ascending (names : list string) : Prop :=
  StronglySorted (fun x y => string_ltb x y = true) names.

End Terms.

(** * Properties *)

Import Store Api Page Dashboard Detail Spec.

(** ** Strings *)

Lemma append_cons (x : ascii) (a b : string) : String x a ++ b = String x (a ++ b).
Proof. reflexivity. Qed.

Lemma append_assoc (a b c : string) : (a ++ b) ++ c = a ++ (b ++ c).
Proof.
  induction a as [|x a IH]; [reflexivity |].
  now rewrite !append_cons, IH.
Qed.

Lemma replaceAll_app (c : ascii) (rep a b : string) :
  replaceAll c rep (a ++ b) = replaceAll c rep a ++ replaceAll c rep b.
Proof.
  induction a as [|x a IH]; [reflexivity |].
  rewrite append_cons. cbn [replaceAll].
  destruct (Ascii.eqb x c); rewrite IH; [now rewrite append_assoc | reflexivity].
Qed.

Lemma has_char_app (p : ascii -> bool) (a b : string) :
  has_char p (a ++ b) = has_char p a || has_char p b.
Proof.
  induction a as [|x a IH]; [reflexivity |].
  rewrite append_cons. cbn [has_char]. rewrite IH. now rewrite orb_assoc.
Qed.

Lemma escChain_cons (c : ascii) (r : string) :
  escChain (String c r) = entityOf c ++ escChain r.
Proof.
  unfold escChain, entityOf.
  cbn [replaceAll].
  destruct (Ascii.eqb_spec c "&") as [->|n1].
  { rewrite !replaceAll_app. reflexivity. }
  cbn [replaceAll].
  destruct (Ascii.eqb_spec c "<") as [->|n2].
  { rewrite !replaceAll_app. reflexivity. }
  cbn [replaceAll].
  destruct (Ascii.eqb_spec c ">") as [->|n3].
  { rewrite !replaceAll_app. reflexivity. }
  cbn [replaceAll].
  destruct (Ascii.eqb_spec c dquote) as [->|n4].
  { rewrite !replaceAll_app. reflexivity. }
  cbn [replaceAll].
  destruct (Ascii.eqb_spec c "'") as [->|n5]; reflexivity.
Qed.

Lemma escChain_escapeEach (s : string) : escChain s = escapeEach s.
Proof.
  induction s as [|c r IH]; [reflexivity |].
  rewrite escChain_cons. cbn [escapeEach]. now rewrite IH.
Qed.

Lemma entityOf_no_markup (c : ascii) : has_char markup (entityOf c) = false.
Proof.
  unfold entityOf.
  destruct (Ascii.eqb_spec c "&"); [reflexivity |].
  destruct (Ascii.eqb c "<") eqn:E2; [reflexivity |].
  destruct (Ascii.eqb c ">") eqn:E3; [reflexivity |].
  destruct (Ascii.eqb c dquote) eqn:E4; [reflexivity |].
  destruct (Ascii.eqb c "'") eqn:E5; [reflexivity |].
  cbn [has_char]. unfold markup. now rewrite E2, E3, E4, E5.
Qed.

Lemma escapeEach_no_markup (s : string) : has_char markup (escapeEach s) = false.
Proof.
  induction s as [|c r IH]; [reflexivity |].
  cbn [escapeEach]. now rewrite has_char_app, entityOf_no_markup, IH.
Qed.

(** C10. [esc] always yields a string: the empty string for an argument
    that is not a string; for a string, the text in which every character
    is replaced by its HTML entity ([&] first, so the [&] of an entity is
    not escaped again), which holds no [<], no [>], no double quote and no
    single quote. *)
Theorem esc_escapes_markup (v : value) :
  match v with
  | VStr s => esc v = escapeEach s /\ has_char markup (esc v) = false
  | _ => esc v = ""
  end.
Proof.
  destruct v; try reflexivity.
  change (esc (VStr s)) with (escChain s).
  rewrite escChain_escapeEach. split; [reflexivity | apply escapeEach_no_markup].
Qed.

(** ** Formatters *)

Lemma includes_NaN_lower_a (s : string) :
  includes "NaN" s = true -> has_char lower_a s = true.
Proof.
  induction s as [|c r IH]; cbn [includes has_char]; intro Hs.
  - discriminate Hs.
  - apply orb_true_iff in Hs as [Hp|Hr].
    + destruct r as [|c2 r2]; cbn [String.prefix] in Hp.
      * destruct (Ascii.ascii_dec "N" c); discriminate Hp.
      * destruct (Ascii.ascii_dec "N" c); [|discriminate Hp].
        destruct (Ascii.ascii_dec "a" c2) as [<-|]; [|discriminate Hp].
        cbn [has_char]. replace (lower_a "a") with true by reflexivity.
        apply orb_true_r.
    + rewrite (IH Hr). apply orb_true_r.
Qed.

Lemma upper_ascii_not_lower_a (c : ascii) : lower_a (upper_ascii c) = false.
Proof. destruct c as [[] [] [] [] [] [] [] []]; reflexivity. Qed.

Lemma toUpperCase_no_lower_a (s : string) : has_char lower_a (toUpperCase s) = false.
Proof.
  induction s as [|c r IH]; [reflexivity |].
  cbn [toUpperCase has_char]. now rewrite upper_ascii_not_lower_a, IH.
Qed.

Lemma replaceFirst_no_lower_a (s : string) :
  has_char lower_a s = false -> has_char lower_a (replaceFirst "_" " " s) = false.
Proof.
  induction s as [|c r IH]; [reflexivity |].
  cbn [replaceFirst has_char]. intro Hs.
  apply orb_false_iff in Hs as [Hc Hr].
  destruct (Ascii.eqb c "_").
  - change (" " ++ r) with (String " " r). cbn [has_char]. now rewrite Hr.
  - cbn [has_char]. now rewrite Hc, IH.
Qed.

Lemma no_lower_a_no_NaN (s : string) :
  has_char lower_a s = false -> includes "NaN" s = false.
Proof.
  intro Hs. destruct (includes "NaN" s) eqn:E; [|reflexivity].
  apply includes_NaN_lower_a in E. congruence.
Qed.

Section FormatterFacts.
Context `{Host}.

Lemma formatSignal_falsy (v : value) :
  truthy v = false -> formatSignal v = signalPlaceholder.
Proof. intro Hv. unfold formatSignal. now rewrite Hv. Qed.

Lemma formatSignal_text_no_NaN (v : value) :
  includes "NaN" (text (formatSignal v)) = false.
Proof.
  unfold formatSignal. destruct (truthy v); [|reflexivity].
  cbn [negb text]. apply no_lower_a_no_NaN, replaceFirst_no_lower_a.
  apply toUpperCase_no_lower_a.
Qed.

Lemma formatSignal_cls_no_NaN (v : value) :
  includes "NaN" (cls (formatSignal v)) = false.
Proof.
  unfold formatSignal. destruct (truthy v); [|reflexivity].
  cbn [negb cls].
  repeat match goal with
         | |- context [if ?b then _ else _] => destruct b
         end; reflexivity.
Qed.

(** What [formatSignal] does with a string: the upper-cased text, whatever
    the host. *)
Lemma formatSignal_string (s : string) :
  s <> "" -> text (formatSignal (VStr s)) = replaceFirst "_" " " (toUpperCase s).
Proof.
  intro Hs. unfold formatSignal. cbn [truthy ToString].
  destruct (String.eqb_spec s ""); [contradiction | reflexivity].
Qed.

End FormatterFacts.

(** What [formatSignal] returns for a truthy argument. *)
Lemma formatSignal_label `{Host} (v : value) :
  truthy v = true ->
  formatSignal v
  = {| text := replaceFirst "_" " " (toUpperCase (ToString v));
       cls := signalClass (toUpperCase (ToString v)) |}.
Proof. intro Hv. unfold formatSignal, signalClass. now rewrite Hv. Qed.

(** C7, as the code has it.  On an argument that can be converted to a
    primitive (what [isNaN] and [String] need in order to return): for
    [null], [undefined] and anything not numeric ([isNaN]), [formatPrice],
    [formatIndicatorValue] and [formatUSDCompact] return the dash and
    [formatChange] the dash with no class; [formatSignal] returns its
    placeholder for every falsy argument ([null] and [undefined] among
    them), and for a truthy one the upper-cased text, its first underscore
    replaced by a blank, with the class of that label (stated for ASCII
    text, which is what [toUpperCase] models); no result contains "NaN".
    The formatters are total functions on such arguments: the only other
    built-in that can throw, [Intl.NumberFormat], is inside a [try]. *)
Theorem formatters_placeholder `{Host} (v : value) :
  opaque v = false ->
  (nullish v = true \/ isNaN v = true ->
   formatPrice v = dash /\
   formatChange v = changePlaceholder /\
   formatIndicatorValue v = dash /\
   formatUSDCompact v = dash) /\
  (truthy v = false -> formatSignal v = signalPlaceholder) /\
  (truthy v = true -> ascii_only (ToString v) = true ->
   formatSignal v
   = {| text := replaceFirst "_" " " (toUpperCase (ToString v));
        cls := signalClass (toUpperCase (ToString v)) |} /\
   includes "NaN" (text (formatSignal v)) = false) /\
  includes "NaN" dash = false /\
  includes "NaN" (cls (formatSignal v)) = false.
Proof.
  intros _. split; [|split; [|split; [|split]]].
  - intro Hv.
    assert (Hg : nullish v || isNaN v = true)
      by (destruct Hv as [-> | ->]; [reflexivity | apply orb_true_r]).
    unfold formatPrice, formatChange, formatIndicatorValue, formatUSDCompact.
    rewrite Hg. repeat split.
  - apply formatSignal_falsy.
  - intros Hv _. split; [now apply formatSignal_label | apply formatSignal_text_no_NaN].
  - reflexivity.
  - apply formatSignal_cls_no_NaN.
Qed.

Lemma formatters_placeholder_witness :
  (@formatPrice Sample.host (VStr "n/a") = dash /\
   @formatChange Sample.host (VStr "n/a") = changePlaceholder /\
   @formatIndicatorValue Sample.host (VStr "n/a") = dash /\
   @formatUSDCompact Sample.host (VStr "n/a") = dash) /\
  @formatSignal Sample.host (VStr "strong_buy")
  = {| text := "STRONG BUY"; cls := "text-emerald-500 bg-emerald-500/10" |}.
Proof.
  split.
  - apply (proj1 (@formatters_placeholder Sample.host (VStr "n/a") eq_refl)).
    right. reflexivity.
  - apply (proj1 (proj1 (proj2 (proj2 (@formatters_placeholder Sample.host
             (VStr "strong_buy") eq_refl))) eq_refl eq_refl)).
Defined.

(** C7 as stated fails: "BUY" is not numeric, and [formatSignal] returns
    the label with the bullish class, not its placeholder. *)
Lemma formatSignal_label_not_placeholder :
  @isNaN Sample.host (VStr "BUY") = true /\
  @formatSignal Sample.host (VStr "BUY")
    = {| text := "BUY"; cls := "text-emerald-500 bg-emerald-500/10" |} /\
  @formatSignal Sample.host (VStr "BUY") <> signalPlaceholder.
Proof. repeat split. discriminate. Qed.

(** ** The store *)

Section StoreFacts.
Context {W : Type}.

Lemma notify_fold (ls : list (Subscriber W)) (st : State) (p : Patch) (prev : State)
    (pg : W) (log : list error) :
  notify ls st p prev pg log = List.fold_left (turn st p prev) ls (pg, log).
Proof.
  revert pg log. induction ls as [|fn rest IH]; intros pg log; [reflexivity |].
  cbn [notify List.fold_left turn].
  destruct (run fn st p prev pg) as [pg' [e|]]; apply IH.
Qed.

End StoreFacts.

(** C5. [setState] with an object: the state is the patched one (no
    rollback), the set of listeners is as before, and page and console are
    what results from giving every subscriber its turn, in registration
    order, each on the page its predecessor left, with
    [(state, patch, prev)], whether or not an earlier one threw.  The call
    itself returns: [Store.setState] has no exceptional result. *)
Theorem setState_runs_every_subscriber {W : Type} (p : Patch) (w : Store.World W) :
  let w' := Store.setState (Some p) w in
  let st := assign (Store.state w) p in
  Store.state w' = st /\
  Store.listeners w' = Store.listeners w /\
  (Store.page w', Store.console w')
    = List.fold_left (turn st p (Store.state w)) (Store.listeners w)
        (Store.page w, Store.console w).
Proof.
  cbv zeta. unfold Store.setState.
  rewrite notify_fold.
  destruct (List.fold_left _ _ _) as [pg log]. cbn. auto.
Qed.

(** ** The gateway *)

Section GatewayFacts.
Context `{Host} `{Network}.

Lemma getJson_failed (url : Url) (log : list Url) (r : Response) :
  serve (List.length log) url = Responded r -> failed r = true ->
  getJson url log = ((log ++ [url])%list, Returns VNull).
Proof.
  intros Hs Hf. unfold getJson, fetch, Eff.bind, Eff.ret. rewrite Hs.
  unfold failed in Hf. destruct (ok r); cbn in *; [|reflexivity].
  destruct (json r); [discriminate | reflexivity].
Qed.

Lemma getJson_rejected (url : Url) (log : list Url) :
  serve (List.length log) url = Rejected ->
  getJson url log = ((log ++ [url])%list, Throws NetworkError).
Proof.
  intros Hs. unfold getJson, fetch, Eff.bind. now rewrite Hs.
Qed.

Lemma getJson_body (url : Url) (log : list Url) (payload : value) :
  serve (List.length log) url = Responded {| ok := true; json := Some payload |} ->
  getJson url log = ((log ++ [url])%list, Returns payload).
Proof.
  intros Hs. unfold getJson, fetch, Eff.bind, Eff.ret. now rewrite Hs.
Qed.

End GatewayFacts.

(** C1, as the code has it.  Each of the seven fetch operations returns its
    absent result without touching the network when given no symbol, and
    turns a non-success status, or a body that is not JSON, into its absent
    result after the one request it issues; when the request itself fails
    ([fetch] rejects), the operation throws that failure to its caller. *)
Theorem gateway_failure_policy `{Host} `{Network} (c : Call) (log : list Url) :
  (requests c = false -> perform c log = (log, Returns (absent c))) /\
  (requests c = true ->
   forall r, serve (List.length log) (urlOf c) = Responded r -> failed r = true ->
   perform c log = ((log ++ [urlOf c])%list, Returns (absent c))) /\
  (requests c = true ->
   serve (List.length log) (urlOf c) = Rejected ->
   perform c log = ((log ++ [urlOf c])%list, Throws NetworkError)).
Proof.
  split; [|split].
  - destruct c; cbn [requests perform]; intro Hq; try discriminate Hq;
      apply negb_false_iff in Hq;
      unfold fetchPrices, fetchTechnical, fetchLstm, fetchSentiment,
        fetchOnchain, fetchSignal; rewrite Hq; reflexivity.
  - intros Hq r Hs Hf.
    destruct c; cbn [requests perform urlOf absent] in *;
      try apply negb_true_iff in Hq;
      unfold fetchSymbolsPage, fetchPrices, fetchTechnical, fetchLstm,
        fetchSentiment, fetchOnchain, fetchSignal;
      try rewrite Hq; unfold Eff.bind;
      rewrite (getJson_failed _ _ _ Hs Hf); reflexivity.
  - intros Hq Hs.
    destruct c; cbn [requests perform urlOf absent] in *;
      try apply negb_true_iff in Hq;
      unfold fetchSymbolsPage, fetchPrices, fetchTechnical, fetchLstm,
        fetchSentiment, fetchOnchain, fetchSignal;
      try rewrite Hq; unfold Eff.bind;
      rewrite (getJson_rejected _ _ Hs); reflexivity.
Qed.

Lemma gateway_failure_policy_witness :
  @perform Sample.host Sample.unavailable (CallPrices "BTCUSDT" (Some "1y")) []
  = ([PricesUrl "BTCUSDT" (Some "1y")], Returns (ASeries [])).
Proof.
  apply (proj1 (proj2 (@gateway_failure_policy Sample.host Sample.unavailable
                         (CallPrices "BTCUSDT" (Some "1y")) [])) eq_refl
               {| ok := false; json := None |} eq_refl eq_refl).
Defined.

(** C1 as stated fails: with the network down, [fetchTechnical] does not
    return [null], it throws. *)
Lemma gateway_transport_failure_escapes :
  @perform Sample.host Sample.offline (CallTechnical "BTC") []
  = ([TechnicalUrl "BTC"], Throws NetworkError).
Proof. reflexivity. Qed.

(** ** Normalisation of the symbols payload *)

Lemma normalize_array (l : list value) :
  normalizeSymbolsResponse (VArr l) = (VArr l, lengthOf l).
Proof. reflexivity. Qed.

Lemma normalize_envelope (kv : list (string * value)) (l : list value) :
  lookup_key "items" kv = VArr l ->
  normalizeSymbolsResponse (VObj kv)
  = (VArr l, coalesce (lookup_key "total" kv) (lengthOf l)).
Proof.
  intro Hi. unfold normalizeSymbolsResponse. cbn [isArray get].
  rewrite Hi. reflexivity.
Qed.

Lemma normalize_no_items (payload : value) :
  isArray payload = false -> truthy (get payload "items") = false ->
  normalizeSymbolsResponse payload
  = (VArr [], coalesce (get payload "total") (VNum 0)).
Proof.
  intros Ha Hi. unfold normalizeSymbolsResponse, or_else. rewrite Ha, Hi.
  reflexivity.
Qed.

(** C6, as the code has it.  When the symbols endpoint answers with a JSON
    body: a bare array gives one entry per element and the array's length
    as total; an object whose [items] is an array gives one entry per item
    and the object's [total] (the number of items when [total] is missing
    or [null]); a body that is not an array and has no truthy [items]
    gives no entries.  None of these raises, unless an entry carries a
    [price] or [change] that [Number] cannot convert (an object with a
    [toString] property of its own, or an array holding one): then the
    call throws a [TypeError]. *)
Theorem fetchSymbolsPage_shapes `{Host} `{Network}
    (page pageSize : Z) (q : string) (log : list Url) (payload : value) :
  serve (List.length log) (SymbolsUrl page pageSize (queryParam q))
    = Responded {| ok := true; json := Some payload |} ->
  let result := fetchSymbolsPage page pageSize q log in
  let sent := (log ++ [SymbolsUrl page pageSize (queryParam q)])%list in
  (forall l, payload = VArr l ->
     (existsb unmappable l = false ->
      result = (sent, Returns {| page_coins := List.map mapSymbolToCoin l;
                                 page_total := lengthOf l |})) /\
     (existsb unmappable l = true -> result = (sent, Throws TypeError))) /\
  (forall kv l, payload = VObj kv -> lookup_key "items" kv = VArr l ->
     (existsb unmappable l = false ->
      result = (sent, Returns {| page_coins := List.map mapSymbolToCoin l;
                                 page_total := coalesce (lookup_key "total" kv) (lengthOf l) |})) /\
     (existsb unmappable l = true -> result = (sent, Throws TypeError))) /\
  (isArray payload = false -> truthy (get payload "items") = false ->
     exists total, result = (sent, Returns {| page_coins := []; page_total := total |})).
Proof.
  intros Hs result sent. subst result sent.
  unfold fetchSymbolsPage, Eff.bind. rewrite (getJson_body _ _ _ Hs).
  split; [|split].
  - intros l ->. cbn [truthy negb]. rewrite normalize_array.
    unfold Eff.of_outcome, mapItems, mapCoins.
    split; intros ->; reflexivity.
  - intros kv l -> Hi. cbn [truthy negb].
    rewrite (normalize_envelope _ _ Hi).
    unfold Eff.of_outcome, mapItems, mapCoins.
    split; intros ->; reflexivity.
  - intros Ha Hi. destruct (truthy payload) eqn:Ht; cbn [negb].
    + rewrite (normalize_no_items _ Ha Hi). eexists. reflexivity.
    + eexists. reflexivity.
Qed.

Lemma fetchSymbolsPage_shapes_witness :
  @fetchSymbolsPage Sample.host
     (Sample.always (VObj [("items", VArr [VNull]); ("total", VNum 7)])) 1 50 "" []
  = ([SymbolsUrl 1 50 None],
     Returns {| page_coins := List.map (@mapSymbolToCoin Sample.host) [VNull];
                page_total := VNum 7 |}).
Proof.
  apply (proj1 (proj1 (proj2 (@fetchSymbolsPage_shapes Sample.host
           (Sample.always (VObj [("items", VArr [VNull]); ("total", VNum 7)]))
           1 50 "" [] _ eq_refl)) _ [VNull] eq_refl eq_refl) eq_refl).
Defined.

(** C6 as stated fails: an object whose [items] is a string is neither of
    the two shapes, and [fetchSymbolsPage] raises a [TypeError] on it
    ([items.map] is not a function). *)
Lemma fetchSymbolsPage_items_string_throws :
  @fetchSymbolsPage Sample.host (Sample.always (VObj [("items", VStr "abc")])) 1 50 "" []
  = ([SymbolsUrl 1 50 None], Throws TypeError).
Proof. reflexivity. Qed.

(** ** Pagination *)

Section PaginateFacts.
Context `{Host}.

Lemma paginate_run (st : State) (coins : list Coin) (a : App) :
  exists w,
    paginate st coins a
    = (with_internal (set_pagination (clamped st coins (paginationOr a))) a, Returns w)
    /\ w_page w = currentPage (clamped st coins (paginationOr a))
    /\ w_totalPages w = totalPagesOf (totalOf st coins) (pageSizeOf (paginationOr a)).
Proof.
  unfold paginate, getPaginationState, putPagination, Eff.bind, Eff.modify, Eff.ret, paginationOr.
  destruct (pagination (internal a)) as [p|]; cbn [default]; eexists; repeat split.
Qed.

Lemma renderTable_internal (a : App) :
  filteredCoins (state_of a) <> [] ->
  internal (fst (renderTable a))
  = set_pagination (clamped (state_of a) (filteredCoins (state_of a)) (paginationOr a)) (internal a).
Proof.
  intro Hc. unfold renderTable. unfold Eff.bind at 1. unfold Eff.gets at 1.
  destruct (filteredCoins (state_of a)) as [|c cs] eqn:Ec; [contradiction|].
  unfold Eff.bind at 1. unfold Eff.modify at 1.
  unfold Eff.bind at 1.
  destruct (paginate_run (state_of a) (c :: cs) (with_dom (set_noResults false) a)) as (w & Hw & _).
  rewrite Hw.
  unfold Eff.bind at 1. unfold Eff.of_outcome.
  destruct (mapO _ _) as [rows|e]; [|reflexivity].
  unfold Eff.bind, Eff.modify, ensurePaginationContainer, writePagination, Eff.ret.
  cbn.
  destruct (paginationContainer _); cbn; [reflexivity|].
  destruct (panel _); reflexivity.
Qed.

Lemma renderTable_empty_internal (a : App) :
  filteredCoins (state_of a) = [] -> internal (fst (renderTable a)) = internal a.
Proof.
  intro Hc. unfold renderTable. unfold Eff.bind at 1. unfold Eff.gets at 1. rewrite Hc.
  unfold Eff.bind, Eff.modify, ensurePaginationContainer, writePagination, Eff.ret.
  cbn.
  destruct (paginationContainer _); cbn; [reflexivity |].
  destruct (panel _); reflexivity.
Qed.

End PaginateFacts.

Section CardFrame.
Context `{Host}.

Lemma cards_only_ret {A : Type} (x : A) : cards_only (Eff.ret x).
Proof. intro a. reflexivity. Qed.

Lemma cards_only_throw {A : Type} (e : error) : cards_only (@Eff.throw App A e).
Proof. intro a. reflexivity. Qed.

Lemma cards_only_gets {A : Type} (f : App -> A) : cards_only (Eff.gets f).
Proof. intro a. reflexivity. Qed.

Lemma cards_only_bind {A B : Type} (m : M A) (k : A -> M B) :
  cards_only m -> (forall x, cards_only (k x)) -> cards_only (Eff.bind m k).
Proof.
  intros Hm Hk a. unfold Eff.bind. specialize (Hm a).
  destruct (m a) as [s' [x|e]]; cbn [fst] in *; [|exact Hm].
  now rewrite Hk.
Qed.

Lemma cards_only_mapM {A B : Type} (f : A -> M B) (l : list A) :
  (forall x, cards_only (f x)) -> cards_only (mapM f l).
Proof.
  intro Hf. induction l as [|x r IH]; cbn [mapM].
  - apply cards_only_ret.
  - apply cards_only_bind; [apply Hf | intro y].
    apply cards_only_bind; [exact IH | intro ys; apply cards_only_ret].
Qed.

Lemma cards_only_mathRandom : cards_only mathRandom.
Proof. intro a. reflexivity. Qed.

Lemma cards_only_set_topCards (cs : list Card) :
  cards_only (Eff.modify (with_dom (set_topCards cs))).
Proof. intro a. reflexivity. Qed.

Lemma cards_only_cardOf (c : Coin) : cards_only (cardOf c).
Proof.
  unfold cardOf. apply cards_only_bind.
  - unfold buildSparklinePoints. apply cards_only_mapM. intro i.
    apply cards_only_bind; [apply cards_only_mathRandom | intro; apply cards_only_ret].
  - intro pts. destruct (symbolDisplay c); first [apply cards_only_ret | apply cards_only_throw].
Qed.

Lemma cards_only_renderTopCards : cards_only renderTopCards.
Proof.
  unfold renderTopCards. apply cards_only_bind; [apply cards_only_gets | intro dm].
  destruct (topCards dm); [|apply cards_only_ret].
  apply cards_only_bind; [apply cards_only_gets | intro st].
  destruct (match topCoins st with [] => coins st | _ :: _ => topCoins st end).
  - apply cards_only_set_topCards.
  - apply cards_only_bind; [apply cards_only_mapM, cards_only_cardOf | intro cards].
    apply cards_only_bind; intros; apply cards_only_set_topCards.
Qed.
End CardFrame.

Section RenderFacts.
Context `{Host} `{Network}.

Lemma clampPage_bounds (cp tp : Z) : 1 <= tp -> 1 <= clampPage cp tp <= tp.
Proof. unfold clampPage. lia. Qed.

Lemma totalPagesOf_pos (total : Q) (ps : Z) : 1 <= totalPagesOf total ps.
Proof. unfold totalPagesOf. lia. Qed.

Lemma renderDashboard_step (a : App) :
  tableBody (dom_of a) <> None ->
  renderDashboard a
  = match renderTopCards a with
    | (a1, Returns _) => renderTable a1
    | (a1, Throws e) => (a1, Throws e)
    end.
Proof.
  intro Ht. unfold renderDashboard. unfold Eff.bind at 1. unfold Eff.gets at 1.
  destruct (tableBody (dom_of a)); [reflexivity | contradiction].
Qed.

Lemma after_cards (a : App) :
  let a1 := fst (renderTopCards a) in
  state_of a1 = state_of a /\ internal a1 = internal a /\
  tableBody (dom_of a1) = tableBody (dom_of a) /\
  paginationContainer (dom_of a1) = paginationContainer (dom_of a) /\
  panel (dom_of a1) = panel (dom_of a).
Proof.
  cbv zeta. pose proof (cards_only_renderTopCards a) as E.
  repeat split.
  - change (state_of (sansCards (fst (renderTopCards a))) = state_of (sansCards a)). now rewrite E.
  - change (internal (sansCards (fst (renderTopCards a))) = internal (sansCards a)). now rewrite E.
  - change (tableBody (dom_of (sansCards (fst (renderTopCards a)))) = tableBody (dom_of (sansCards a))). now rewrite E.
  - change (paginationContainer (dom_of (sansCards (fst (renderTopCards a)))) = paginationContainer (dom_of (sansCards a))). now rewrite E.
  - change (panel (dom_of (sansCards (fst (renderTopCards a)))) = panel (dom_of (sansCards a))). now rewrite E.
Qed.

End RenderFacts.

(** C2, as the code has it.  A render that reaches its clamping step (the
    table body exists and the page of entries is not empty) and returns
    leaves in [internal.pagination] the page size it found and a page
    number between 1 and [max(1, ceil(total / pageSize))], where [total] is
    [totalCoins] when that is a number and the number of entries on the
    page otherwise, and a page size of 0 counts as 50.  The bound is stated
    for a total that is a whole number from 0 to [Number.MAX_SAFE_INTEGER]
    and a page size from 1 to that number, where the quotient the code
    rounds up is the exact one.  A render that finds no table body, or no
    entries to list, returns before that step and leaves the pagination
    state as it was. *)
Theorem render_clamps_current_page `{Host} (a a' : App) :
  renderDashboard a = (a', Returns tt) ->
  let st := state_of a in
  (tableBody (dom_of a) <> None -> filteredCoins st <> [] ->
   exists p,
     pagination (internal a') = Some p /\
     pageSize p = pageSize (paginationOr a) /\
     forall n : Z,
       (totalOf st (filteredCoins st) == inject_Z n)%Q ->
       0 <= n <= 9007199254740991 ->
       1 <= pageSizeOf p <= 9007199254740991 ->
       1 <= currentPage p <= Z.max 1 (Qceiling (inject_Z n / inject_Z (pageSizeOf p)))) /\
  (tableBody (dom_of a) = None \/ filteredCoins st = [] ->
   pagination (internal a') = pagination (internal a)).
Proof.
  intros Hr. cbv zeta. split.
  - intros Ht Hc.
    rewrite (renderDashboard_step a Ht) in Hr.
    destruct (after_cards a) as (Est & Ein & _).
    destruct (renderTopCards a) as [a1 [[]|e]]; [|discriminate]. cbn [fst] in *.
    assert (Hc1 : filteredCoins (state_of a1) <> []) by now rewrite Est.
    pose proof (renderTable_internal a1 Hc1) as Hi. rewrite Hr in Hi. cbn [fst] in Hi.
    rewrite Hi. cbn [pagination set_pagination].
    eexists. split; [reflexivity |].
    rewrite Est. unfold paginationOr. rewrite Ein.
    set (p0 := default _ (pagination (internal a))).
    cbn [clamped currentPage pageSize]. split; [reflexivity |].
    intros n Hn _ _.
    change (pageSizeOf (clamped (state_of a) (filteredCoins (state_of a)) p0))
      with (pageSizeOf p0).
    assert (E : Z.max 1 (Qceiling (inject_Z n / inject_Z (pageSizeOf p0)))
                = totalPagesOf (totalOf (state_of a) (filteredCoins (state_of a))) (pageSizeOf p0)).
    { unfold totalPagesOf. f_equal. apply Qceiling_comp. now rewrite Hn. }
    rewrite E. apply clampPage_bounds, totalPagesOf_pos.
  - destruct (tableBody (dom_of a)) as [rows|] eqn:Et.
    + intros [Hn | Hc]; [discriminate |].
      assert (Ht : tableBody (dom_of a) <> None) by (rewrite Et; discriminate).
      rewrite (renderDashboard_step a Ht) in Hr.
      destruct (after_cards a) as (Est & Ein & _).
      destruct (renderTopCards a) as [a1 [[]|e]]; [|discriminate]. cbn [fst] in *.
      assert (Hc1 : filteredCoins (state_of a1) = []) by now rewrite Est.
      pose proof (renderTable_empty_internal a1 Hc1) as Hi. rewrite Hr in Hi. cbn [fst] in Hi.
      now rewrite Hi, Ein.
    + intros _. unfold renderDashboard in Hr. unfold Eff.bind at 1 in Hr.
      unfold Eff.gets at 1 in Hr. rewrite Et in Hr. injection Hr as <-. reflexivity.
Qed.

Section NavigationFacts.
Context `{Host} `{Network}.

Lemma renderTable_bar (a1 a : App) (bar : PagBar) :
  renderTable a1 = (a, Returns tt) ->
  paginationContainer (dom_of a) = Some (Some bar) ->
  exists p,
    pagination (internal a) = Some p /\
    1 <= currentPage p <= bar_totalPages bar /\
    prev_listeners bar = [PrevPage] /\
    next_listeners bar = [NextPage (bar_totalPages bar)].
Proof.
  unfold renderTable. unfold Eff.bind at 1. unfold Eff.gets at 1.
  destruct (filteredCoins (state_of a1)) as [|c cs] eqn:Ec.
  - unfold Eff.bind, Eff.modify, ensurePaginationContainer, writePagination, Eff.ret.
    unfold dom_of. cbn.
    destruct (paginationContainer (Store.page (store a1))) eqn:Ep; cbn.
    + intros [= <-]. cbn. discriminate.
    + destruct (panel (Store.page (store a1))); cbn; intros [= <-]; cbn.
      * discriminate.
      * rewrite Ep. discriminate.
  - unfold Eff.bind at 1. unfold Eff.modify at 1. unfold Eff.bind at 1.
    destruct (paginate_run (state_of a1) (c :: cs) (with_dom (set_noResults false) a1))
      as (w & Hw & Hpage & Htp).
    rewrite Hw. unfold Eff.bind at 1. unfold Eff.of_outcome.
    destruct (mapO _ _) as [rows|e]; [|discriminate].
    unfold Eff.bind, Eff.modify, ensurePaginationContainer, writePagination, Eff.ret.
    unfold dom_of. cbn.
    destruct (paginationContainer (Store.page (store a1))) eqn:Ep; cbn.
    + intros [= <-]. cbn. intros [= <-]. eexists. split; [reflexivity|].
      cbn. rewrite Htp. split; [|split; reflexivity].
      apply clampPage_bounds, totalPagesOf_pos.
    + destruct (panel (Store.page (store a1))); cbn; intros [= <-]; cbn.
      * intros [= <-]. eexists. split; [reflexivity|].
        cbn. rewrite Htp. split; [|split; reflexivity].
        apply clampPage_bounds, totalPagesOf_pos.
      * rewrite Ep. discriminate.
Qed.

End NavigationFacts.


Lemma render_clamps_current_page_witness :
  exists p,
    pagination (internal (fst (@renderDashboard Sample.host (Sample.dashboardAt 7)))) = Some p /\
    pageSize p = 50 /\ 1 <= currentPage p <= 3.
Proof.
  destruct (proj1 (@render_clamps_current_page Sample.host (Sample.dashboardAt 7)
                     (fst (@renderDashboard Sample.host (Sample.dashboardAt 7)))
                     ltac:(vm_compute; reflexivity)))
    as (p & Hp & Hs & Hq).
  - vm_compute. discriminate.
  - vm_compute. discriminate.
  - exists p. split; [exact Hp |].
    assert (Hs50 : pageSize p = 50) by (rewrite Hs; reflexivity).
    split; [exact Hs50 |].
    assert (Hps : pageSizeOf p = 50) by (unfold pageSizeOf; rewrite Hs50; reflexivity).
    specialize (Hq 137). rewrite Hps in Hq. apply Hq; [reflexivity | lia | lia].
Defined.

(** C2 as stated fails: from page 2 of 3, "Next" while the network is down
    moves to page 3 and empties the listing; the render that follows
    returns before its clamping step, and so does every later render of
    the empty listing: the page number stays 3 while [totalCoins] is 0 and
    [max(1, ceil(0 / 50))] is 1. *)
Lemma empty_listing_skips_the_clamp :
  let shown := fst (@renderDashboard Sample.host (Sample.dashboardAt 2)) in
  let next := @clickNext Sample.host Sample.offline shown in
  let again := @renderDashboard Sample.host (fst next) in
  snd next = Returns tt /\
  totalCoins (state_of (fst next)) = VNum 0 /\
  pagination (internal (fst next)) = Some {| pageSize := 50; currentPage := 3 |} /\
  snd again = Returns tt /\
  pagination (internal (fst again)) = Some {| pageSize := 50; currentPage := 3 |} /\
  totalPagesOf 0 50 = 1.
Proof. vm_compute. repeat split. Qed.


(** ** The snapshot for the summary cards *)

Lemma setState_state {W : Type} (p : Patch) (w : Store.World W) :
  Store.state (Store.setState (Some p) w) = assign (Store.state w) p.
Proof.
  unfold Store.setState. destruct (notify _ _ _ _ _ _). reflexivity.
Qed.


Section LoadFacts.
Context `{Host} `{Network}.

Lemma api_state {A : Type} (m : Net A) (a : App) :
  state_of (fst (api m a)) = state_of a.
Proof. unfold api, zoom. destruct (m (sent a)). reflexivity. Qed.

(** What [renderTicker] does to the session: it writes the ticker or throws
    before writing anything. *)
Lemma renderTicker_frame (cs : list Coin) (page : Z) (a : App) :
  let r := renderTicker cs page a in
  snd r = (if tickerFails cs page a then Throws TypeError else Returns tt) /\
  (tickerFails cs page a = true -> fst r = a) /\
  state_of (fst r) = state_of a /\ internal (fst r) = internal a /\
  sent (fst r) = sent a /\ Store.console (store (fst r)) = Store.console (store a) /\
  Store.listeners (store (fst r)) = Store.listeners (store a) /\
  tableBody (dom_of (fst r)) = tableBody (dom_of a).
Proof.
  cbv zeta. unfold renderTicker, tickerFails. unfold Eff.bind, Eff.gets.
  destruct (ticker (dom_of a)) eqn:Et; [|repeat split].
  destruct (page =? 1); cbn [negb andb]; [|repeat split; discriminate].
  destruct (tickerThrows cs); repeat split. discriminate.
Qed.

Lemma tickerFails_nil (page : Z) (a : App) : tickerFails [] page a = false.
Proof. unfold tickerFails. destruct (ticker (dom_of a)); [apply andb_false_r | reflexivity]. Qed.

Lemma topCoins_assign_pagePatch (st : State) (cs : list Coin) (t : value) :
  topCoins (assign st (pagePatch cs t)) = topCoins st.
Proof. reflexivity. Qed.

(** [loadCoinsPage], written out. *)
Lemma loadCoinsPage_run (page pageSize : Z) (a : App) :
  loadCoinsPage page pageSize a
  = match api (fetchSymbolsPage (if page =? 0 then 1 else page)
                 (if pageSize =? 0 then 50 else pageSize)
                 (currentQuery (state_of a))) a with
    | (a1, Returns r) =>
        let a2 := with_store (Store.setState (Some (pagePatch (page_coins r) (page_total r)))) a1 in
        let a3 := if (page =? 1) && isEmpty (topCoins (state_of a2))
                  then with_store (Store.setState (Some (topPatch (page_coins r)))) a2
                  else a2 in
        if tickerFails (page_coins r) page a3
        then renderTicker [] page (emptied TypeError a3)
        else renderTicker (page_coins r) page a3
    | (a1, Throws e) => renderTicker [] page (emptied e a1)
    end.
Proof.
  unfold loadCoinsPage. unfold Eff.bind at 1. unfold Eff.gets at 1.
  unfold Eff.try_catch. unfold Eff.bind at 1.
  destruct (api _ a) as [a1 [r|e]]; [|reflexivity].
  unfold Eff.bind at 1. unfold Page.setState at 1. unfold Eff.modify at 1.
  unfold Eff.bind at 1. unfold Eff.gets at 1. cbv zeta.
  set (a2 := with_store _ a1).
  set (a3 := if (page =? 1) && isEmpty (topCoins (state_of a2))
             then with_store (Store.setState (Some (topPatch (page_coins r)))) a2 else a2).
  match goal with |- context [Eff.bind ?m ?k a2] =>
    assert (Eb : Eff.bind m k a2 = renderTicker (page_coins r) page a3)
      by (unfold Eff.bind; subst a3; destruct (topCoins (state_of a2)); cbn [isEmpty];
          destruct (page =? 1); reflexivity);
    rewrite Eb; clear Eb
  end.
  destruct (renderTicker_frame (page_coins r) page a3) as (Ho & Hsame & _).
  cbv zeta in Ho, Hsame.
  destruct (renderTicker (page_coins r) page a3) as [a4 o] eqn:Er. cbn [fst snd] in Ho, Hsame.
  destruct (tickerFails (page_coins r) page a3); subst o; [|reflexivity].
  rewrite (Hsame eq_refl). reflexivity.
Qed.

(** The outcome and the state of [renderTicker([], { page })]. *)
Lemma renderTicker_nil (page : Z) (a : App) :
  snd (renderTicker [] page a) = Returns tt /\
  state_of (fst (renderTicker [] page a)) = state_of a.
Proof.
  destruct (renderTicker_frame [] page a) as (Ho & _ & Hs & _). cbv zeta in Ho, Hs.
  rewrite Ho, tickerFails_nil. split; [reflexivity | exact Hs].
Qed.

Lemma state_of_setState (p : Patch) (x : App) :
  state_of (with_store (Store.setState (Some p)) x) = assign (state_of x) p.
Proof. unfold state_of, with_store. cbn [store]. apply setState_state. Qed.

Lemma state_of_emptied (e : error) (x : App) :
  state_of (emptied e x) = assign (state_of x) (pagePatch [] (VNum 0)).
Proof. unfold emptied. rewrite state_of_setState. reflexivity. Qed.

(** What a load leaves in [topCoins]. *)
Lemma loadCoinsPage_topCoins (page pageSize : Z) (a : App) :
  topCoins (state_of (fst (loadCoinsPage page pageSize a)))
  = match snd (api (fetchSymbolsPage (if page =? 0 then 1 else page)
                                     (if pageSize =? 0 then 50 else pageSize)
                                     (currentQuery (state_of a))) a) with
    | Returns r =>
        if (page =? 1) && isEmpty (topCoins (state_of a)) then page_coins r
        else topCoins (state_of a)
    | Throws _ => topCoins (state_of a)
    end.
Proof.
  rewrite loadCoinsPage_run.
  pose proof (api_state (fetchSymbolsPage (if page =? 0 then 1 else page)
                (if pageSize =? 0 then 50 else pageSize) (currentQuery (state_of a))) a) as Hs.
  destruct (api _ a) as [a1 [r|e]]; cbn [fst snd] in *.
  - cbv zeta.
    set (a2 := with_store _ a1).
    assert (Ht : topCoins (state_of a2) = topCoins (state_of a)).
    { subst a2. rewrite state_of_setState, topCoins_assign_pagePatch. now rewrite Hs. }
    rewrite Ht.
    set (a3 := if (page =? 1) && isEmpty (topCoins (state_of a)) then _ else a2).
    assert (H3 : topCoins (state_of a3)
                 = if (page =? 1) && isEmpty (topCoins (state_of a)) then page_coins r
                   else topCoins (state_of a)).
    { subst a3. destruct ((page =? 1) && isEmpty (topCoins (state_of a)));
        [now rewrite state_of_setState | exact Ht]. }
    destruct (tickerFails (page_coins r) page a3).
    + rewrite (proj2 (renderTicker_nil page _)), state_of_emptied, topCoins_assign_pagePatch.
      exact H3.
    + destruct (renderTicker_frame (page_coins r) page a3) as (_ & _ & Hst & _).
      cbv zeta in Hst. rewrite Hst. exact H3.
  - rewrite (proj2 (renderTicker_nil page _)), state_of_emptied, topCoins_assign_pagePatch.
    now rewrite Hs.
Qed.
End LoadFacts.

Section Sorting.
Context {A : Type} (behind : A -> A -> bool).

Lemma insertStable_perm (x : A) (l : list A) :
  Permutation (x :: l) (insertStable behind x l).
Proof.
  induction l as [|y r IH]; cbn [insertStable]; [reflexivity |].
  destruct (behind x y); [|reflexivity].
  rewrite perm_swap. now apply perm_skip.
Qed.

Lemma stableSort_perm (l : list A) : Permutation l (stableSort behind l).
Proof.
  induction l as [|x r IH]; [reflexivity |].
  unfold stableSort. cbn [List.fold_right]. fold (stableSort behind r).
  rewrite <- insertStable_perm. now apply perm_skip.
Qed.

Context (P : A -> Prop) (le : A -> A -> Prop).
Hypothesis behind_le : forall x y, P x -> P y -> behind x y = true -> le y x.
Hypothesis ahead_le : forall x y, P x -> P y -> behind x y = false -> le x y.
Hypothesis le_trans : forall x y z, le x y -> le y z -> le x z.

Lemma insertStable_sorted (x : A) (l : list A) :
  P x -> List.Forall P l -> StronglySorted le l ->
  StronglySorted le (insertStable behind x l).
Proof.
  intros Px Pl Hs. induction Hs as [|y r Hr IH Hy]; cbn [insertStable].
  - constructor; constructor.
  - inversion Pl as [|? ? Py Pr]; subst.
    destruct (behind x y) eqn:E.
    + constructor; [now apply IH |].
      apply (Permutation_Forall (insertStable_perm x r)).
      constructor; [now apply behind_le | exact Hy].
    + constructor; [now constructor |].
      assert (Hxy : le x y) by now apply ahead_le.
      constructor; [exact Hxy |].
      eapply List.Forall_impl; [|exact Hy]. intros z Hz. now apply (le_trans x y z).
Qed.

Lemma stableSort_sorted (l : list A) :
  List.Forall P l -> StronglySorted le (stableSort behind l).
Proof.
  induction l as [|x r IH]; intro Pl.
  - constructor.
  - inversion Pl as [|? ? Px Pr]; subst.
    unfold stableSort. cbn [List.fold_right]. fold (stableSort behind r).
    apply insertStable_sorted; [exact Px | | now apply IH].
    apply (Permutation_Forall (stableSort_perm r)). exact Pr.
Qed.

End Sorting.

Section RankFacts.
Context `{Host}.

Lemma rankKey_known (c : Coin) : rankKnown c = true -> rankKey c = Fin (rankQ c).
Proof.
  unfold rankKnown, rankKey, rankQ, coalesce.
  destruct (rank c); intro E; try discriminate E; reflexivity.
Qed.

Lemma rankQ_missing (c : Coin) : nullish (rank c) = true -> rankQ c = MAX_SAFE_INTEGER.
Proof. unfold rankQ, coalesce. now intros ->. Qed.

Lemma behind_known (x y : Coin) :
  rankKnown x = true -> rankKnown y = true ->
  num_ltb (Fin 0) (rankCompare x y) = negb (Qle_bool (rankQ x - rankQ y) 0).
Proof.
  intros Hx Hy. unfold rankCompare. rewrite (rankKey_known x Hx), (rankKey_known y Hy).
  reflexivity.
Qed.

Lemma sortByRank_perm (l : list Coin) : Permutation l (sortByRank l).
Proof. apply stableSort_perm. Qed.

Lemma sortByRank_sorted (l : list Coin) :
  List.Forall (fun c => rankKnown c = true) l -> StronglySorted rankLe (sortByRank l).
Proof.
  apply stableSort_sorted.
  - intros x y Hx Hy. rewrite (behind_known x y Hx Hy). intro E.
    apply negb_true_iff in E. unfold rankLe.
    destruct (Qlt_le_dec 0 (rankQ x - rankQ y)) as [Hlt|Hle].
    + lra.
    + apply Qle_bool_iff in Hle. congruence.
  - intros x y Hx Hy. rewrite (behind_known x y Hx Hy). intro E.
    apply negb_false_iff, Qle_bool_iff in E. unfold rankLe. lra.
  - intros x y z. unfold rankLe. apply Qle_trans.
Qed.

Lemma cardOf_shows (c : Coin) (a a' : App) (card : Card) :
  cardOf c a = (a', Returns card) -> cardShows card c /\ card_listeners card = [].
Proof.
  unfold cardOf, Eff.bind. destruct (buildSparklinePoints (change c) a) as [a1 [pts|e]];
    [|discriminate].
  destruct (symbolDisplay c) eqn:E; try discriminate.
  unfold Eff.ret. intros [= _ <-]. unfold cardShows. cbn. rewrite E. auto.
Qed.

Lemma mapM_cardOf_shows (l : list Coin) (a a' : App) (cards : list Card) :
  mapM cardOf l a = (a', Returns cards) -> List.Forall2 cardShows cards l.
Proof.
  revert a a' cards. induction l as [|c r IH]; intros a a' cards; cbn [mapM].
  - unfold Eff.ret. intros [= _ <-]. constructor.
  - unfold Eff.bind at 1. destruct (cardOf c a) as [a1 [card|e]] eqn:Ec; [|discriminate].
    unfold Eff.bind at 1. destruct (mapM cardOf r a1) as [a2 [cs|e]] eqn:Er; [|discriminate].
    unfold Eff.ret. intros [= _ <-].
    constructor; [apply (cardOf_shows c a a1 card Ec) | apply (IH a1 a2 cs Er)].
Qed.

Lemma listenCard_shows (h : Handler) (cards : list Card) (l : list Coin) :
  List.Forall2 cardShows cards l ->
  List.Forall2 cardShows (List.map (listenCard h) cards) l.
Proof.
  induction 1 as [|card c cards l Hc _ IH]; cbn [List.map]; constructor; assumption.
Qed.

(** What [renderTopCards] shows when a snapshot is held. *)
Lemma renderTopCards_shows (a a' : App) :
  topCards (dom_of a) <> None -> topCoins (state_of a) <> [] ->
  renderTopCards a = (a', Returns tt) ->
  exists cards,
    topCards (dom_of a') = Some cards /\
    List.Forall2 cardShows cards (List.firstn 5 (sortByRank (topCoins (state_of a)))).
Proof.
  intros Hd Ht. unfold renderTopCards. unfold Eff.bind at 1. unfold Eff.gets at 1.
  destruct (topCards (dom_of a)); [|contradiction].
  unfold Eff.bind at 1. unfold Eff.gets at 1.
  destruct (topCoins (state_of a)) as [|t ts] eqn:Et; [contradiction |].
  unfold Eff.bind at 1.
  destruct (mapM cardOf _ a) as [a1 [cards|e]] eqn:Em; [|discriminate].
  unfold Eff.bind, Eff.modify. cbv beta iota. intros [= <-].
  exists (List.map (listenCard OpenCoin) cards). split; [reflexivity |].
  apply listenCard_shows. apply (mapM_cardOf_shows _ a a1 cards Em).
Qed.

End RankFacts.




(** ** The range cache *)

Section RangeFacts.
Context `{Host} `{Network}.

Lemma api_frame {A : Type} (m : Net A) (a : App) :
  internal (fst (api m a)) = internal a.
Proof. unfold api, zoom. destruct (m (sent a)). reflexivity. Qed.

Lemma beginRange_hit (symbolKey rangeLabel : string) (a : App) (series : list value) :
  rangeCache a !! toUpperCase rangeLabel = Some series ->
  beginRange symbolKey rangeLabel a
  = (with_internal (set_pricesByRange (rangeCache a)) a, Returns (Cached series)).
Proof.
  intro Hit. unfold beginRange. unfold Eff.bind at 1. unfold Eff.modify at 1.
  unfold Eff.bind at 1. unfold Eff.gets at 1.
  change (rangeCache (with_internal (set_pricesByRange (rangeCache a)) a)) with (rangeCache a).
  now rewrite Hit.
Qed.

Lemma fetchPrices_one_request (symbol : string) (tf : option string) (log log' : list Url)
    (r : outcome (list value)) :
  symbol <> "" -> fetchPrices symbol tf log = (log', r) ->
  log' = (log ++ [PricesUrl symbol (timeframeParam tf)])%list.
Proof.
  intros Hs. unfold fetchPrices. destruct (String.eqb_spec symbol ""); [contradiction |].
  unfold Eff.bind, getJson, fetch, Eff.bind.
  destruct (serve _ _) as [|resp]; [now intros [= <- _] |].
  destruct (negb (ok resp)); [now intros [= <- _] |].
  destruct (json resp) as [[]|]; unfold ret, of_outcome; now intros [= <- _].
Qed.

Lemma beginRange_miss (symbolKey rangeLabel : string) (a : App) :
  rangeCache a !! toUpperCase rangeLabel = None ->
  let tf := rangeLabelToTimeframeParam rangeLabel in
  beginRange symbolKey rangeLabel a
  = (with_sent (fst (fetchPrices symbolKey tf (sent a)))
       (with_internal (set_pricesByRange (rangeCache a)) a),
     Returns (Awaiting {| w_symbolKey := symbolKey; w_label := rangeLabel;
                          w_prices := snd (fetchPrices symbolKey tf (sent a)) |})).
Proof.
  intro Hm. cbv zeta. unfold beginRange. unfold Eff.bind at 1. unfold Eff.modify at 1.
  unfold Eff.bind at 1. unfold Eff.gets at 1.
  change (rangeCache (with_internal (set_pricesByRange (rangeCache a)) a)) with (rangeCache a).
  rewrite Hm.
  change (sent (with_internal (set_pricesByRange (rangeCache a)) a)) with (sent a).
  destruct (fetchPrices symbolKey (rangeLabelToTimeframeParam rangeLabel) (sent a)).
  reflexivity.
Qed.

Lemma updateDetailHeader_frame (symbolKey : string) (prices : list value) (a a' : App)
    (r : outcome unit) :
  updateDetailHeader symbolKey prices a = (a', r) ->
  internal a' = internal a /\ sent a' = sent a.
Proof.
  unfold updateDetailHeader. unfold Eff.bind at 1. unfold Eff.gets at 1.
  unfold Eff.bind at 1. unfold Eff.gets at 1. unfold Eff.bind at 1.
  unfold Eff.of_outcome at 1.
  destruct (match detailPrice (dom_of a) with None => _ | Some _ => _ end) as [pr|e];
    [|now intros [= <- _]].
  unfold Eff.bind at 1. unfold Eff.modify at 1.
  destruct prices as [|first rest]; [now intros [= <- _] |].
  unfold Eff.bind, Eff.of_outcome, Eff.modify.
  destruct (match datasetStart (dom_of a) with None => _ | Some _ => _ end) as [st|e];
    now intros [= <- _].
Qed.

Lemma renderDetailChart_frame (prices : list value) (rangeLabel : string) (a a' : App)
    (r : outcome unit) :
  renderDetailChart prices rangeLabel a = (a', r) ->
  rangeCache a' = rangeCache a /\ sent a' = sent a.
Proof.
  unfold renderDetailChart. unfold Eff.bind at 1. unfold Eff.gets at 1.
  destruct (negb (detailCanvas (dom_of a))); [now intros [= <- _] |].
  unfold Eff.bind, Eff.modify. destruct (existsb nullish prices); now intros [= <- _].
Qed.

(** Showing a series touches neither the cache nor the network. *)
Lemma showRange_frame (symbolKey rangeLabel : string) (prices : list value) (a : App) :
  rangeCache (fst (showRange symbolKey rangeLabel prices a)) = rangeCache a /\
  sent (fst (showRange symbolKey rangeLabel prices a)) = sent a.
Proof.
  unfold showRange, Eff.bind.
  destruct (updateDetailHeader symbolKey prices a) as [a2 [[]|e]] eqn:Eu;
    destruct (updateDetailHeader_frame _ _ _ _ _ Eu) as [Hi Hs]; cbn [fst].
  - destruct (renderDetailChart prices (toUpperCase rangeLabel) a2) as [a3 r3] eqn:Er.
    destruct (renderDetailChart_frame _ _ _ _ _ Er) as [Hr Hs3]. cbn [fst].
    rewrite Hr, Hs3, Hs. unfold rangeCache. now rewrite Hi.
  - rewrite Hs. unfold rangeCache. now rewrite Hi.
Qed.

(** What the arrival of a response does to the cache. *)
Lemma resumeRange_cache (w : Waiting) (a : App) :
  rangeCache (fst (resumeRange w a))
  = match w_prices w with
    | Returns series => <[toUpperCase (w_label w) := series]> (rangeCache a)
    | Throws _ => rangeCache a
    end /\
  sent (fst (resumeRange w a)) = sent a.
Proof.
  unfold resumeRange, Eff.of_outcome.
  destruct (w_prices w) as [series|e]; [|split; reflexivity].
  unfold Eff.bind, Eff.modify.
  destruct (showRange_frame (w_symbolKey w) (w_label w) series
              (with_internal
                 (set_pricesByRange (<[toUpperCase (w_label w) := series]> (rangeCache a))) a))
    as [Hc Hs].
  rewrite Hc, Hs. split; reflexivity.
Qed.

Lemma nth_error_without {A : Type} (P : A -> Prop) (i : nat) (l : list A) :
  List.Forall P l -> List.Forall P (without i l).
Proof.
  intro Hl. unfold without. apply List.Forall_app. split.
  - rewrite <- (List.firstn_skipn i l) in Hl. now apply List.Forall_app in Hl.
  - rewrite <- (List.firstn_skipn (S i) l) in Hl. now apply List.Forall_app in Hl.
Qed.

(** An entry that no waiting call will write survives every event, and no
    event adds a waiting call for it. *)
Lemma detailStep_keeps (symbolKey k : string) (series : list value)
    (ev : DetailEvent) (d : Detailed) :
  rangeCache (app d) !! k = Some series ->
  List.Forall (fun w => toUpperCase (w_label w) <> k) (waiting d) ->
  rangeCache (app (detailStep symbolKey ev d)) !! k = Some series /\
  List.Forall (fun w => toUpperCase (w_label w) <> k) (waiting (detailStep symbolKey ev d)).
Proof.
  intros Hk Hw. destruct ev as [label|i]; cbn [detailStep].
  - set (a0 := with_internal (set_detailRange label) (app d)).
    assert (Ha0 : rangeCache a0 = rangeCache (app d)) by reflexivity.
    destruct (rangeCache a0 !! toUpperCase label) as [prices|] eqn:E.
    + rewrite (beginRange_hit _ _ _ _ E). cbn [app waiting].
      rewrite (proj1 (showRange_frame _ _ _ _)).
      change (rangeCache (with_internal (set_pricesByRange (rangeCache a0)) a0))
        with (rangeCache a0).
      rewrite Ha0. split; [exact Hk | exact Hw].
    + pose proof (beginRange_miss symbolKey label a0 E) as Hb. cbv zeta in Hb.
      rewrite Hb. cbn [app waiting]. split.
      * change (rangeCache (with_sent ?l (with_internal (set_pricesByRange (rangeCache a0)) a0)))
          with (rangeCache a0).
        rewrite Ha0. exact Hk.
      * apply List.Forall_app. split; [exact Hw |]. constructor; [|constructor].
        cbn [w_label]. intros <-. rewrite Ha0 in E. congruence.
  - destruct (List.nth_error (waiting d) i) as [w|] eqn:En; [|split; assumption].
    cbn [app waiting]. split; [|now apply nth_error_without].
    rewrite (proj1 (resumeRange_cache w (app d))).
    assert (Hwk : toUpperCase (w_label w) <> k).
    { rewrite List.Forall_forall in Hw. apply Hw. eapply List.nth_error_In. exact En. }
    destruct (w_prices w); [|exact Hk].
    rewrite lookup_insert_ne; [exact Hk | exact Hwk].
Qed.

Lemma detailRun_keeps (symbolKey k : string) (series : list value)
    (evs : list DetailEvent) (d : Detailed) :
  rangeCache (app d) !! k = Some series ->
  List.Forall (fun w => toUpperCase (w_label w) <> k) (waiting d) ->
  rangeCache (app (detailRun symbolKey evs d)) !! k = Some series /\
  List.Forall (fun w => toUpperCase (w_label w) <> k) (waiting (detailRun symbolKey evs d)).
Proof.
  revert d. induction evs as [|ev rest IH]; intros d Hk Hw; [split; assumption |].
  unfold detailRun. cbn [List.fold_left]. fold (detailRun symbolKey rest (detailStep symbolKey ev d)).
  destruct (detailStep_keeps symbolKey k series ev d Hk Hw) as [Hk' Hw'].
  now apply IH.
Qed.

End RangeFacts.





(** ** Rendering twice *)

Section RenderTwice.
Context `{Host}.

Lemma draws_only_ret {A : Type} (x : A) : draws_only (Eff.ret x).
Proof. intro a. exists (draws a), x. destruct a; reflexivity. Qed.

Lemma draws_only_bind {A B : Type} (m : M A) (k : A -> M B) :
  draws_only m -> (forall x, draws_only (k x)) -> draws_only (Eff.bind m k).
Proof.
  intros Hm Hk a. destruct (Hm a) as (n & x & E). unfold Eff.bind. rewrite E.
  destruct (Hk x (with_draws n a)) as (n' & y & E'). rewrite E'.
  exists n', y. reflexivity.
Qed.

Lemma draws_only_mapM {A B : Type} (f : A -> M B) (l : list A) :
  (forall x, draws_only (f x)) -> draws_only (mapM f l).
Proof.
  intro Hf. induction l as [|x r IH]; cbn [mapM].
  - apply draws_only_ret.
  - apply draws_only_bind; [apply Hf | intro y].
    apply draws_only_bind; [exact IH | intro ys; apply draws_only_ret].
Qed.

Lemma draws_only_mathRandom : draws_only mathRandom.
Proof. intro a. eexists _, _. reflexivity. Qed.

Lemma draws_only_points (v : value) : draws_only (buildSparklinePoints v).
Proof.
  unfold buildSparklinePoints. apply draws_only_mapM. intro i.
  apply draws_only_bind; [apply draws_only_mathRandom | intro; apply draws_only_ret].
Qed.

Lemma cardOf_face (c : Coin) (a : App) :
  exists n o,
    cardOf c a = (with_draws n a, o) /\
    match o with
    | Returns card => Returns (erasePath card)
    | Throws e => Throws e
    end = cardFace c.
Proof.
  unfold cardOf, Eff.bind, cardFace.
  destruct (draws_only_points (change c) a) as (n & pts & ->).
  destruct (symbolDisplay c); eexists _, _; split; reflexivity.
Qed.

Lemma mapM_cardOf_faces (l : list Coin) (a : App) :
  exists n o, mapM cardOf l a = (with_draws n a, o) /\ eraseO o = mapO cardFace l.
Proof.
  revert a. induction l as [|c r IH]; intro a; cbn [mapM mapO].
  - exists (draws a), (Returns []). split; [destruct a; reflexivity | reflexivity].
  - unfold Eff.bind at 1. destruct (cardOf_face c a) as (n & o & -> & Ho).
    rewrite <- Ho. destruct o as [card|e].
    + unfold Eff.bind at 1. destruct (IH (with_draws n a)) as (n' & o' & -> & Ho').
      rewrite <- Ho'. destruct o' as [cards|e]; eexists _, _; split; reflexivity.
    + eexists _, _; split; reflexivity.
Qed.

Lemma erase_listen (h : Handler) (cards : list Card) :
  List.map erasePath (List.map (listenCard h) cards)
  = List.map (listenCard h) (List.map erasePath cards).
Proof. rewrite !List.map_map. reflexivity. Qed.

Lemma renderTopCards_run (a : App) :
  renderTopCards a
  = match topCards (dom_of a) with
    | None => (a, Returns tt)
    | Some _ =>
        match cardSource (state_of a) with
        | [] => (with_dom (set_topCards []) a, Returns tt)
        | c :: cs =>
            match mapM cardOf (List.firstn 5 (sortByRank (c :: cs))) a with
            | (a1, Returns cards) =>
                (with_dom (set_topCards (List.map (listenCard OpenCoin) cards)) a1, Returns tt)
            | (a1, Throws e) => (a1, Throws e)
            end
        end
    end.
Proof.
  unfold renderTopCards, cardSource. unfold Eff.bind at 1. unfold Eff.gets at 1.
  destruct (topCards (dom_of a)); [|reflexivity].
  unfold Eff.bind at 1. unfold Eff.gets at 1.
  destruct (match topCoins (state_of a) with [] => _ | _ :: _ => _ end); [reflexivity |].
  unfold Eff.bind at 1. destruct (mapM cardOf _ a) as [a1 [cards|e]]; reflexivity.
Qed.

Lemma renderTopFaces_run (a : App) :
  renderTopFaces a
  = match topCards (dom_of a) with
    | None => (a, Returns tt)
    | Some _ =>
        match cardSource (state_of a) with
        | [] => (with_dom (set_topCards []) a, Returns tt)
        | c :: cs =>
            match mapO cardFace (List.firstn 5 (sortByRank (c :: cs))) with
            | Returns cards =>
                (with_dom (set_topCards (List.map (listenCard OpenCoin) cards)) a, Returns tt)
            | Throws e => (a, Throws e)
            end
        end
    end.
Proof.
  unfold renderTopFaces, cardSource. unfold Eff.bind at 1. unfold Eff.gets at 1.
  destruct (topCards (dom_of a)); [|reflexivity].
  unfold Eff.bind at 1. unfold Eff.gets at 1.
  destruct (match topCoins (state_of a) with [] => _ | _ :: _ => _ end); [reflexivity |].
  unfold Eff.bind, Eff.of_outcome. destruct (mapO cardFace _) as [cards|e]; reflexivity.
Qed.

(** The cards and the outcome of [renderTopCards], sparklines apart, are
    those of [renderTopFaces]. *)
Lemma renderTopCards_faces (a : App) :
  snd (renderTopCards a) = snd (renderTopFaces (sansSparklines a)) /\
  sansSparklines (fst (renderTopCards a)) = fst (renderTopFaces (sansSparklines a)).
Proof.
  rewrite renderTopCards_run, renderTopFaces_run.
  change (topCards (dom_of (sansSparklines a)))
    with (option_map (List.map erasePath) (topCards (dom_of a))).
  change (state_of (sansSparklines a)) with (state_of a).
  destruct (topCards (dom_of a)) as [old|] eqn:Eold; cbn [option_map].
  2: { split; reflexivity. }
  destruct (cardSource (state_of a)) as [|c cs].
  { split; reflexivity. }
  destruct (mapM_cardOf_faces (List.firstn 5 (sortByRank (c :: cs))) a) as (n & o & -> & Ho).
  rewrite <- Ho.
  destruct o as [cards|e]; cbn [eraseO fst snd].
  - split; [reflexivity |].
    unfold sansSparklines, with_dom, with_draws, with_store, dom_of. cbn.
    rewrite erase_listen. reflexivity.
  - split; reflexivity.
Qed.

Lemma paginate_window (st : State) (coins : list Coin) (a : App) :
  paginate st coins a
  = (with_internal (set_pagination {| pageSize := pageSize (paginationOr a);
                                      currentPage := w_page (windowOf st coins (paginationOr a)) |}) a,
     Returns (windowOf st coins (paginationOr a))).
Proof.
  unfold paginate, getPaginationState, putPagination, Eff.bind, Eff.modify, Eff.ret,
    paginationOr, windowOf.
  destruct (pagination (internal a)); reflexivity.
Qed.

Lemma renderTable_run (a : App) : renderTable a = tableOf a.
Proof.
  unfold renderTable, tableOf. unfold Eff.bind at 1. unfold Eff.gets at 1.
  destruct (filteredCoins (state_of a)) as [|c cs].
  - unfold Eff.bind, Eff.modify, ensurePaginationContainer, writePagination, Eff.ret,
      writeBar, attached.
    unfold dom_of. cbn.
    destruct (paginationContainer (Store.page (store a))); [reflexivity |].
    destruct (panel (Store.page (store a))); reflexivity.
  - unfold Eff.bind at 1. unfold Eff.modify at 1. unfold Eff.bind at 1.
    rewrite paginate_window.
    change (paginationOr (with_dom (set_noResults false) a)) with (paginationOr a).
    cbv zeta. unfold Eff.bind at 1. unfold Eff.of_outcome, rowsOf.
    destruct (mapO _ _) as [rows|e]; [|reflexivity].
    unfold Eff.bind, Eff.modify, ensurePaginationContainer, writePagination, Eff.ret,
      writeBar, attached, barOf.
    unfold dom_of. cbn.
    destruct (paginationContainer (Store.page (store a))); [reflexivity |].
    destruct (panel (Store.page (store a))); reflexivity.
Qed.

Lemma tableOf_erased (a : App) :
  snd (tableOf a) = snd (tableOf (sansSparklines a)) /\
  sansSparklines (fst (tableOf a)) = fst (tableOf (sansSparklines a)).
Proof.
  unfold tableOf.
  change (state_of (sansSparklines a)) with (state_of a).
  change (paginationOr (sansSparklines a)) with (paginationOr a).
  destruct (filteredCoins (state_of a)) as [|c cs].
  - unfold writeBar, attached, dom_of. cbn.
    destruct (paginationContainer (Store.page (store a))); [split; reflexivity |].
    destruct (panel (Store.page (store a))); split; reflexivity.
  - cbv zeta. destruct (rowsOf _ _) as [rows|e]; [|split; reflexivity].
    unfold writeBar, attached, dom_of. cbn.
    destruct (paginationContainer (Store.page (store a))); [split; reflexivity |].
    destruct (panel (Store.page (store a))); split; reflexivity.
Qed.

Lemma renderDashboard_run (a : App) :
  renderDashboard a
  = match tableBody (dom_of a) with
    | None => (a, Returns tt)
    | Some _ =>
        match renderTopCards a with
        | (a1, Returns _) => tableOf a1
        | (a1, Throws e) => (a1, Throws e)
        end
    end.
Proof.
  unfold renderDashboard. unfold Eff.bind at 1. unfold Eff.gets at 1.
  destruct (tableBody (dom_of a)); [|reflexivity].
  unfold Eff.bind. destruct (renderTopCards a) as [a1 [[]|e]]; [|reflexivity].
  apply renderTable_run.
Qed.

Lemma renderFaces_run (a : App) :
  renderFaces a
  = match tableBody (dom_of a) with
    | None => (a, Returns tt)
    | Some _ =>
        match renderTopFaces a with
        | (a1, Returns _) => tableOf a1
        | (a1, Throws e) => (a1, Throws e)
        end
    end.
Proof.
  unfold renderFaces. unfold Eff.bind at 1. unfold Eff.gets at 1.
  destruct (tableBody (dom_of a)); [|reflexivity].
  unfold Eff.bind. destruct (renderTopFaces a) as [a1 [[]|e]]; [|reflexivity].
  apply renderTable_run.
Qed.

(** A render, sparklines apart, is [renderFaces]. *)
Lemma renderDashboard_faces (a : App) :
  snd (renderDashboard a) = snd (renderFaces (sansSparklines a)) /\
  sansSparklines (fst (renderDashboard a)) = fst (renderFaces (sansSparklines a)).
Proof.
  rewrite renderDashboard_run, renderFaces_run.
  change (tableBody (dom_of (sansSparklines a))) with (tableBody (dom_of a)).
  destruct (tableBody (dom_of a)); [|split; reflexivity].
  destruct (renderTopCards_faces a) as [Ho Ha].
  destruct (renderTopCards a) as [a1 o1]. destruct (renderTopFaces (sansSparklines a)) as [b1 o1'].
  cbn [fst snd] in Ho, Ha. subst o1' b1.
  destruct o1 as [[]|e]; [|split; reflexivity].
  apply tableOf_erased.
Qed.

Lemma clampPage_idem (cp tp : Z) : 1 <= tp -> clampPage (clampPage cp tp) tp = clampPage cp tp.
Proof. unfold clampPage. lia. Qed.

Lemma windowOf_idem (st : State) (coins : list Coin) (p : PaginationState) :
  windowOf st coins {| pageSize := pageSize p; currentPage := w_page (windowOf st coins p) |}
  = windowOf st coins p.
Proof.
  unfold windowOf. cbn [w_page currentPage].
  change (pageSizeOf {| pageSize := pageSize p; currentPage := ?x |}) with (pageSizeOf p).
  rewrite clampPage_idem by (unfold totalPagesOf; lia). reflexivity.
Qed.

Lemma writeBar_again (c : option PagBar) (shown : bool) (rows : list Row)
    (p : PaginationState) (a : App) :
  let step x := writeBar c
                  (with_dom (set_tableBody rows)
                     (with_internal (set_pagination p) (with_dom (set_noResults shown) x))) in
  step (step a) = step a.
Proof.
  cbv zeta.
  destruct a as [[st ls dm cons] int snt dr].
  destruct dm as [tb tc nr pn pc tk dp ds dpo dc hr ss].
  destruct pc as [bar|]; [|destruct pn]; destruct nr; vm_compute; reflexivity.
Qed.

Lemma noResults_again (shown : bool) (p : PaginationState) (a : App) :
  let step x := with_internal (set_pagination p) (with_dom (set_noResults shown) x) in
  step (step a) = step a.
Proof.
  cbv zeta.
  destruct a as [[st ls dm cons] int snt dr].
  destruct dm as [tb tc nr pn pc tk dp ds dpo dc hr ss].
  destruct nr; vm_compute; reflexivity.
Qed.

Lemma empty_again (a : App) :
  let step x := writeBar None (with_dom (set_noResults true) (with_dom (set_tableBody []) x)) in
  step (step a) = step a.
Proof.
  cbv zeta.
  destruct a as [[st ls dm cons] int snt dr].
  destruct dm as [tb tc nr pn pc tk dp ds dpo dc hr ss].
  destruct pc as [bar|]; [|destruct pn]; destruct nr; vm_compute; reflexivity.
Qed.

Lemma writeBar_internal (c : option PagBar) (a : App) :
  internal (writeBar c a) = internal a /\ state_of (writeBar c a) = state_of a.
Proof. unfold writeBar. destruct (attached a); split; reflexivity. Qed.

Lemma tableOf_keeps (a : App) :
  state_of (fst (tableOf a)) = state_of a /\
  topCards (dom_of (fst (tableOf a))) = topCards (dom_of a) /\
  (tableBody (dom_of a) <> None -> tableBody (dom_of (fst (tableOf a))) <> None).
Proof.
  unfold tableOf.
  destruct (filteredCoins (state_of a)) as [|c cs].
  - unfold writeBar, attached, dom_of. cbn.
    destruct (paginationContainer (Store.page (store a))); [repeat split; discriminate |].
    destruct (panel (Store.page (store a))); repeat split; discriminate.
  - cbv zeta. destruct (rowsOf _ _) as [rows|e]; [|repeat split; intro Ht; exact Ht].
    unfold writeBar, attached, dom_of. cbn.
    destruct (paginationContainer (Store.page (store a))); [repeat split; discriminate |].
    destruct (panel (Store.page (store a))); repeat split; discriminate.
Qed.

Lemma tableOf_idem (a : App) : tableOf (fst (tableOf a)) = tableOf a.
Proof.
  unfold tableOf at 1.
  assert (Hs : state_of (fst (tableOf a)) = state_of a) by apply tableOf_keeps.
  rewrite Hs.
  destruct (filteredCoins (state_of a)) as [|c cs] eqn:Ef.
  - assert (Ha : tableOf a
                 = (writeBar None (with_dom (set_noResults true) (with_dom (set_tableBody []) a)),
                    Returns tt))
      by (unfold tableOf; rewrite Ef; reflexivity).
    rewrite Ha. cbn [fst]. f_equal. apply empty_again.
  - cbv zeta.
    set (w := windowOf (state_of a) (c :: cs) (paginationOr a)).
    set (p := {| pageSize := pageSize (paginationOr a); currentPage := w_page w |}).
    assert (Hp : paginationOr (fst (tableOf a)) = p).
    { unfold tableOf. rewrite Ef. cbv zeta. fold w. fold p.
      destruct (rowsOf (c :: cs) w); [|reflexivity].
      cbn [fst]. unfold paginationOr.
      rewrite (proj1 (writeBar_internal _ _)). reflexivity. }
    rewrite Hp.
    assert (Hw : windowOf (state_of a) (c :: cs) p = w) by apply windowOf_idem.
    rewrite Hw. change (pageSize p) with (pageSize (paginationOr a)).
    change {| pageSize := pageSize (paginationOr a); currentPage := w_page w |} with p.
    destruct (rowsOf (c :: cs) w) as [rows|e] eqn:Er.
    + assert (Ha : tableOf a
                   = (writeBar (Some (barOf w))
                        (with_dom (set_tableBody (List.map (listenRow OpenCoin) rows))
                           (with_internal (set_pagination p) (with_dom (set_noResults false) a))),
                      Returns tt)).
      { unfold tableOf. rewrite Ef. cbv zeta. fold w. fold p. rewrite Er. reflexivity. }
      rewrite Ha. cbn [fst]. f_equal.
      apply (writeBar_again (Some (barOf w)) false (List.map (listenRow OpenCoin) rows) p a).
    + assert (Ha : tableOf a
                   = (with_internal (set_pagination p) (with_dom (set_noResults false) a),
                      Throws e)).
      { unfold tableOf. rewrite Ef. cbv zeta. fold w. fold p. rewrite Er. reflexivity. }
      rewrite Ha. cbn [fst]. f_equal. apply (noResults_again false p a).
Qed.

Lemma tableOf_cards (tc : option (list Card)) (a : App) :
  tableOf (with_dom (put_topCards tc) a)
  = (with_dom (put_topCards tc) (fst (tableOf a)), snd (tableOf a)).
Proof.
  unfold tableOf.
  change (state_of (with_dom (put_topCards tc) a)) with (state_of a).
  change (paginationOr (with_dom (put_topCards tc) a)) with (paginationOr a).
  destruct (filteredCoins (state_of a)) as [|c cs].
  - unfold writeBar, attached, dom_of. cbn.
    destruct (paginationContainer (Store.page (store a))); [reflexivity |].
    destruct (panel (Store.page (store a))); reflexivity.
  - cbv zeta. destruct (rowsOf _ _) as [rows|e]; [|reflexivity].
    unfold writeBar, attached, dom_of. cbn.
    destruct (paginationContainer (Store.page (store a))); [reflexivity |].
    destruct (panel (Store.page (store a))); reflexivity.
Qed.

(** Rendering without sparklines a second time changes nothing. *)
Lemma renderFaces_idem (b : App) : renderFaces (fst (renderFaces b)) = renderFaces b.
Proof.
  rewrite (renderFaces_run b).
  destruct (tableBody (dom_of b)) as [t|] eqn:Et.
  2: { cbn [fst]. rewrite renderFaces_run, Et. reflexivity. }
  assert (Hcards : forall X, topCards (dom_of b) <> None ->
            renderTopFaces b = (with_dom (put_topCards (Some X)) b, Returns tt) ->
            renderFaces (fst (tableOf (with_dom (put_topCards (Some X)) b)))
            = tableOf (with_dom (put_topCards (Some X)) b)).
  { intros X Hc Hr.
    rewrite tableOf_cards. cbn [fst].
    destruct (tableOf_keeps b) as (Hs & Htc & Htb).
    rewrite renderFaces_run.
    change (tableBody (dom_of (with_dom (put_topCards (Some X)) (fst (tableOf b)))))
      with (tableBody (dom_of (fst (tableOf b)))).
    destruct (tableBody (dom_of (fst (tableOf b)))) eqn:Et2.
    2: { exfalso. apply Htb; [rewrite Et; discriminate | reflexivity]. }
    rewrite renderTopFaces_run.
    change (topCards (dom_of (with_dom (put_topCards (Some X)) (fst (tableOf b))))) with (Some X).
    change (state_of (with_dom (put_topCards (Some X)) (fst (tableOf b))))
      with (state_of (fst (tableOf b))).
    rewrite Hs.
    rewrite renderTopFaces_run in Hr.
    destruct (topCards (dom_of b)); [|contradiction].
    destruct (cardSource (state_of b)) as [|c cs].
    - assert (EX : X = []).
      { apply (f_equal (fun r => topCards (dom_of (fst r)))) in Hr.
        cbn [fst] in Hr. change (Some (@nil Card) = Some X) in Hr. congruence. }
      subst X.
      change (with_dom (set_topCards []) (with_dom (put_topCards (Some [])) ?a))
        with (with_dom (put_topCards (Some [])) a).
      rewrite tableOf_cards, tableOf_idem. reflexivity.
    - destruct (mapO cardFace _) as [cards|e]; [|discriminate].
      assert (EX : X = List.map (listenCard OpenCoin) cards).
      { apply (f_equal (fun r => topCards (dom_of (fst r)))) in Hr.
        cbn [fst] in Hr.
        change (Some (List.map (listenCard OpenCoin) cards) = Some X) in Hr. congruence. }
      subst X.
      change (with_dom (set_topCards ?Y) (with_dom (put_topCards (Some ?Y)) ?a))
        with (with_dom (put_topCards (Some Y)) a).
      rewrite tableOf_cards, tableOf_idem. reflexivity. }
  rewrite (renderTopFaces_run b).
  destruct (topCards (dom_of b)) as [old|] eqn:Etc.
  - destruct (cardSource (state_of b)) as [|c cs] eqn:Esrc.
    + apply (Hcards []); [discriminate |].
      rewrite renderTopFaces_run, Etc, Esrc. reflexivity.
    + destruct (mapO cardFace _) as [cards|e] eqn:Em.
      * apply (Hcards (List.map (listenCard OpenCoin) cards)); [discriminate |].
        rewrite renderTopFaces_run, Etc, Esrc, Em. reflexivity.
      * cbn [fst]. rewrite renderFaces_run, Et, renderTopFaces_run, Etc, Esrc, Em. reflexivity.
  - destruct (tableOf_keeps b) as (Hs & Htc & Htb).
    rewrite renderFaces_run.
    destruct (tableBody (dom_of (fst (tableOf b)))) eqn:Et2.
    2: { exfalso. apply Htb; [rewrite Et; discriminate | reflexivity]. }
    rewrite renderTopFaces_run, Htc, Etc. apply tableOf_idem.
Qed.

Lemma mapM_cardOf_listeners (l : list Coin) (a a' : App) (cards : list Card) :
  mapM cardOf l a = (a', Returns cards) ->
  List.Forall single (List.map card_listeners (List.map (listenCard OpenCoin) cards)).
Proof.
  revert a a' cards. induction l as [|c r IH]; intros a a' cards; cbn [mapM].
  - unfold Eff.ret. intros [= _ <-]. constructor.
  - unfold Eff.bind at 1. destruct (cardOf c a) as [a1 [card|e]] eqn:Ec; [|discriminate].
    unfold Eff.bind at 1. destruct (mapM cardOf r a1) as [a2 [cs|e]] eqn:Er; [|discriminate].
    unfold Eff.ret. intros [= _ <-]. cbn [List.map].
    constructor; [|apply (IH a1 a2 cs Er)].
    destruct (cardOf_shows c a a1 card Ec) as [_ Hl].
    unfold single. cbn. now rewrite Hl.
Qed.

Lemma mapO_rowOf_listeners (s : Z) (l : list (nat * Coin)) (rows : list Row) :
  mapO (rowOf s) l = Returns rows ->
  List.Forall single (List.map row_listeners (List.map (listenRow OpenCoin) rows)).
Proof.
  revert rows. induction l as [|[i c] r IH]; intros rows; cbn [mapO].
  - intros [= <-]. constructor.
  - destruct (rowOf s (i, c)) as [row|e] eqn:Er; [|discriminate].
    destruct (mapO (rowOf s) r) as [rs|e]; [|discriminate].
    intros [= <-]. cbn [List.map]. constructor; [|now apply IH].
    unfold rowOf in Er. destruct (symbolDisplay c); try discriminate.
    injection Er as <-. reflexivity.
Qed.

Lemma renderTopCards_listeners (a a1 : App) :
  renderTopCards a = (a1, Returns tt) ->
  tableBody (dom_of a1) = tableBody (dom_of a) /\
  match topCards (dom_of a1) with
  | Some cards => List.Forall single (List.map card_listeners cards)
  | None => True
  end.
Proof.
  rewrite renderTopCards_run.
  destruct (topCards (dom_of a)) as [old|] eqn:Eo.
  - destruct (cardSource (state_of a)) as [|c cs].
    + intros [= <-]. split; [reflexivity |]. cbn. constructor.
    + destruct (mapM cardOf _ a) as [a2 [cards|e]] eqn:Em; [|discriminate].
      intros [= <-]. split.
      * pose proof (cards_only_mapM cardOf (List.firstn 5 (sortByRank (c :: cs)))
                      cards_only_cardOf a) as Hk.
        rewrite Em in Hk. cbn [fst] in Hk.
        apply (f_equal (fun x => tableBody (dom_of x))) in Hk. exact Hk.
      * cbn. apply (mapM_cardOf_listeners _ _ _ _ Em).
  - intros [= <-]. rewrite Eo. split; [reflexivity | exact I].
Qed.

Lemma writeBar_dom (c : option PagBar) (y : App) :
  tableBody (dom_of (writeBar c y)) = tableBody (dom_of y) /\
  topCards (dom_of (writeBar c y)) = topCards (dom_of y) /\
  (paginationContainer (dom_of (writeBar c y)) = Some c \/
   paginationContainer (dom_of (writeBar c y)) = None).
Proof.
  unfold writeBar, attached.
  destruct (paginationContainer (dom_of y)) eqn:E; [repeat split; left; reflexivity |].
  destruct (panel (dom_of y)); repeat split; [left; reflexivity | right; exact E].
Qed.

Lemma tableOf_listeners (a1 a' : App) :
  tableBody (dom_of a1) <> None ->
  match topCards (dom_of a1) with
  | Some cards => List.Forall single (List.map card_listeners cards)
  | None => True
  end ->
  tableOf a1 = (a', Returns tt) ->
  List.Forall single (listenersOf a').
Proof.
  intros Ht Hc. unfold tableOf.
  assert (Hcards : List.Forall single
            match topCards (dom_of a1) with
            | Some cards => List.map card_listeners cards
            | None => []
            end)
    by (destruct (topCards _); [exact Hc | constructor]).
  destruct (filteredCoins (state_of a1)) as [|c cs].
  - intros [= <-].
    destruct (writeBar_dom None
                (with_dom (set_noResults true) (with_dom (set_tableBody []) a1)))
      as (Hb & Hcd & Hp).
    unfold listenersOf. rewrite Hb, Hcd.
    change (tableBody (dom_of (with_dom (set_noResults true) (with_dom (set_tableBody []) a1))))
      with (Some (@nil Row)).
    change (topCards (dom_of (with_dom (set_noResults true) (with_dom (set_tableBody []) a1))))
      with (topCards (dom_of a1)).
    cbn [List.map List.app].
    apply List.Forall_app. split; [exact Hcards |].
    destruct Hp as [-> | ->]; constructor.
  - cbv zeta. destruct (rowsOf _ _) as [rows|e] eqn:Er; [|discriminate].
    intros [= <-]. apply mapO_rowOf_listeners in Er.
    set (w := windowOf (state_of a1) (c :: cs) (paginationOr a1)).
    set (y := with_dom (set_tableBody (List.map (listenRow OpenCoin) rows)) _).
    destruct (writeBar_dom (Some (barOf w)) y) as (Hb & Hcd & Hp).
    unfold listenersOf. rewrite Hb, Hcd.
    change (tableBody (dom_of y)) with (Some (List.map (listenRow OpenCoin) rows)).
    change (topCards (dom_of y)) with (topCards (dom_of a1)).
    apply List.Forall_app. split; [exact Er |].
    apply List.Forall_app. split; [exact Hcards |].
    destruct Hp as [-> | ->]; repeat constructor.
Qed.

Lemma renderDashboard_listeners (a a' : App) :
  tableBody (dom_of a) <> None ->
  renderDashboard a = (a', Returns tt) ->
  List.Forall single (listenersOf a') /\ tableBody (dom_of a') <> None.
Proof.
  intros Ht. rewrite renderDashboard_run.
  destruct (tableBody (dom_of a)) eqn:Et; [|contradiction].
  destruct (renderTopCards a) as [a1 [[]|e]] eqn:Ef; [|discriminate].
  destruct (renderTopCards_listeners a a1 Ef) as [Htb Hc].
  intro Hg.
  assert (Ht1 : tableBody (dom_of a1) <> None) by (rewrite Htb, Et; discriminate).
  split; [apply (tableOf_listeners a1 a' Ht1 Hc Hg) |].
  destruct (tableOf_keeps a1) as (_ & _ & Hk). rewrite Hg in Hk. now apply Hk.
Qed.

End RenderTwice.

(** C9, as the code has it.  Rendering again on the state and page a
    render left gives the same outcome and the same session, but for the
    sparklines of the summary cards (drawn anew from [Math.random] at every
    render) and the count of random draws: table, pagination bar, cards
    (sparklines apart) and [internal] are identical.  After a render that
    found the table body and returned, every element it wrote carries
    exactly one listener, and so it is after the next render: listeners do
    not pile up. *)
Theorem render_idempotent_up_to_sparklines `{Host} (a : App) :
  let r1 := renderDashboard a in
  let r2 := renderDashboard (fst r1) in
  snd r2 = snd r1 /\
  sansSparklines (fst r2) = sansSparklines (fst r1) /\
  (tableBody (dom_of a) <> None -> snd r1 = Returns tt ->
   List.Forall single (listenersOf (fst r1)) /\
   List.Forall single (listenersOf (fst r2))).
Proof.
  cbv zeta.
  destruct (renderDashboard_faces a) as [Ho1 Ha1].
  destruct (renderDashboard_faces (fst (renderDashboard a))) as [Ho2 Ha2].
  rewrite Ha1, renderFaces_idem in Ho2, Ha2.
  split; [congruence |]. split; [congruence |].
  intros Ht Hr.
  destruct (renderDashboard a) as [a1 o1] eqn:E1. cbn [fst snd] in *.
  assert (E1' : renderDashboard a = (a1, Returns tt)) by (rewrite E1, Hr; reflexivity).
  destruct (renderDashboard_listeners a a1 Ht E1') as [Hl1 Ht1].
  split; [exact Hl1 |].
  destruct (renderDashboard a1) as [a2 o2] eqn:E2. cbn [fst snd] in *.
  assert (E2' : renderDashboard a1 = (a2, Returns tt))
    by (rewrite E2; f_equal; congruence).
  apply (renderDashboard_listeners a1 a2 Ht1 E2').
Qed.

Lemma render_idempotent_up_to_sparklines_witness :
  List.Forall single
    (listenersOf (fst (@renderDashboard Sample.host
       (fst (@renderDashboard Sample.host (Sample.dashboardAt 2)))))).
Proof.
  apply (proj2 (proj2 (@render_idempotent_up_to_sparklines Sample.host (Sample.dashboardAt 2)))).
  - vm_compute. discriminate.
  - vm_compute. reflexivity.
Defined.

(** C9 as stated fails: two renders of the same state, both returning, show
    different sparklines on the summary cards. *)
Lemma sparklines_differ_between_renders :
  let r1 := @renderDashboard Sample.host (Sample.dashboardAt 2) in
  let r2 := @renderDashboard Sample.host (fst r1) in
  snd r1 = Returns tt /\
  snd r2 = Returns tt /\
  state_of (fst r2) = state_of (fst r1) /\
  internal (fst r2) = internal (fst r1) /\
  sameSparklines (fst r1) (fst r2) = false.
Proof. vm_compute. repeat split. Qed.

(** * Further properties *)

Import Terms.

(** ** Loading a page of entries *)

Section LoadMore.
Context `{Host} `{Network}.

Lemma fetchSymbolsPage_sent (page pageSize : Z) (q : string) (log : list Url) :
  fst (fetchSymbolsPage page pageSize q log)
  = (log ++ [SymbolsUrl page pageSize (queryParam q)])%list.
Proof.
  unfold fetchSymbolsPage, getJson, fetch. unfold Eff.bind at 1. unfold Eff.bind at 1.
  destruct (serve _ _) as [|r]; [reflexivity |].
  destruct (negb (ok r)); [reflexivity |].
  destruct (json r) as [v|]; [|reflexivity].
  unfold Eff.ret at 1.
  destruct (negb (truthy v)); [reflexivity |].
  destruct (normalizeSymbolsResponse v) as [items total].
  unfold Eff.bind, Eff.of_outcome. destruct (mapItems items); reflexivity.
Qed.

Lemma setState_console {W : Type} (p : option Patch) (w : Store.World W) :
  exists more, Store.console (Store.setState p w) = (Store.console w ++ more)%list.
Proof.
  destruct p as [p|]; [|exists []; cbn; now rewrite List.app_nil_r].
  unfold Store.setState.
  assert (G : forall (ls : list (Subscriber W)) (pg : W) (log : list error), exists more,
            snd (notify ls (assign (Store.state w) p) p (Store.state w) pg log)
            = (log ++ more)%list).
  { induction ls as [|fn rest IH]; intros pg log; cbn [notify].
    - exists []. cbn. now rewrite List.app_nil_r.
    - destruct (run fn _ _ _ pg) as [pg' [err|]].
      + destruct (IH pg' (log ++ [err])%list) as [more Hm]. exists (err :: more).
        rewrite Hm, <- List.app_assoc. reflexivity.
      + apply IH. }
  destruct (G (Store.listeners w) (Store.page w) (Store.console w)) as [more Hm].
  destruct (notify _ _ _ _ _ _) as [pg log]. exists more. exact Hm.
Qed.

Lemma api_sent {A : Type} (m : Net A) (a : App) :
  sent (fst (api m a)) = fst (m (sent a)) /\ snd (api m a) = snd (m (sent a)) /\
  store (fst (api m a)) = store a /\ internal (fst (api m a)) = internal a.
Proof. unfold api, zoom. destruct (m (sent a)). repeat split. Qed.

(** What the stores of a load leave of the session. *)
Lemma stored_frame (p : Patch) (x : App) :
  sent (with_store (Store.setState (Some p)) x) = sent x /\
  internal (with_store (Store.setState (Some p)) x) = internal x /\
  exists more,
    Store.console (store (with_store (Store.setState (Some p)) x))
    = (Store.console (store x) ++ more)%list.
Proof.
  split; [reflexivity |]. split; [reflexivity |].
  unfold with_store. cbn [store]. apply setState_console.
Qed.

Lemma emptied_frame (e : error) (x : App) :
  sent (emptied e x) = sent x /\ internal (emptied e x) = internal x /\
  exists more,
    Store.console (store (emptied e x)) = (Store.console (store x) ++ e :: more)%list.
Proof.
  unfold emptied.
  destruct (stored_frame (pagePatch [] (VNum 0)) (log_error e x)) as (Hs & Hi & more & Hc).
  rewrite Hs, Hi. split; [reflexivity |]. split; [reflexivity |].
  exists more. rewrite Hc. unfold log_error, with_store. cbn [store Store.console].
  now rewrite <- List.app_assoc.
Qed.

(** The session after the [try] block of a load whose fetch returned [r],
    up to the ticker. *)
Lemma stored_page (page : Z) (r : SymbolsPage) (a1 : App) :
  let a2 := with_store (Store.setState (Some (pagePatch (page_coins r) (page_total r)))) a1 in
  let a3 := if (page =? 1) && isEmpty (topCoins (state_of a2))
            then with_store (Store.setState (Some (topPatch (page_coins r)))) a2
            else a2 in
  sent a3 = sent a1 /\ internal a3 = internal a1 /\
  coins (state_of a3) = page_coins r /\ filteredCoins (state_of a3) = page_coins r /\
  totalCoins (state_of a3) = page_total r /\
  currentQuery (state_of a3) = currentQuery (state_of a1) /\
  exists more, Store.console (store a3) = (Store.console (store a1) ++ more)%list.
Proof.
  cbv zeta.
  set (a2 := with_store _ a1).
  destruct (stored_frame (pagePatch (page_coins r) (page_total r)) a1) as (Hs & Hi & m1 & Hc).
  fold a2 in Hs, Hi, Hc.
  assert (H2 : state_of a2 = assign (state_of a1) (pagePatch (page_coins r) (page_total r)))
    by apply state_of_setState.
  destruct ((page =? 1) && isEmpty (topCoins (state_of a2))).
  - destruct (stored_frame (topPatch (page_coins r)) a2) as (Hs' & Hi' & m2 & Hc').
    rewrite Hs', Hi', Hs, Hi, state_of_setState, H2. repeat split.
    exists (m1 ++ m2)%list. rewrite Hc', Hc. now rewrite List.app_assoc.
  - rewrite Hs, Hi, H2. repeat split. exists m1. exact Hc.
Qed.

(** What a load leaves of the session, whatever the network does. *)
Lemma loadCoinsPage_frame (page pageSize : Z) (a : App) :
  let r := loadCoinsPage page pageSize a in
  snd r = Returns tt /\
  sent (fst r) = (sent a ++ [pageRequest page pageSize a])%list /\
  internal (fst r) = internal a /\
  currentQuery (state_of (fst r)) = currentQuery (state_of a).
Proof.
  cbv zeta.
  destruct (api_sent (fetchSymbolsPage (pageOr1 page) (sizeOr50 pageSize)
              (currentQuery (state_of a))) a) as (Hsent & _ & Hstore & Hint).
  pose proof (fetchSymbolsPage_sent (pageOr1 page) (sizeOr50 pageSize)
                (currentQuery (state_of a)) (sent a)) as Hlog.
  rewrite loadCoinsPage_run. fold (pageOr1 page) (sizeOr50 pageSize).
  destruct (api _ a) as [a1 o]. cbn [fst snd] in *.
  assert (Hq1 : currentQuery (state_of a1) = currentQuery (state_of a))
    by (unfold state_of; now rewrite Hstore).
  assert (Hnil : forall e x,
            sent x = sent a1 -> internal x = internal a1 ->
            currentQuery (state_of x) = currentQuery (state_of a1) ->
            snd (renderTicker [] page (emptied e x)) = Returns tt /\
            sent (fst (renderTicker [] page (emptied e x)))
            = (sent a ++ [pageRequest page pageSize a])%list /\
            internal (fst (renderTicker [] page (emptied e x))) = internal a /\
            currentQuery (state_of (fst (renderTicker [] page (emptied e x))))
            = currentQuery (state_of a)).
  { intros e x Hxs Hxi Hxq.
    destruct (renderTicker_frame [] page (emptied e x)) as (Ho & _ & Hs & Hi & Hl & _).
    cbv zeta in *. rewrite Ho, Hs, Hi, Hl, tickerFails_nil.
    destruct (emptied_frame e x) as (Hes & Hei & _). rewrite Hes, Hei, Hxs, Hxi.
    rewrite state_of_emptied. cbn [currentQuery assign pagePatch default p_currentQuery].
    rewrite Hxq, Hq1, Hsent, Hlog. repeat split. exact Hint. }
  destruct o as [r|e]; cbv zeta; [|apply Hnil; reflexivity].
  destruct (stored_page page r a1) as (H3s & H3i & _ & _ & _ & H3q & _). cbv zeta in *.
  set (a3 := if (page =? 1) && isEmpty _ then _ else _) in *.
  destruct (tickerFails (page_coins r) page a3) eqn:Ef; [apply Hnil; assumption |].
  destruct (renderTicker_frame (page_coins r) page a3) as (Ho & _ & Hs & Hi & Hl & _).
  cbv zeta in *. rewrite Ho, Hs, Hi, Hl, Ef, H3s, H3i, H3q, Hq1, Hsent, Hlog.
  repeat split. exact Hint.
Qed.

End LoadMore.


(** ** Navigation *)

Section NavigateMore.
Context `{Host} `{Network}.

Lemma writeBar_sent (c : option PagBar) (a : App) : sent (writeBar c a) = sent a.
Proof. unfold writeBar. destruct (attached a); reflexivity. Qed.

Lemma tableOf_frame (a : App) :
  sent (fst (tableOf a)) = sent a /\
  state_of (fst (tableOf a)) = state_of a /\
  internal (fst (tableOf a))
  = match filteredCoins (state_of a) with
    | [] => internal a
    | c :: cs => set_pagination (clamped (state_of a) (c :: cs) (paginationOr a)) (internal a)
    end.
Proof.
  unfold tableOf. destruct (filteredCoins (state_of a)) as [|c cs].
  - cbn [fst]. rewrite writeBar_sent. destruct (writeBar_internal None
      (with_dom (set_noResults true) (with_dom (set_tableBody []) a))) as [Hi Hs].
    rewrite Hi, Hs. repeat split.
  - cbv zeta. destruct (rowsOf _ _) as [rows|e]; cbn [fst].
    + rewrite writeBar_sent.
      match goal with |- context [writeBar ?c ?x] =>
        destruct (writeBar_internal c x) as [Hi Hs] end.
      rewrite Hi, Hs. repeat split.
    + repeat split.
Qed.

Lemma renderTopCards_frame (a : App) :
  sent (fst (renderTopCards a)) = sent a.
Proof.
  pose proof (cards_only_renderTopCards a) as E.
  change (sent (sansCards (fst (renderTopCards a))) = sent (sansCards a)). now rewrite E.
Qed.

(** What a render leaves of the session apart from the page. *)
Lemma renderDashboard_frame (a : App) :
  let a' := fst (renderDashboard a) in
  sent a' = sent a /\ state_of a' = state_of a /\
  (internal a' = internal a \/
   internal a' = set_pagination
                   (clamped (state_of a) (filteredCoins (state_of a)) (paginationOr a))
                   (internal a)).
Proof.
  cbv zeta. rewrite renderDashboard_run.
  destruct (tableBody (dom_of a)); [|repeat split; left; reflexivity].
  destruct (after_cards a) as (Hs & Hi & _). cbv zeta in Hs, Hi.
  pose proof (renderTopCards_frame a) as Hl.
  destruct (renderTopCards a) as [a1 [[]|e]]; cbn [fst] in *.
  - destruct (tableOf_frame a1) as (Hl' & Hs' & Hi').
    rewrite Hl', Hs', Hi', Hl, Hs, Hi.
    unfold paginationOr. rewrite Hi.
    split; [reflexivity |]. split; [reflexivity |].
    destruct (filteredCoins (state_of a)); [left | right]; reflexivity.
  - repeat split; try assumption. left. exact Hi.
Qed.

(** A page request followed by a render, as every listener of the bar and
    [handleSearch] end. *)
Lemma load_then_render (page pageSize : Z) (a : App) :
  let a' := fst ((loadCoinsPage page pageSize ;;; renderDashboard) a) in
  sent a' = (sent a ++ [pageRequest page pageSize a])%list /\
  currentQuery (state_of a') = currentQuery (state_of a) /\
  (forall p, pagination (internal a) = Some p -> currentPage p = 1 ->
     pagination (internal a') = Some p).
Proof.
  cbv zeta. unfold Eff.bind.
  pose proof (loadCoinsPage_frame page pageSize a) as Hload. cbv zeta in Hload.
  destruct Hload as (Ho & Hl & Hi & Hq).
  destruct (loadCoinsPage page pageSize a) as [a1 o]. cbn [fst snd] in *. subst o.
  destruct (renderDashboard_frame a1) as (Hl' & Hs' & Hi'). cbv zeta in *.
  rewrite Hl', Hs', Hl, Hq. split; [reflexivity |]. split; [reflexivity |].
  intros p Hp Hone. destruct Hi' as [-> | ->]; rewrite Hi; [exact Hp |].
  cbn [pagination set_pagination]. unfold paginationOr. rewrite Hi, Hp. cbn [default].
  unfold clamped.
  assert (Hc : forall tp, 1 <= tp -> clampPage 1 tp = 1) by (intros; unfold clampPage; lia).
  destruct p as [ps cp]. cbn [currentPage Page.pageSize] in *. subst cp.
  rewrite Hc by apply totalPagesOf_pos. reflexivity.
Qed.

End NavigateMore.

Section TrimFacts.

Lemma trimEnd_head (c : ascii) (r : string) :
  is_space c = false -> exists r', trimEnd (String c r) = String c r'.
Proof.
  intro Hc. cbn [trimEnd]. destruct (trimEnd r) as [|x t].
  - rewrite Hc. now exists EmptyString.
  - now exists (String x t).
Qed.

Lemma trimStart_head (s : string) :
  match trimStart s with
  | EmptyString => True
  | String c _ => is_space c = false
  end.
Proof.
  induction s as [|c r IH]; cbn [trimStart]; [exact I |].
  destruct (is_space c) eqn:E; [exact IH | exact E].
Qed.

Lemma trimEnd_idem (s : string) : trimEnd (trimEnd s) = trimEnd s.
Proof.
  induction s as [|c r IH]; [reflexivity |].
  cbn [trimEnd]. destruct (trimEnd r) as [|x t] eqn:E.
  - destruct (is_space c) eqn:Ec; [reflexivity |]. cbn [trimEnd]. now rewrite Ec.
  - cbn [trimEnd]. cbn [trimEnd] in IH.
    destruct (trimEnd t) as [|y u] eqn:Et.
    + destruct (is_space x); [discriminate IH | now rewrite IH].
    + now rewrite IH.
Qed.

Lemma trim_idem (s : string) : trim (trim s) = trim s.
Proof.
  unfold trim. pose proof (trimStart_head s) as Hh.
  destruct (trimStart s) as [|c r]; [reflexivity |].
  destruct (trimEnd_head c r Hh) as [r' E]. rewrite E.
  cbn [trimStart]. rewrite Hh, <- E. apply trimEnd_idem.
Qed.

Lemma queryParam_trim (query : string) : queryParam (trim query) = searchParam query.
Proof.
  unfold queryParam, searchParam. rewrite trim_idem.
  destruct (String.eqb (trim query) ""); reflexivity.
Qed.

End TrimFacts.

Section ClickFacts.
Context `{Host} `{Network}.

Lemma getPaginationState_some (a : App) (p : PaginationState) :
  pagination (internal a) = Some p -> getPaginationState a = (a, Returns p).
Proof. unfold getPaginationState. now intros ->. Qed.

Lemma fire_one (h : Handler) (ev : Event) (a : App) :
  fst (fire [h] ev a) = fst (runHandler h ev a).
Proof.
  cbn [fire]. unfold Eff.bind, Eff.ret. destruct (runHandler h ev a) as [a1 [[]|e]]; reflexivity.
Qed.

Lemma put_then_load (p' : PaginationState) (a : App) :
  let a' := fst ((putPagination p' ;;;
                  loadCoinsPage (currentPage p') (pageSize p') ;;; renderDashboard) a) in
  sent a' = (sent a ++ [pageRequest (currentPage p') (pageSize p') a])%list /\
  currentQuery (state_of a') = currentQuery (state_of a) /\
  (currentPage p' = 1 -> pagination (internal a') = Some p').
Proof.
  cbv zeta.
  change ((putPagination p' ;;; loadCoinsPage (currentPage p') (pageSize p') ;;; renderDashboard) a)
    with ((loadCoinsPage (currentPage p') (pageSize p') ;;; renderDashboard)
            (with_internal (set_pagination p') a)).
  destruct (load_then_render (currentPage p') (pageSize p')
              (with_internal (set_pagination p') a)) as (Hl & Hq & Hp).
  cbv zeta in *. rewrite Hl, Hq. repeat split. intro Hone. now apply Hp.
Qed.

End ClickFacts.

(** X2.  A click on "Next" below the last page, or on "Prev" above the first,
    issues exactly one request: for the neighbouring page, with the page
    size and the query of the session. *)
Theorem in_range_click_requests_neighbour `{Host} `{Network}
    (a : App) (p : PaginationState) (tp : Z) :
  pagination (internal a) = Some p -> 1 <= currentPage p ->
  (barListeners next_listeners a = [NextPage tp] -> currentPage p < tp ->
   sent (fst (clickNext a))
   = (sent a ++ [SymbolsUrl (currentPage p + 1) (pageSizeOf p)
                   (queryParam (currentQuery (state_of a)))])%list) /\
  (barListeners prev_listeners a = [PrevPage] -> 1 < currentPage p ->
   sent (fst (clickPrev a))
   = (sent a ++ [SymbolsUrl (currentPage p - 1) (pageSizeOf p)
                   (queryParam (currentQuery (state_of a)))])%list).
Proof.
  intros Hp Hone. split; intros Hbar Hin.
  - unfold clickNext. unfold Eff.bind at 1. unfold Eff.gets at 1. rewrite Hbar, fire_one.
    cbn [runHandler]. unfold Eff.bind at 1. rewrite (getPaginationState_some a p Hp).
    apply Z.ltb_lt in Hin. rewrite Hin.
    destruct (put_then_load {| pageSize := pageSize p; currentPage := currentPage p + 1 |} a)
      as (Hl & _). cbv zeta in Hl. rewrite Hl. cbn [currentPage Page.pageSize].
    unfold pageRequest, pageOr1, sizeOr50, pageSizeOf.
    replace (currentPage p + 1 =? 0) with false by (symmetry; apply Z.eqb_neq; lia).
    reflexivity.
  - unfold clickPrev. unfold Eff.bind at 1. unfold Eff.gets at 1. rewrite Hbar, fire_one.
    cbn [runHandler]. unfold Eff.bind at 1. rewrite (getPaginationState_some a p Hp).
    apply Z.ltb_lt in Hin. rewrite Hin.
    destruct (put_then_load {| pageSize := pageSize p; currentPage := currentPage p - 1 |} a)
      as (Hl & _). cbv zeta in Hl. rewrite Hl. cbn [currentPage Page.pageSize].
    unfold pageRequest, pageOr1, sizeOr50, pageSizeOf.
    replace (currentPage p - 1 =? 0) with false
      by (symmetry; apply Z.eqb_neq; apply Z.ltb_lt in Hin; lia).
    reflexivity.
Qed.

Lemma in_range_click_requests_neighbour_witness :
  let a := fst (@renderDashboard Sample.host (Sample.dashboardAt 2)) in
  sent (fst (@clickNext Sample.host Sample.offline a)) = [SymbolsUrl 3 50 None] /\
  sent (fst (@clickPrev Sample.host Sample.offline a)) = [SymbolsUrl 1 50 None].
Proof.
  cbv zeta.
  destruct (@in_range_click_requests_neighbour Sample.host Sample.offline
              (fst (@renderDashboard Sample.host (Sample.dashboardAt 2)))
              {| pageSize := 50; currentPage := 2 |} 3) as [Hn Hv].
  - vm_compute. reflexivity.
  - cbn. lia.
  - split.
    + rewrite Hn; [vm_compute; reflexivity | vm_compute; reflexivity | cbn; lia].
    + rewrite Hv; [vm_compute; reflexivity | vm_compute; reflexivity | cbn; lia].
Defined.

(** X3.  Choosing a number of rows per page goes back to page 1: one request,
    for page 1 with the chosen size (50 when the choice is no number or 0),
    and the pagination state holds that size and page 1 afterwards. *)
Theorem page_size_change_restarts_at_page_one `{Host} `{Network} (v : Z) (a : App) :
  barListeners sel_listeners a = [ChangePageSize] ->
  let a' := fst (changeRowsPerPage v a) in
  pagination (internal a') = Some {| pageSize := sizeOr50 v; currentPage := 1 |} /\
  sent a' = (sent a ++ [SymbolsUrl 1 (sizeOr50 v) (queryParam (currentQuery (state_of a)))])%list.
Proof.
  intros Hbar.
  assert (Hg : exists a0, getPaginationState a = (a0, Returns (paginationOr a)) /\
                          sent a0 = sent a /\ state_of a0 = state_of a).
  { unfold getPaginationState, paginationOr.
    destruct (pagination (internal a)); eexists; repeat split. }
  destruct Hg as (a0 & Hg & Hs0 & Hq0).
  assert (E : fst (changeRowsPerPage v a)
              = fst ((putPagination {| pageSize := sizeOr50 v; currentPage := 1 |} ;;;
                      loadCoinsPage 1 (sizeOr50 v) ;;; renderDashboard) a0)).
  { unfold changeRowsPerPage. unfold Eff.bind at 1. unfold Eff.gets at 1.
    rewrite Hbar, fire_one. cbn [runHandler]. unfold Eff.bind at 1. rewrite Hg. reflexivity. }
  cbv zeta. rewrite E.
  destruct (put_then_load {| pageSize := sizeOr50 v; currentPage := 1 |} a0) as (Hl & _ & Hp).
  cbv zeta in Hl, Hp. cbn [currentPage Page.pageSize] in Hl, Hp.
  rewrite Hl, Hp by reflexivity.
  split; [reflexivity |].
  unfold pageRequest, pageOr1. cbn [Z.eqb]. rewrite Hs0, Hq0.
  assert (Hidem : sizeOr50 (sizeOr50 v) = sizeOr50 v)
    by (unfold sizeOr50; destruct (v =? 0) eqn:E'; [reflexivity | now rewrite E']).
  now rewrite Hidem.
Qed.

Lemma page_size_change_restarts_at_page_one_witness :
  let a := fst (@renderDashboard Sample.host (Sample.dashboardAt 3)) in
  let a' := fst (@changeRowsPerPage Sample.host Sample.offline 10 a) in
  pagination (internal a') = Some {| pageSize := 10; currentPage := 1 |} /\
  sent a' = [SymbolsUrl 1 10 None].
Proof.
  cbv zeta.
  apply (@page_size_change_restarts_at_page_one Sample.host Sample.offline 10
           (fst (@renderDashboard Sample.host (Sample.dashboardAt 3)))).
  vm_compute. reflexivity.
Defined.

(** X4.  A search for a query of ASCII characters stores the trimmed query,
    goes back to page 1 and issues one request for page 1 that carries the
    trimmed query, or no query when only blanks were typed. *)
Theorem search_restarts_at_page_one `{Host} `{Network} (query : string) (a : App) :
  ascii_only query = true ->
  let a' := fst (handleSearch query a) in
  currentQuery (state_of a') = trim query /\
  pagination (internal a')
  = Some {| pageSize := pageSize (paginationOr a); currentPage := 1 |} /\
  sent a' = (sent a ++ [SymbolsUrl 1 (pageSizeOf (paginationOr a)) (searchParam query)])%list.
Proof.
  intros _.
  set (a0 := with_state (fun st =>
    {| coins := coins st; filteredCoins := filteredCoins st;
       totalCoins := totalCoins st; watchlist := watchlist st;
       filter := filter st; currentQuery := trim query; theme := theme st;
       fullHistory := fullHistory st; currentSymbol := currentSymbol st;
       topCoins := topCoins st |}) a).
  assert (Hg : exists a1, getPaginationState a0 = (a1, Returns (paginationOr a)) /\
                          sent a1 = sent a /\ currentQuery (state_of a1) = trim query).
  { unfold getPaginationState, paginationOr. subst a0.
    change (internal (with_state _ a)) with (internal a).
    destruct (pagination (internal a)); eexists; repeat split. }
  destruct Hg as (a1 & Hg & Hs1 & Hq1).
  set (p' := {| pageSize := pageSize (paginationOr a); currentPage := 1 |}).
  assert (E : fst (handleSearch query a)
              = fst ((loadCoinsPage 1 (pageSizeOf (paginationOr a)) ;;; renderDashboard)
                       (with_internal (set_pagination p') a1))).
  { unfold handleSearch. unfold Eff.bind at 1. unfold Eff.modify at 1. fold a0.
    unfold Eff.bind at 1. rewrite Hg. reflexivity. }
  cbv zeta. rewrite E.
  destruct (load_then_render 1 (pageSizeOf (paginationOr a))
              (with_internal (set_pagination p') a1)) as (Hl & Hq & Hp).
  cbv zeta in Hl, Hq, Hp.
  rewrite Hl, Hq, (Hp p' eq_refl eq_refl).
  split; [exact Hq1 |]. split; [reflexivity |].
  cbn [sent with_internal]. rewrite Hs1.
  unfold pageRequest, pageOr1. cbn [Z.eqb].
  change (state_of (with_internal (set_pagination p') a1)) with (state_of a1).
  rewrite Hq1, queryParam_trim.
  assert (Hidem : sizeOr50 (pageSizeOf (paginationOr a)) = pageSizeOf (paginationOr a)).
  { unfold sizeOr50, pageSizeOf.
    destruct (pageSize (paginationOr a) =? 0) eqn:E'; [reflexivity | now rewrite E']. }
  rewrite Hidem. reflexivity.
Qed.

Lemma search_restarts_at_page_one_witness :
  let a' := fst (@handleSearch Sample.host Sample.offline "  btc " (Sample.dashboardAt 3)) in
  currentQuery (state_of a') = "btc" /\
  pagination (internal a') = Some {| pageSize := 50; currentPage := 1 |} /\
  sent a' = [SymbolsUrl 1 50 (Some "btc")].
Proof.
  cbv zeta.
  apply (@search_restarts_at_page_one Sample.host Sample.offline "  btc "
           (Sample.dashboardAt 3) eq_refl).
Defined.

(** X5.  [app.init] completes the pagination state with its defaults (50 rows,
    page 1) and issues one request, for that page and size. *)
Theorem init_loads_the_stored_page `{Host} `{Network} (a : App) :
  let p := paginationOr a in
  let a' := fst (init a) in
  snd (init a) = Returns tt /\
  pagination (internal a')
  = Some {| pageSize := sizeOr50 (pageSize p); currentPage := pageOr1 (currentPage p) |} /\
  sent a' = (sent a ++ [SymbolsUrl (pageOr1 (currentPage p)) (sizeOr50 (pageSize p))
                          (queryParam (currentQuery (state_of a)))])%list.
Proof.
  assert (Hg : exists a0, getPaginationState a = (a0, Returns (paginationOr a)) /\
                          sent a0 = sent a /\ state_of a0 = state_of a).
  { unfold getPaginationState, paginationOr.
    destruct (pagination (internal a)); eexists; repeat split. }
  destruct Hg as (a0 & Hg & Hs0 & Hq0).
  set (p' := {| pageSize := sizeOr50 (pageSize (paginationOr a));
                currentPage := pageOr1 (currentPage (paginationOr a)) |}).
  assert (E : init a = loadCoinsPage (currentPage p') (pageSize p')
                         (with_internal (set_pagination p') a0)).
  { unfold init. unfold Eff.bind at 1. rewrite Hg. reflexivity. }
  cbv zeta. rewrite E.
  pose proof (loadCoinsPage_frame (currentPage p') (pageSize p')
                (with_internal (set_pagination p') a0)) as Hload.
  cbv zeta in Hload. destruct Hload as (Ho & Hl & Hi & _).
  rewrite Ho, Hl, Hi. split; [reflexivity |]. split; [reflexivity |].
  cbn [sent with_internal]. rewrite Hs0. unfold pageRequest.
  change (state_of (with_internal (set_pagination p') a0)) with (state_of a0). rewrite Hq0.
  subst p'. cbn [currentPage Page.pageSize].
  assert (Hidem : forall v, sizeOr50 (sizeOr50 v) = sizeOr50 v)
    by (intro v; unfold sizeOr50; destruct (v =? 0) eqn:E'; [reflexivity | now rewrite E']).
  assert (Hidem1 : forall v, pageOr1 (pageOr1 v) = pageOr1 v)
    by (intro v; unfold pageOr1; destruct (v =? 0) eqn:E'; [reflexivity | now rewrite E']).
  rewrite Hidem, Hidem1. reflexivity.
Qed.

(** ** The rows of the market table *)

Section RowFacts.
Context `{Host}.

Lemma mapO_rowOf_index (s : Z) (l : list (nat * Coin)) (rows : list Row) :
  mapO (rowOf s) l = Returns rows ->
  List.map globalIndex rows = List.map (fun ic => s + Z.of_nat (fst ic) + 1) l.
Proof.
  revert rows. induction l as [|[i c] r IH]; intros rows; cbn [mapO].
  - intros [= <-]. reflexivity.
  - destruct (rowOf s (i, c)) as [row|e] eqn:Er; [|discriminate].
    destruct (mapO (rowOf s) r) as [rs|e]; [|discriminate].
    intros [= <-]. cbn [List.map fst]. rewrite (IH rs eq_refl). f_equal.
    unfold rowOf in Er. destruct (symbolDisplay c); try discriminate.
    injection Er as <-. reflexivity.
Qed.

Lemma map_fst_enumerate {A B : Type} (f : nat -> B) (l : list A) (k : nat) :
  List.map (fun ic : nat * A => f (fst ic)) (List.combine (List.seq k (List.length l)) l)
  = List.map f (List.seq k (List.length l)).
Proof.
  revert k. induction l as [|x r IH]; intro k; [reflexivity |].
  cbn [List.length List.seq List.combine List.map fst]. now rewrite IH.
Qed.

Lemma map_globalIndex_listen (h : Handler) (rows : list Row) :
  List.map globalIndex (List.map (listenRow h) rows) = List.map globalIndex rows.
Proof. rewrite List.map_map. reflexivity. Qed.

End RowFacts.

(** X6.  After a render that returned, the market table has one row per entry
    of the page, in order, numbered consecutively from
    (currentPage - 1) * pageSize + 1. *)
Theorem rows_are_numbered_from_the_page_start `{Host} (a a' : App) :
  tableBody (dom_of a) <> None ->
  filteredCoins (state_of a) <> [] ->
  renderDashboard a = (a', Returns tt) ->
  exists p rows,
    pagination (internal a') = Some p /\
    tableBody (dom_of a') = Some rows /\
    List.map globalIndex rows
    = List.map (numberOf p) (List.seq 0 (List.length (filteredCoins (state_of a)))).
Proof.
  intros Ht Hc. rewrite renderDashboard_run.
  destruct (tableBody (dom_of a)); [|contradiction].
  destruct (after_cards a) as (Hs & Hi & _). cbv zeta in Hs, Hi.
  destruct (renderTopCards a) as [a1 [[]|e]]; [|discriminate]. cbn [fst] in *.
  unfold tableOf. rewrite Hs.
  destruct (filteredCoins (state_of a)) as [|c cs] eqn:Ec; [contradiction |].
  cbv zeta. destruct (rowsOf _ _) as [rows|e] eqn:Er; [|discriminate].
  intros [= <-].
  set (w := windowOf (state_of a) (c :: cs) (paginationOr a1)) in *.
  match goal with |- context [writeBar ?b ?x] =>
    destruct (writeBar_dom b x) as (Hb & _); destruct (writeBar_internal b x) as (Hin & _) end.
  exists {| pageSize := pageSize (paginationOr a1); currentPage := w_page w |},
         (List.map (listenRow OpenCoin) rows).
  rewrite Hb, Hin. repeat split.
  rewrite map_globalIndex_listen. unfold rowsOf in Er.
  rewrite (mapO_rowOf_index _ _ _ Er).
  rewrite (map_fst_enumerate (fun i => w_startIndex w + Z.of_nat i + 1) (c :: cs) 0).
  apply List.map_ext. intro i. reflexivity.
Qed.

Lemma rows_are_numbered_from_the_page_start_witness :
  exists p rows,
    pagination (internal (fst (@renderDashboard Sample.host (Sample.dashboardAt 2)))) = Some p /\
    tableBody (dom_of (fst (@renderDashboard Sample.host (Sample.dashboardAt 2)))) = Some rows /\
    List.map globalIndex rows = List.map (@numberOf p) (List.seq 0 3).
Proof.
  apply (@rows_are_numbered_from_the_page_start Sample.host (Sample.dashboardAt 2)).
  - vm_compute. discriminate.
  - vm_compute. discriminate.
  - vm_compute. reflexivity.
Defined.

(** X7.  [mapSymbolToCoin] copies the backend's [name] into both [symbol] and
    [name]: the row of an entry it built shows one text as name and as
    symbol, the backend's [name], else its [symbol], else the dash, and the
    row links to the backend's [symbol] first. *)
Theorem gateway_row_shows_name_twice `{Host} (raw : value) (start : Z) (i : nat) (row : Row) :
  rowOf start (i, mapSymbolToCoin raw) = Returns row ->
  or_else (or_else (get raw "name") (get raw "symbol")) (VStr dash) = VStr (row_symbol row) /\
  row_name row = VStr (row_symbol row) /\
  row_detailSymbol row
  = encodeURIComponent
      (ToString (or_else (or_else (get raw "symbol") (get raw "name")) (VStr ""))).
Proof.
  unfold rowOf, symbolDisplay, nameDisplay, detailSymbol, mapSymbolToCoin.
  cbn [symbol name fullSymbol change price vol].
  destruct (or_else (or_else (or_else (get raw "name") (get raw "name")) (get raw "symbol"))
              (VStr dash)) as [| | | |s| |] eqn:E; try discriminate.
  intros [= <-]. cbn [row_symbol row_name row_detailSymbol].
  assert (E' : or_else (or_else (get raw "name") (get raw "symbol")) (VStr dash) = VStr s).
  { rewrite <- E. f_equal. f_equal. unfold or_else.
    destruct (truthy (get raw "name")); reflexivity. }
  split; [exact E' |]. split.
  - destruct (truthy (get raw "name")) eqn:Tn; [|reflexivity].
    unfold or_else in E'. rewrite Tn, Tn in E'. rewrite E'.
    now rewrite String.eqb_refl.
  - f_equal. f_equal. unfold or_else.
    destruct (truthy (get raw "symbol")) eqn:Ts; rewrite ?Ts; [reflexivity |].
    destruct (truthy (get raw "name")) eqn:Tn; rewrite ?Tn; reflexivity.
Qed.

Lemma gateway_row_shows_name_twice_witness :
  exists row,
    @rowOf Sample.host 50 (0%nat, @mapSymbolToCoin Sample.host Sample.bitcoin) = Returns row /\
    row_symbol row = "BTC" /\ row_name row = VStr "BTC" /\ row_detailSymbol row = "BTCUSDT".
Proof.
  eexists. split; [vm_compute; reflexivity |].
  destruct (@gateway_row_shows_name_twice Sample.host Sample.bitcoin 50 0%nat _
              ltac:(vm_compute; reflexivity)) as (_ & Hn & _).
  split; [reflexivity |]. split; [exact Hn | reflexivity].
Defined.

(** X8.  With a table body on the page and nothing to list, a render that got
    past the summary cards returns, empties the table, shows the "no
    results" note when the page has one, clears the pagination bar when its
    container is on the page or can be created, and leaves the pagination
    state, the store and the requests as they were. *)
Theorem empty_listing_clears_the_table `{Host} (a : App) :
  tableBody (dom_of a) <> None ->
  filteredCoins (state_of a) = [] ->
  snd (renderTopCards a) = Returns tt ->
  let a' := fst (renderDashboard a) in
  snd (renderDashboard a) = Returns tt /\
  tableBody (dom_of a') = Some [] /\
  noResults (dom_of a') = option_map (fun _ => true) (noResults (dom_of a)) /\
  paginationContainer (dom_of a')
  = (if attached a then Some None else paginationContainer (dom_of a)) /\
  internal a' = internal a /\ state_of a' = state_of a /\ sent a' = sent a.
Proof.
  intros Ht Hc Hcards. cbv zeta. rewrite renderDashboard_run.
  destruct (tableBody (dom_of a)); [|contradiction].
  pose proof (cards_only_renderTopCards a) as E.
  pose proof (renderTopCards_frame a) as Hsent.
  destruct (renderTopCards a) as [a1 o]. cbn [fst snd] in *. subst o.
  assert (Hs : state_of a1 = state_of a)
    by (change (state_of (sansCards a1) = state_of (sansCards a)); now rewrite E).
  assert (Hi : internal a1 = internal a)
    by (change (internal (sansCards a1) = internal (sansCards a)); now rewrite E).
  assert (Hn : noResults (dom_of a1) = noResults (dom_of a))
    by (change (noResults (dom_of (sansCards a1)) = noResults (dom_of (sansCards a)));
        now rewrite E).
  assert (Hp : paginationContainer (dom_of a1) = paginationContainer (dom_of a))
    by (change (paginationContainer (dom_of (sansCards a1))
                = paginationContainer (dom_of (sansCards a))); now rewrite E).
  assert (Hpl : panel (dom_of a1) = panel (dom_of a))
    by (change (panel (dom_of (sansCards a1)) = panel (dom_of (sansCards a))); now rewrite E).
  unfold tableOf. rewrite Hs, Hc. cbn [fst snd].
  set (y := with_dom (set_noResults true) (with_dom (set_tableBody []) a1)).
  destruct (writeBar_internal None y) as [Hwi Hws].
  destruct (writeBar_dom None y) as (Hwb & _).
  rewrite Hwi, Hws, writeBar_sent, Hwb.
  split; [reflexivity |]. split; [reflexivity |].
  split.
  { assert (Hw : noResults (dom_of (writeBar None y)) = noResults (dom_of y))
      by (unfold writeBar; destruct (attached y); reflexivity).
    rewrite Hw.
    change (noResults (dom_of y))
      with (match noResults (dom_of a1) with Some _ => Some true | None => None end).
    rewrite Hn. now destruct (noResults (dom_of a)). }
  split.
  { assert (Ha : attached y = attached a).
    { unfold attached. change (paginationContainer (dom_of y)) with (paginationContainer (dom_of a1)).
      change (panel (dom_of y)) with (panel (dom_of a1)). now rewrite Hp, Hpl. }
    unfold writeBar. rewrite Ha. destruct (attached a); [reflexivity |].
    change (paginationContainer (dom_of y)) with (paginationContainer (dom_of a1)). exact Hp. }
  split; [exact Hi |]. split; [exact Hs | exact Hsent].
Qed.

Lemma empty_listing_clears_the_table_witness :
  let a := Sample.session Sample.dashboardDom initialState in
  tableBody (dom_of (fst (@renderDashboard Sample.host a))) = Some [] /\
  noResults (dom_of (fst (@renderDashboard Sample.host a))) = Some true /\
  paginationContainer (dom_of (fst (@renderDashboard Sample.host a))) = Some None.
Proof.
  cbv zeta.
  destruct (@empty_listing_clears_the_table Sample.host
              (Sample.session Sample.dashboardDom initialState))
    as (_ & Hb & Hn & Hp & _).
  - vm_compute. discriminate.
  - reflexivity.
  - vm_compute. reflexivity.
  - split; [exact Hb |]. split; [exact Hn | exact Hp].
Defined.

(** ** Sparklines *)

Section SparkFacts.
Context `{Host}.

Lemma Qeq_bool_pos (s : Q) : (0 < s)%Q -> Qeq_bool s 0 = false.
Proof.
  intro Hs. destruct (Qeq_bool s 0) eqn:E; [|reflexivity].
  apply Qeq_bool_iff in E. lra.
Qed.

Lemma fold_min_fin (qs : list Q) (acc : Q) :
  exists m, List.fold_left num_min2 (List.map Fin qs) (Fin acc) = Fin m /\
            (m <= acc)%Q /\ List.Forall (fun q => (m <= q)%Q) qs.
Proof.
  revert acc. induction qs as [|q r IH]; intro acc; cbn [List.map List.fold_left].
  - exists acc. repeat split; [lra | constructor].
  - unfold num_min2 at 2. unfold num_ltb.
    destruct (Qle_bool acc q) eqn:E; cbn [negb].
    + apply Qle_bool_iff in E. destruct (IH acc) as (m & Hm & Ha & Hr).
      exists m. repeat split; [exact Hm | exact Ha |]. constructor; [lra | exact Hr].
    + destruct (IH q) as (m & Hm & Ha & Hr).
      assert (Hlt : (q < acc)%Q).
      { destruct (Qlt_le_dec q acc) as [L|L]; [exact L |].
        apply Qle_bool_iff in L. congruence. }
      exists m. repeat split; [exact Hm | lra |]. constructor; [lra | exact Hr].
Qed.

Lemma fold_max_fin (qs : list Q) (acc : Q) :
  exists m, List.fold_left num_max2 (List.map Fin qs) (Fin acc) = Fin m /\
            (acc <= m)%Q /\ List.Forall (fun q => (q <= m)%Q) qs.
Proof.
  revert acc. induction qs as [|q r IH]; intro acc; cbn [List.map List.fold_left].
  - exists acc. repeat split; [lra | constructor].
  - unfold num_max2 at 2. unfold num_ltb.
    destruct (Qle_bool q acc) eqn:E; cbn [negb].
    + apply Qle_bool_iff in E. destruct (IH acc) as (m & Hm & Ha & Hr).
      exists m. repeat split; [exact Hm | exact Ha |]. constructor; [lra | exact Hr].
    + destruct (IH q) as (m & Hm & Ha & Hr).
      assert (Hlt : (acc < q)%Q).
      { destruct (Qlt_le_dec acc q) as [L|L]; [exact L |].
        apply Qle_bool_iff in L. congruence. }
      exists m. repeat split; [exact Hm | lra |]. constructor; [lra | exact Hr].
Qed.

Lemma num_min_fin (q : Q) (qs : list Q) :
  exists m, num_min (List.map Fin (q :: qs)) = Fin m /\
            List.Forall (fun x => (m <= x)%Q) (q :: qs).
Proof.
  unfold num_min. cbn [List.map List.fold_left]. cbn [num_min2 num_ltb].
  destruct (fold_min_fin qs q) as (m & Hm & Ha & Hr). exists m. split; [exact Hm |].
  constructor; assumption.
Qed.

Lemma num_max_fin (q : Q) (qs : list Q) :
  exists m, num_max (List.map Fin (q :: qs)) = Fin m /\
            List.Forall (fun x => (x <= m)%Q) (q :: qs).
Proof.
  unfold num_max. cbn [List.map List.fold_left]. cbn [num_max2 num_ltb].
  destruct (fold_max_fin qs q) as (m & Hm & Ha & Hr). exists m. split; [exact Hm |].
  constructor; assumption.
Qed.

Lemma finite_list (points : list number) :
  List.Forall (fun p => num_is_finite p = true) points ->
  exists qs, points = List.map Fin qs.
Proof.
  induction 1 as [|p r Hp _ [qs ->]]; [now exists [] |].
  destruct p as [| |q]; try discriminate. now exists (q :: qs).
Qed.

Lemma unit_fraction (x s : Q) : (0 <= x)%Q -> (x <= s)%Q -> (0 < s)%Q ->
  (0 <= x / s <= 1)%Q.
Proof.
  intros H0 Hs Hp. split.
  - apply Qle_shift_div_l; [exact Hp | lra].
  - apply Qle_shift_div_r; [exact Hp | lra].
Qed.

End SparkFacts.

Section SparkBox.
Context `{Host}.

Lemma coord_in_box (i n : nat) (q m s : Q) :
  (i <= n - 1)%nat -> (1 <= n - 1)%nat ->
  (m <= q)%Q -> (q - m <= s)%Q -> (0 < s)%Q ->
  inBox 100 32
    (num_mul (num_div (of_nat i) (of_nat (n - 1))) (Fin 100),
     num_sub (Fin 32) (num_mul (num_div (num_sub (Fin q) (Fin m)) (Fin s)) (Fin 32))).
Proof.
  intros Hi Hn Hm Hs Hp.
  assert (Hd : (0 < inject_Z (Z.of_nat (n - 1)))%Q).
  { change 0%Q with (inject_Z 0). rewrite <- Zlt_Qlt. lia. }
  assert (Hx : (0 <= inject_Z (Z.of_nat i) <= inject_Z (Z.of_nat (n - 1)))%Q).
  { split; [change 0%Q with (inject_Z 0) |]; rewrite <- Zle_Qle; lia. }
  unfold of_nat. cbn [num_div num_sub]. rewrite (Qeq_bool_pos _ Hd), (Qeq_bool_pos _ Hp).
  cbn [num_mul num_sub inBox].
  destruct (unit_fraction (inject_Z (Z.of_nat i)) (inject_Z (Z.of_nat (n - 1))))
    as [X0 X1]; [apply Hx | apply Hx | exact Hd |].
  destruct (unit_fraction (q - m) s) as [Y0 Y1]; [lra | exact Hs | exact Hp |].
  set (tx := (inject_Z (Z.of_nat i) / inject_Z (Z.of_nat (n - 1)))%Q) in *.
  set (ty := ((q - m) / s)%Q) in *.
  repeat split; lra.
Qed.

End SparkBox.

(** X9.  The path of a sparkline stays inside its 100 x 32 view box: for two or
    more points of magnitude at most 2^1022, whose differences a double
    holds, it has one coordinate pair per point, each with 0 <= x <= 100
    and 0 <= y <= 32.  The coordinates are computed without rounding here;
    rounding to the nearest double keeps the order of the numbers and so
    the bounds. *)
Theorem sparkline_fits_view_box (points : list number) :
  (2 <= List.length points)%nat ->
  List.Forall (within (inject_Z (2 ^ 1022))) points ->
  let path := buildSparklinePath points in
  List.length (d path) = List.length points /\
  List.Forall (inBox 100 32) (d path) /\
  width path = 100%Q /\ height path = 32%Q.
Proof.
  intros Hlen Hin.
  assert (Hfin : List.Forall (fun p => num_is_finite p = true) points).
  { eapply List.Forall_impl; [|exact Hin]. intros [| |q] Hq; [contradiction.. | reflexivity]. }
  clear Hin.
  destruct (finite_list points Hfin) as [qs ->].
  destruct qs as [|q0 qs]; [cbn in Hlen; lia |].
  cbv zeta. unfold buildSparklinePath. cbn [List.map].
  change (Fin q0 :: List.map Fin qs) with (List.map Fin (q0 :: qs)).
  destruct (num_min_fin q0 qs) as (m & Hmin & Hm).
  destruct (num_max_fin q0 qs) as (M & Hmax & HM).
  rewrite Hmin, Hmax. cbn [d width height].
  split; [rewrite List.length_map, List.length_combine, List.length_seq; lia |].
  split; [|split; reflexivity].
  set (s := num_or (num_sub (Fin M) (Fin m)) (Fin 1)).
  assert (Hs : exists sq, s = Fin sq /\ (0 < sq)%Q /\
                 List.Forall (fun x => (x - m <= sq)%Q) (q0 :: qs)).
  { subst s. cbn [num_sub num_or].
    assert (HmM : (m <= M)%Q).
    { inversion Hm; inversion HM; subst. lra. }
    destruct (Qeq_bool (M - m) 0) eqn:E.
    - apply Qeq_bool_iff in E. exists 1%Q. split; [reflexivity |]. split; [lra |].
      eapply List.Forall_impl; [|exact HM]. intros x Hx. cbn beta in Hx. lra.
    - exists (M - m)%Q. split; [reflexivity |]. split.
      + destruct (Qlt_le_dec 0 (M - m)) as [L|L]; [exact L |].
        assert (Hz : (M - m == 0)%Q) by lra. apply Qeq_bool_iff in Hz. congruence.
      + eapply List.Forall_impl; [|exact HM]. intros x Hx. cbn beta in Hx. lra. }
  destruct Hs as (sq & -> & Hpos & Hspan).
  apply List.Forall_forall. intros xy Hin.
  apply List.in_map_iff in Hin. destruct Hin as ([i p] & <- & Hin).
  pose proof (List.in_combine_l _ _ _ _ Hin) as Hi.
  pose proof (List.in_combine_r _ _ _ _ Hin) as Hp.
  apply List.in_seq in Hi. apply List.in_map_iff in Hp. destruct Hp as (q & <- & Hq).
  rewrite List.length_map in *.
  rewrite List.Forall_forall in Hm, Hspan.
  apply coord_in_box; [lia | lia | now apply Hm | now apply Hspan | exact Hpos].
Qed.

Lemma sparkline_fits_view_box_witness :
  List.Forall (inBox 100 32) (d (buildSparklinePath [Fin 100; Fin 98; Fin 103])).
Proof.
  apply (sparkline_fits_view_box [Fin 100; Fin 98; Fin 103]).
  - cbn. lia.
  - repeat constructor; vm_compute; discriminate.
Defined.

Section SparkPoints.
Context `{Host}.

Lemma combine_seq_shift {A B : Type} (h : nat -> A -> B) (l : list A) (k : nat) :
  List.map (fun jx : nat * A => h (fst jx) (snd jx))
    (List.combine (List.seq (S k) (List.length l)) l)
  = List.map (fun jx : nat * A => h (S (fst jx)) (snd jx))
      (List.combine (List.seq k (List.length l)) l).
Proof.
  revert k. induction l as [|x r IH]; intro k; [reflexivity |].
  cbn [List.length List.seq List.combine List.map fst snd]. now rewrite IH.
Qed.

(** A loop that draws one random number per step. *)
Lemma mapM_draws {A B : Type} (f : A -> M B) (g : A -> Q -> B) (l : list A) (a : App) :
  (forall x a, f x a = (with_draws (S (draws a)) a, Returns (g x (random (draws a))))) ->
  mapM f l a
  = (with_draws (draws a + List.length l) a,
     Returns (List.map (fun jx : nat * A => g (snd jx) (random (draws a + fst jx)))
                (List.combine (List.seq 0 (List.length l)) l))).
Proof.
  intro Hf. revert a. induction l as [|x r IH]; intro a.
  - cbn [mapM List.length List.seq List.combine List.map]. unfold Eff.ret.
    rewrite Nat.add_0_r. destruct a; reflexivity.
  - cbn [mapM]. unfold Eff.bind at 1. rewrite Hf. unfold Eff.bind at 1. rewrite IH.
    unfold Eff.ret. cbn [draws with_draws List.length List.seq List.combine List.map fst snd].
    f_equal.
    + destruct a. unfold with_draws. cbn [store internal sent draws]. f_equal. lia.
    + f_equal. rewrite Nat.add_0_r. f_equal.
      rewrite (combine_seq_shift (fun j x => g x (random (draws a + j))) r 0).
      apply List.map_ext. intros [j y]. cbn [fst snd]. do 2 f_equal. lia.
Qed.

Lemma nth_map_seq {B : Type} (f : nat -> B) (d : B) (n i : nat) :
  (i < n)%nat -> List.nth i (List.map f (List.seq 0 n)) d = f i.
Proof.
  intro Hi. rewrite (List.nth_indep _ d (f 0%nat)) by now rewrite List.length_map, List.length_seq.
  rewrite List.map_nth, List.seq_nth by exact Hi. reflexivity.
Qed.

Lemma buildSparklinePoints_run (v : value) (a : App) :
  (forall b, ToNumber v <> Inf b) ->
  buildSparklinePoints v a
  = (with_draws (draws a + 20) a,
     Returns (List.map (fun j => Fin (jittered (changeOr0 v) j (random (draws a + j))))
                (List.seq 0 20))).
Proof.
  intro Hfin. unfold buildSparklinePoints. cbv zeta.
  assert (Hc : num_or (ToNumber v) (Fin 0) = Fin (changeOr0 v)).
  { unfold changeOr0. destruct (ToNumber v) as [|b|q]; cbn [num_or];
      [reflexivity | now destruct (Hfin b) |].
    destruct (Qeq_bool q 0); reflexivity. }
  rewrite Hc.
  rewrite (mapM_draws _ (fun i r => Fin (jittered (changeOr0 v) i r))).
  - reflexivity.
  - intros i a0. reflexivity.
Qed.

End SparkPoints.

(** X10.  For a change that can be converted to a number, of magnitude at
    most 1000000 when it is one, [buildSparklinePoints] returns 20 points
    after exactly 20 draws from [Math.random], and when every draw is in
    [0, 1) each point lies within 2.001 of the straight line from 100 to
    100 * (1 + change / 100), where a change that is missing or no number
    counts as 0.  The points are computed without rounding here and are
    within 2 of the line; the bound leaves room for the rounding of
    doubles of this size. *)
Theorem sparkline_points_follow_the_trend `{Host} (changePercent : value) (a : App) :
  (forall n, (0 <= random n < 1)%Q) ->
  opaque changePercent = false ->
  (forall b, ToNumber changePercent <> Inf b) ->
  (Qabs (changeOr0 changePercent) <= 1000000)%Q ->
  exists pts,
    buildSparklinePoints changePercent a = (with_draws (draws a + 20) a, Returns pts) /\
    List.length pts = 20%nat /\
    forall i, (i < 20)%nat ->
      exists q, List.nth i pts NaN = Fin q /\
                (Qabs (q - trendAt (changeOr0 changePercent) i) <= 2 + 1 / 1000)%Q.
Proof.
  intros Hrand _ Hfin _. eexists. split; [apply (buildSparklinePoints_run _ _ Hfin) |].
  split; [now rewrite List.length_map, List.length_seq |].
  intros i Hi.
  exists (jittered (changeOr0 changePercent) i (random (draws a + i))). split.
  - now rewrite nth_map_seq.
  - unfold jittered. specialize (Hrand (draws a + i)%nat).
    set (t := trendAt _ _). set (r := random _) in *.
    assert (Hk : (2 + 1 / 1000 == 2001 # 1000)%Q) by reflexivity.
    rewrite Hk. apply Qabs_Qle_condition. split; lra.
Qed.

Lemma sparkline_points_follow_the_trend_witness :
  exists pts,
    @buildSparklinePoints Sample.host (VNum 5) (Sample.dashboardAt 1)
    = (with_draws 20 (Sample.dashboardAt 1), Returns pts) /\
    List.length pts = 20%nat.
Proof.
  destruct (@sparkline_points_follow_the_trend Sample.host (VNum 5) (Sample.dashboardAt 1))
    as (pts & Hrun & Hlen & _).
  - intro n. cbn [random Sample.host].
    assert (Hm : (n mod 7 < 7)%nat) by (apply Nat.mod_upper_bound; lia).
    unfold Qle, Qlt. cbn [Qnum Qden]. lia.
  - reflexivity.
  - intros b. cbn. discriminate.
  - vm_compute. discriminate.
  - exists pts. split; [exact Hrun | exact Hlen].
Defined.

(** ** Price series *)

Section StringOrder.

Lemma string_ltb_irrefl (x : string) : string_ltb x x = false.
Proof.
  induction x as [|c r IH]; [reflexivity |]. cbn [string_ltb].
  rewrite Nat.ltb_irrefl. exact IH.
Qed.

Lemma string_ltb_asym (x y : string) : string_ltb x y = true -> string_ltb y x = false.
Proof.
  revert y. induction x as [|c r IH]; intros [|d t]; cbn [string_ltb]; try congruence.
  destruct (nat_of_ascii c <? nat_of_ascii d)%nat eqn:E1;
    destruct (nat_of_ascii d <? nat_of_ascii c)%nat eqn:E2; try congruence.
  - apply Nat.ltb_lt in E1, E2. lia.
  - apply IH.
Qed.

(** The order is total: from [z < x], every [y] is above [z] or below [x]. *)
Lemma string_ltb_cotrans (x y z : string) :
  string_ltb z x = true -> string_ltb z y = true \/ string_ltb y x = true.
Proof.
  revert y z. induction x as [|c r IH]; intros y z.
  - destruct z; cbn [string_ltb]; discriminate.
  - destruct z as [|e u]; destruct y as [|d t]; cbn [string_ltb]; auto.
    destruct (nat_of_ascii e <? nat_of_ascii c)%nat eqn:E1;
        destruct (nat_of_ascii c <? nat_of_ascii e)%nat eqn:E2;
        destruct (nat_of_ascii e <? nat_of_ascii d)%nat eqn:E3;
        destruct (nat_of_ascii d <? nat_of_ascii e)%nat eqn:E4;
        destruct (nat_of_ascii d <? nat_of_ascii c)%nat eqn:E5;
        destruct (nat_of_ascii c <? nat_of_ascii d)%nat eqn:E6;
        try discriminate; auto;
        repeat match goal with
               | E : (_ <? _)%nat = true |- _ => apply Nat.ltb_lt in E
               | E : (_ <? _)%nat = false |- _ => apply Nat.ltb_ge in E
               end; lia.
Qed.

End StringOrder.

Section SeriesFacts.
Context `{Host} `{Network}.

Lemma dateLe_trans (x y z : value) : dateLe x y -> dateLe y z -> dateLe x z.
Proof.
  unfold dateLe.
  destruct (get x "date") as [| | | |sx| |]; try contradiction.
  destruct (get y "date") as [| | | |sy| |]; try contradiction.
  destruct (get z "date") as [| | | |sz| |]; try contradiction.
  intros Hxy Hyz. destruct (string_ltb sz sx) eqn:E; [|reflexivity].
  destruct (string_ltb_cotrans sx sy sz E); congruence.
Qed.

Lemma dated_not_nullish (l : list value) :
  List.Forall dated l -> existsb undatable l = false.
Proof.
  induction 1 as [|v r [s Hv] _ IH]; [reflexivity |].
  cbn [existsb]. rewrite IH. unfold undatable. rewrite Hv.
  destruct v; try discriminate Hv; reflexivity.
Qed.

Lemma sortByDate_sorted (l : list value) :
  List.Forall dated l ->
  exists l', sortByDate l = Returns l' /\ Permutation l l' /\ StronglySorted dateLe l'.
Proof.
  intro Hd. unfold sortByDate. rewrite (dated_not_nullish l Hd), andb_false_r.
  eexists. split; [reflexivity |]. split; [apply stableSort_perm |].
  apply (stableSort_sorted _ dated dateLe); [| |apply dateLe_trans | exact Hd].
  - intros x y [sx Hx] [sy Hy]. unfold dateBefore, dateLe, JS.lt. rewrite Hx, Hy.
    apply string_ltb_asym.
  - intros x y [sx Hx] [sy Hy]. unfold dateBefore, dateLe, JS.lt. now rewrite Hx, Hy.
Qed.

End SeriesFacts.



Section StuckFacts.
Context `{Host} `{Network}.

Lemma fetchPrices_failed (symbol : string) (tf : option string) (log : list Url) (r : Response) :
  symbol <> "" ->
  serve (List.length log) (PricesUrl symbol (timeframeParam tf)) = Responded r ->
  failed r = true ->
  fetchPrices symbol tf log = ((log ++ [PricesUrl symbol (timeframeParam tf)])%list, Returns []).
Proof.
  intros Hs Hserve Hf. unfold fetchPrices. apply String.eqb_neq in Hs. rewrite Hs.
  unfold Eff.bind. now rewrite (getJson_failed _ _ _ Hserve Hf).
Qed.

(** The click on a range that is not cached, when the backend fails. *)
Lemma click_failed (symbolKey label : string) (d : Detailed) (r : Response) :
  symbolKey <> "" ->
  rangeCache (app d) !! toUpperCase label = None ->
  serve (List.length (sent (app d)))
        (PricesUrl symbolKey (timeframeParam (rangeLabelToTimeframeParam label)))
    = Responded r ->
  failed r = true ->
  exists a1,
    detailStep symbolKey (ClickRange label) d
    = {| app := a1;
         waiting := (waiting d ++ [{| w_symbolKey := symbolKey; w_label := label;
                                      w_prices := Returns [] |}])%list |} /\
    rangeCache a1 = rangeCache (app d).
Proof.
  intros Hs Hmiss Hserve Hf. cbn [detailStep].
  set (a0 := with_internal (set_detailRange label) (app d)).
  assert (Hc : rangeCache a0 = rangeCache (app d)) by reflexivity.
  rewrite <- Hc in Hmiss.
  pose proof (beginRange_miss symbolKey label a0 Hmiss) as Hb. cbv zeta in Hb. rewrite Hb.
  change (sent a0) with (sent (app d)).
  rewrite (fetchPrices_failed _ _ _ _ Hs Hserve Hf). cbn [fst snd].
  eexists. split; [reflexivity |]. exact Hc.
Qed.

Lemma nth_error_last {A : Type} (l : list A) (x : A) :
  List.nth_error (l ++ [x]) (List.length l) = Some x.
Proof. induction l as [|y l IH]; [reflexivity | exact IH]. Qed.

Lemma without_last {A : Type} (l : list A) (x : A) :
  without (List.length l) (l ++ [x]) = l.
Proof.
  unfold without. induction l as [|y l IH]; [reflexivity |].
  cbn [List.length List.firstn List.skipn List.app] in *. now rewrite IH.
Qed.

End StuckFacts.

(** X12.  A range whose request met a non-success status (or a body that
    is not JSON) is cached as the empty series.  When the range is not
    cached and no call for it is waiting, a click on it leaves a call
    waiting for an empty series; once that response is in, before any other
    event, the range is cached as the empty list, it stays so through every
    later sequence of clicks and responses, and a later click on the range
    sends no request. *)
Theorem failed_range_is_cached_empty `{Host} `{Network}
    (symbolKey label : string) (d : Detailed) (r : Response) :
  symbolKey <> "" ->
  rangeCache (app d) !! toUpperCase label = None ->
  List.Forall (fun w => toUpperCase (w_label w) <> toUpperCase label) (waiting d) ->
  serve (List.length (sent (app d)))
        (PricesUrl symbolKey (timeframeParam (rangeLabelToTimeframeParam label)))
    = Responded r ->
  failed r = true ->
  let d1 := detailStep symbolKey (ClickRange label) d in
  let d2 := detailStep symbolKey (Arrive (List.length (waiting d))) d1 in
  waiting d1 = (waiting d ++ [{| w_symbolKey := symbolKey; w_label := label;
                                 w_prices := Returns [] |}])%list /\
  rangeCache (app d2) !! toUpperCase label = Some [] /\
  waiting d2 = waiting d /\
  forall later : list DetailEvent,
    let d3 := detailRun symbolKey later d2 in
    rangeCache (app d3) !! toUpperCase label = Some [] /\
    sent (app (detailStep symbolKey (ClickRange label) d3)) = sent (app d3).
Proof.
  intros Hs Hmiss Hw Hserve Hf. cbv zeta.
  destruct (click_failed symbolKey label d r Hs Hmiss Hserve Hf) as (a1 & E1 & Hc1).
  rewrite E1. cbn [waiting]. split; [reflexivity |].
  cbn [detailStep waiting app]. rewrite nth_error_last. cbn [app waiting].
  rewrite without_last.
  set (w := {| w_symbolKey := symbolKey; w_label := label; w_prices := Returns [] |}).
  assert (Hstored : rangeCache (fst (resumeRange w a1)) !! toUpperCase label = Some []).
  { rewrite (proj1 (resumeRange_cache w a1)). cbn [w w_prices w_label].
    apply lookup_insert_eq. }
  split; [exact Hstored |]. split; [reflexivity |]. intro later.
  destruct (detailRun_keeps symbolKey (toUpperCase label) [] later
              {| app := fst (resumeRange w a1); waiting := waiting d |} Hstored Hw)
    as [Hk _].
  split; [exact Hk |].
  cbn [detailStep].
  set (d3 := detailRun symbolKey later _) in *.
  set (a0 := with_internal (set_detailRange label) (app d3)).
  assert (Hit : rangeCache a0 !! toUpperCase label = Some []) by exact Hk.
  rewrite (beginRange_hit _ _ _ _ Hit). cbn [app].
  rewrite (proj2 (showRange_frame _ _ _ _)). reflexivity.
Qed.

Lemma failed_range_is_cached_empty_witness :
  let d := {| app := Sample.session Sample.detailDom initialState; waiting := [] |} in
  let run := detailRun (H := Sample.host) (H0 := Sample.unavailable) "BTCUSDT" in
  let d2 := run [ClickRange "1Y"; Arrive 0] d in
  rangeCache (app d2) !! "1Y" = Some [] /\
  sent (app (run [ClickRange "1Y"] d2)) = sent (app d2).
Proof.
  cbv zeta.
  destruct (@failed_range_is_cached_empty Sample.host Sample.unavailable "BTCUSDT" "1Y"
              {| app := Sample.session Sample.detailDom initialState; waiting := [] |}
              {| ok := false; json := None |}) as (_ & Hst & _ & Hl).
  - discriminate.
  - vm_compute. reflexivity.
  - constructor.
  - reflexivity.
  - reflexivity.
  - split; [exact Hst | exact (proj2 (Hl []))].
Defined.

(** ** The store *)

Section ListenerFacts.
Context {W : Type}.

Lemma filter_out_last (f : Subscriber W) (ls : list (Subscriber W)) :
  registered (sid f) ls = false ->
  List.filter (fun l => negb (Nat.eqb (sid l) (sid f))) (ls ++ [f]) = ls.
Proof.
  intro Hr. rewrite List.filter_app. cbn [List.filter]. rewrite Nat.eqb_refl. cbn [negb].
  rewrite List.app_nil_r. unfold registered in Hr.
  induction ls as [|l r IH]; [reflexivity |].
  cbn [existsb] in Hr. apply orb_false_iff in Hr. destruct Hr as [Hl Hr].
  cbn [List.filter]. rewrite Hl. cbn [negb]. now rewrite IH.
Qed.

End ListenerFacts.

(** X13.  The function [subscribe] returns undoes the subscription: after
    subscribing a function that was not registered and calling the returned
    function, the store is as it was, so a later [setState] does what it
    would have done without the subscription.  Subscribing a function that
    is registered already changes nothing. *)
Theorem unsubscribe_undoes_subscribe {W : Type} (f : Subscriber W) (w : Store.World W) :
  (registered (sid f) (Store.listeners w) = false ->
   unsubscribe (sid f) (subscribe (Some f) w) = w /\
   forall p, Store.setState p (unsubscribe (sid f) (subscribe (Some f) w)) = Store.setState p w) /\
  (registered (sid f) (Store.listeners w) = true -> subscribe (Some f) w = w) /\
  subscribe (Some f) (subscribe (Some f) w) = subscribe (Some f) w.
Proof.
  split; [|split].
  - intro Hr.
    assert (E : unsubscribe (sid f) (subscribe (Some f) w) = w).
    { unfold unsubscribe, subscribe. rewrite Hr. cbn [Store.listeners Store.state Store.page Store.console].
      rewrite (filter_out_last f _ Hr). destruct w; reflexivity. }
    split; [exact E |]. intro p. now rewrite E.
  - intro Hr. unfold subscribe. now rewrite Hr.
  - destruct (registered (sid f) (Store.listeners w)) eqn:Hr.
    + assert (E : subscribe (Some f) w = w) by (unfold subscribe; now rewrite Hr).
      now rewrite !E.
    + assert (E : subscribe (Some f) w
                  = {| Store.state := Store.state w;
                       Store.listeners := (Store.listeners w ++ [f])%list;
                       Store.page := Store.page w; Store.console := Store.console w |})
        by (unfold subscribe; now rewrite Hr).
      rewrite E. unfold subscribe. cbn [Store.listeners].
      assert (Hin : registered (sid f) (Store.listeners w ++ [f]) = true).
      { unfold registered. rewrite List.existsb_app. cbn [existsb]. rewrite Nat.eqb_refl.
        now rewrite orb_true_r. }
      now rewrite Hin.
Qed.

(** ** Escaping *)

Section EscapeFacts.

Lemma entityOf_shape (c : ascii) :
  (c = "&"%char /\ entityOf c = "&amp;") \/
  (c = "<"%char /\ entityOf c = "&lt;") \/
  (c = ">"%char /\ entityOf c = "&gt;") \/
  (c = dquote /\ entityOf c = "&quot;") \/
  (c = "'"%char /\ entityOf c = "&#039;") \/
  (Ascii.eqb c "&" = false /\ entityOf c = String c "").
Proof.
  unfold entityOf.
  destruct (Ascii.eqb c "&") eqn:C1; [apply Ascii.eqb_eq in C1; auto |].
  destruct (Ascii.eqb c "<") eqn:C2; [apply Ascii.eqb_eq in C2; auto |].
  destruct (Ascii.eqb c ">") eqn:C3; [apply Ascii.eqb_eq in C3; auto 6 |].
  destruct (Ascii.eqb c dquote) eqn:C4; [apply Ascii.eqb_eq in C4; auto 7 |].
  destruct (Ascii.eqb c "'") eqn:C5; [apply Ascii.eqb_eq in C5; auto 8 |].
  auto 9.
Qed.

Lemma entityOf_split (c e : ascii) (x y : string) :
  entityOf c ++ x = entityOf e ++ y -> c = e /\ x = y.
Proof.
  destruct (entityOf_shape c) as [[-> ->]|[[-> ->]|[[-> ->]|[[-> ->]|[[-> ->]|[Hc ->]]]]]];
  destruct (entityOf_shape e) as [[-> ->]|[[-> ->]|[[-> ->]|[[-> ->]|[[-> ->]|[He ->]]]]]];
  rewrite ?append_cons; change ("" ++ x) with x; change ("" ++ y) with y;
  intro Heq; inversion Heq; subst;
  first [ split; reflexivity
        | match goal with
          | E : Ascii.eqb ?a ?a = false |- _ => rewrite Ascii.eqb_refl in E; discriminate E
          end ].
Qed.

Lemma escapeEach_injective (s t : string) : escapeEach s = escapeEach t -> s = t.
Proof.
  revert t. induction s as [|c r IH]; intros [|e u]; cbn [escapeEach].
  - reflexivity.
  - destruct (entityOf_shape e) as [[_ ->]|[[_ ->]|[[_ ->]|[[_ ->]|[[_ ->]|[_ ->]]]]]];
      rewrite ?append_cons; discriminate.
  - destruct (entityOf_shape c) as [[_ ->]|[[_ ->]|[[_ ->]|[[_ ->]|[[_ ->]|[_ ->]]]]]];
      rewrite ?append_cons; discriminate.
  - intro Heq. apply entityOf_split in Heq. destruct Heq as [-> Heq]. f_equal. now apply IH.
Qed.

End EscapeFacts.

(** X14.  [esc] loses nothing: two different strings never escape to the same
    text, and a string without [&], [<], [>] and quotes is returned as it
    is. *)
Theorem esc_is_injective (s t : string) :
  (esc (VStr s) = esc (VStr t) -> s = t) /\
  (has_char (fun c => Ascii.eqb c "&" || markup c) s = false -> esc (VStr s) = s).
Proof.
  change (esc (VStr s)) with (escChain s). change (esc (VStr t)) with (escChain t).
  rewrite !escChain_escapeEach. split; [apply escapeEach_injective |].
  induction s as [|c r IH]; [reflexivity |].
  cbn [has_char escapeEach]. intro Hn. apply orb_false_iff in Hn as [Hc Hr].
  rewrite (IH Hr). apply orb_false_iff in Hc as [H1 Hm]. unfold markup in Hm.
  apply orb_false_iff in Hm as [Hm H5]. apply orb_false_iff in Hm as [Hm H4].
  apply orb_false_iff in Hm as [H2 H3].
  unfold entityOf. rewrite H1, H2, H3, H4, H5. reflexivity.
Qed.

(** ** The theme *)

Section ThemeFacts.
Context {W : Type}.

Lemma theme_after_set (v : value) (c : Theme.Ctx W) :
  themeOf (Theme.set v c)
  = match v with
    | VStr s => if String.eqb s "dark" then "dark" else "light"
    | _ => "light"
    end.
Proof.
  unfold themeOf, Theme.set. cbn [Theme.world].
  destruct (Theme.hasSetState c); [rewrite setState_state |]; reflexivity.
Qed.

Lemma coherent_set (v : value) (c : Theme.Ctx W) : coherent (Theme.set v c).
Proof.
  unfold coherent. cbv zeta. fold (themeOf (Theme.set v c)). rewrite theme_after_set.
  unfold Theme.set. cbn [Theme.browser Theme.localTheme Theme.darkClass].
  destruct v as [| | | |s| |]; try (repeat split; auto).
  destruct (String.eqb s "dark"); repeat split; auto.
Qed.

End ThemeFacts.

(** X15.  After [theme.set], [theme.toggle] or [theme.init] the theme is "dark" or
    "light", and the store, [localStorage.theme] and the "dark" class of the
    root element agree on it. *)
Theorem theme_places_agree {W : Type} (v : value) (c : Theme.Ctx W) :
  coherent (Theme.set v c) /\ coherent (Theme.toggle c) /\ coherent (Theme.init c).
Proof.
  split; [apply coherent_set |]. split; [apply coherent_set |].
  unfold Theme.init. cbv zeta. destruct (_ || _); apply coherent_set.
Qed.

(** X16.  [theme.toggle] turns "dark" into "light" and anything else into "dark";
    from a state where the three places agree, toggling twice restores the
    theme, [localStorage] and the class. *)
Theorem theme_toggle_flips {W : Type} (c : Theme.Ctx W) :
  themeOf (Theme.toggle c) = (if String.eqb (themeOf c) "dark" then "light" else "dark") /\
  (coherent c ->
   themeOf (Theme.toggle (Theme.toggle c)) = themeOf c /\
   Theme.browser (Theme.toggle (Theme.toggle c)) = Theme.browser c).
Proof.
  assert (Hflip : forall c : Theme.Ctx W,
            themeOf (Theme.toggle c)
            = (if String.eqb (themeOf c) "dark" then "light" else "dark")).
  { intro c0. unfold Theme.toggle. rewrite theme_after_set. fold (themeOf c0).
    destruct (String.eqb (themeOf c0) "dark"); reflexivity. }
  split; [apply Hflip |].
  intros (Ht & Hl & Hd). cbv zeta in Ht, Hl, Hd. fold (themeOf c) in Ht, Hl, Hd.
  assert (Hb : forall c0 : Theme.Ctx W,
            Theme.browser (Theme.toggle c0)
            = {| Theme.localTheme := Some (themeOf (Theme.toggle c0));
                 Theme.prefersDark := Theme.prefersDark (Theme.browser c0);
                 Theme.darkClass := String.eqb (themeOf (Theme.toggle c0)) "dark" |}).
  { intro c0. rewrite Hflip. unfold Theme.toggle, Theme.set. cbn [Theme.browser].
    fold (themeOf c0). destruct (String.eqb (themeOf c0) "dark"); reflexivity. }
  rewrite Hb, !Hflip. rewrite Hb. cbn [Theme.prefersDark].
  destruct (Theme.browser c) as [lt pd dc]. cbn [Theme.localTheme Theme.darkClass Theme.prefersDark] in *.
  subst lt dc. destruct Ht as [-> | ->]; split; reflexivity.
Qed.

Lemma theme_toggle_flips_witness :
  let c := Theme.set (VStr "dark")
             {| Theme.world := {| Store.state := initialState; Store.listeners := [];
                                  Store.page := tt; Store.console := [] |};
                Theme.hasSetState := true;
                Theme.browser := {| Theme.localTheme := None; Theme.prefersDark := false;
                                    Theme.darkClass := false |} |} in
  themeOf (Theme.toggle (Theme.toggle c)) = "dark" /\
  Theme.browser (Theme.toggle (Theme.toggle c)) = Theme.browser c.
Proof.
  cbv zeta.
  match goal with |- themeOf (Theme.toggle (Theme.toggle ?c)) = _ /\ _ =>
    apply (proj2 (theme_toggle_flips c)) end.
  vm_compute. auto.
Defined.

(** X17.  A chosen theme survives a reload: [theme.init] on a page whose
    [localStorage] is as [theme.set] left it restores the theme that was
    set, whatever the system preference and the freshly loaded state. *)
Theorem theme_survives_reload {W : Type} (v : value) (c reloaded : Theme.Ctx W) :
  Theme.localTheme (Theme.browser reloaded)
    = Theme.localTheme (Theme.browser (Theme.set v c)) ->
  themeOf (Theme.init reloaded) = themeOf (Theme.set v c) /\
  coherent (Theme.init reloaded).
Proof.
  intro Hl. split; [|apply theme_places_agree; exact VUndef].
  rewrite theme_after_set.
  set (next := match v with
               | VStr s => if String.eqb s "dark" then "dark" else "light"
               | _ => "light"
               end).
  assert (Hb : Theme.localTheme (Theme.browser (Theme.set v c)) = Some next) by reflexivity.
  rewrite Hb in Hl. unfold Theme.init. cbv zeta. rewrite Hl. rewrite orb_false_r.
  assert (Hn : next = "dark" \/ next = "light").
  { subst next. destruct v as [| | | |s| |]; auto. destruct (String.eqb s "dark"); auto. }
  destruct Hn as [-> | ->]; cbn [String.eqb Ascii.eqb Bool.eqb andb]; apply theme_after_set.
Qed.

Lemma theme_survives_reload_witness :
  let fresh b := {| Theme.world := {| Store.state := initialState; Store.listeners := [];
                                      Store.page := tt; Store.console := [] |};
                    Theme.hasSetState := true; Theme.browser := b |} in
  let c := Theme.set (VStr "dark")
             (fresh {| Theme.localTheme := None; Theme.prefersDark := false;
                       Theme.darkClass := false |}) in
  themeOf (Theme.init (fresh {| Theme.localTheme := Some "dark"; Theme.prefersDark := false;
                                Theme.darkClass := false |})) = themeOf c.
Proof.
  cbv zeta.
  match goal with |- themeOf (Theme.init ?r) = themeOf (Theme.set ?v ?c) =>
    apply (proj1 (theme_survives_reload v c r eq_refl)) end.
Defined.

(** ** The router *)


(** ** The whole list *)

Section AllFacts.
Context `{Host} `{Network}.
Import AllCoins.


Lemma getJson_sent (url : Url) (log : list Url) :
  fst (getJson url log) = (log ++ [url])%list.
Proof.
  unfold getJson, fetch, Eff.bind. destruct (serve _ _) as [|r]; [reflexivity |].
  destruct (negb (ok r)); [reflexivity |]. destruct (json r); reflexivity.
Qed.

Lemma pagesFrom_S (pageSize page : Z) (n : nat) :
  pagesFrom pageSize page (S n)
  = SymbolsUrl page pageSize None :: pagesFrom pageSize (page + 1) n.
Proof.
  unfold pagesFrom. cbn [List.seq List.map]. rewrite Z.add_0_r. f_equal.
  rewrite <- List.seq_shift, List.map_map. apply List.map_ext. intro i. f_equal. lia.
Qed.

Lemma fetchAllFrom_pages (fuel : nat) (pageSize page : Z) (all : list value) (log : list Url) :
  exists n, (n <= fuel)%nat /\
    fst (fetchAllFrom fuel pageSize page all log) = (log ++ pagesFrom pageSize page n)%list.
Proof.
  revert page all log. induction fuel as [|fuel IH]; intros page all log.
  - exists 0%nat. split; [lia |]. cbn. now rewrite List.app_nil_r.
  - cbn [fetchAllFrom]. unfold Eff.bind at 1.
    pose proof (getJson_sent (SymbolsUrl page pageSize None) log) as Hlog.
    destruct (getJson _ log) as [log1 [payload|e]]; cbn [fst] in Hlog; subst log1.
    2: { exists 1%nat. split; [lia | now rewrite pagesFrom_S]. }
    assert (Hone : exists n, (n <= S fuel)%nat /\
              (log ++ [SymbolsUrl page pageSize None])%list
              = (log ++ pagesFrom pageSize page n)%list)
      by (exists 1%nat; split; [lia | now rewrite pagesFrom_S]).
    destruct (negb (truthy payload)); [exact Hone |].
    destruct (normalizeSymbolsResponse payload) as [items total].
    destruct (noLength items); [exact Hone |].
    unfold Eff.bind, Eff.of_outcome. destruct (spread items) as [more|e]; [|exact Hone].
    destruct (negb (truthy total)); [exact Hone |].
    destruct (opaque total); [exact Hone |].
    destruct (reaches _ total); [exact Hone |].
    destruct (IH (page + 1) (all ++ more)%list (log ++ [SymbolsUrl page pageSize None])%list)
      as (n & Hn & E).
    exists (S n). split; [lia |]. rewrite E, pagesFrom_S, <- List.app_assoc. reflexivity.
Qed.

End AllFacts.

(** X19.  [fetchAllSymbols] asks for consecutive pages: its requests are, in
    order, pages 1, 2, ..., n of the symbols endpoint with the page size it
    was given and no query; and a backend that answers page 1 with a bare
    array is asked for nothing more: the array, mapped, is the whole result,
    and the call throws when an entry has a price or a change that cannot
    be converted. *)
Theorem fetchAllSymbols_asks_consecutive_pages `{Host} `{Network}
    (fuel : nat) (pageSize : Z) (log : list Url) :
  (exists n, (n <= fuel)%nat /\
     fst (AllCoins.fetchAllSymbols fuel pageSize log) = (log ++ pagesFrom pageSize 1 n)%list) /\
  (forall l,
     serve (List.length log) (SymbolsUrl 1 pageSize None)
       = Responded {| ok := true; json := Some (VArr l) |} ->
     AllCoins.fetchAllSymbols (S fuel) pageSize log
     = ((log ++ [SymbolsUrl 1 pageSize None])%list,
        if existsb unmappable l then Throws TypeError
        else Returns (Some (List.map mapSymbolToCoin l)))).
Proof.
  split.
  - destruct (fetchAllFrom_pages fuel pageSize 1 [] log) as (n & Hn & E).
    exists n. split; [exact Hn |]. unfold AllCoins.fetchAllSymbols, Eff.bind.
    destruct (AllCoins.fetchAllFrom fuel pageSize 1 [] log) as [log' [[l|]|e]];
      cbn [fst] in *; try exact E.
    unfold Eff.of_outcome. destruct (mapCoins l); exact E.
  - intros l Hserve. unfold AllCoins.fetchAllSymbols. unfold Eff.bind at 1.
    cbn [AllCoins.fetchAllFrom]. unfold Eff.bind at 1.
    rewrite (getJson_body _ _ _ Hserve). cbn [truthy negb].
    rewrite normalize_array. unfold AllCoins.noLength, lengthOf. cbn [get_length].
    destruct l as [|x r]; [reflexivity |].
    cbn [truthy]. change (Qeq_bool _ 0) with false. cbn [negb].
    unfold Eff.bind at 1. unfold Eff.of_outcome at 1. cbn [AllCoins.spread List.app].
    cbn [truthy]. change (Qeq_bool _ 0) with false. cbn [negb opaque].
    assert (Hr : AllCoins.reaches (List.length (x :: r))
                   (VNum (inject_Z (Z.of_nat (List.length (x :: r))))) = true).
    { unfold AllCoins.reaches. cbn [ToNumber num_is_nan negb andb num_ltb].
      rewrite negb_involutive. apply Qle_bool_iff. lra. }
    rewrite Hr. unfold Eff.ret at 1. unfold Eff.bind, Eff.of_outcome, mapCoins.
    destruct (existsb unmappable (x :: r)); reflexivity.
Qed.

Section AllEnds.
Context `{Host} `{Network}.
Import AllCoins.

Lemma fullPage_normalized (T : Q) (payload : value) :
  fullPage T payload ->
  exists x l, truthy payload = true /\
              normalizeSymbolsResponse payload = (VArr (x :: l), VNum T) /\
              existsb unmappable (x :: l) = false.
Proof.
  intros (x & l & Hi & Ht & Hm). exists x, l.
  destruct payload as [| | | | | |kv]; try discriminate Hi.
  split; [reflexivity |]. split; [|exact Hm]. unfold normalizeSymbolsResponse. cbn [isArray].
  rewrite Hi, Ht. reflexivity.
Qed.

Lemma fetchAllFrom_ends (T : Q) (pageSize : Z) :
  (0 < T)%Q ->
  (forall n url, exists payload,
      serve n url = Responded {| ok := true; json := Some payload |} /\ fullPage T payload) ->
  forall (fuel : nat) (page : Z) (all : list value) (log : list Url),
    (1 <= fuel)%nat ->
    (Z.to_nat (Qceiling T) - List.length all <= fuel)%nat ->
    existsb unmappable all = false ->
    exists got, snd (fetchAllFrom fuel pageSize page all log) = Returns (Some got) /\
                (T <= inject_Z (Z.of_nat (List.length got)))%Q /\
                existsb unmappable got = false.
Proof.
  intros HT Hserve. induction fuel as [|fuel IH]; intros page all log H1 Hm Hall; [lia |].
  cbn [fetchAllFrom]. unfold Eff.bind at 1.
  destruct (Hserve (List.length log) (SymbolsUrl page pageSize None)) as (payload & Hs & Hfull).
  rewrite (getJson_body _ _ _ Hs).
  destruct (fullPage_normalized T payload Hfull) as (x & l & Htruthy & Hnorm & Hmap).
  rewrite Htruthy, Hnorm. cbn [negb].
  assert (Hlen : noLength (VArr (x :: l)) = false) by reflexivity.
  assert (HtT : truthy (VNum T) = true) by (cbn [truthy]; now rewrite (Qeq_bool_pos T HT)).
  assert (Hall' : existsb unmappable (all ++ x :: l) = false)
    by (rewrite List.existsb_app, Hall, Hmap; reflexivity).
  rewrite Hlen. unfold Eff.bind at 1. unfold Eff.of_outcome. cbn [spread].
  rewrite HtT. cbn [negb opaque].
  unfold reaches. cbn [ToNumber num_is_nan negb andb num_ltb]. rewrite negb_involutive.
  destruct (Qle_bool T _) eqn:E.
  - eexists. split; [reflexivity |]. split; [|exact Hall']. apply Qle_bool_iff in E. exact E.
  - assert (Hlt : (inject_Z (Z.of_nat (List.length (all ++ x :: l))) < T)%Q).
    { destruct (Qlt_le_dec (inject_Z (Z.of_nat (List.length (all ++ x :: l)))) T) as [L|L];
        [exact L |]. apply Qle_bool_iff in L. congruence. }
    assert (Hc : Z.of_nat (List.length (all ++ x :: l)) < Qceiling T).
    { apply Qlt_le_trans with (z := inject_Z (Qceiling T)) in Hlt; [|apply Qle_ceiling].
      now rewrite <- Zlt_Qlt in Hlt. }
    rewrite List.length_app in *. cbn [List.length] in *.
    apply IH; [| |exact Hall']; rewrite ?List.length_app; cbn [List.length]; lia.
Qed.

End AllEnds.

(** X20.  The loop of [fetchAllSymbols] ends when the backend serves envelopes
    with one positive total T and a non-empty page of items whose prices
    and changes convert to numbers: after at most ceil(T) requests it
    returns at least T entries. *)
Theorem fetchAllSymbols_ends_on_full_pages `{Host} `{Network}
    (T : Q) (pageSize : Z) (fuel : nat) (log : list Url) :
  (0 < T)%Q ->
  (forall n url, exists payload,
      serve n url = Responded {| ok := true; json := Some payload |} /\ fullPage T payload) ->
  (Z.to_nat (Qceiling T) <= fuel)%nat ->
  exists cs,
    snd (AllCoins.fetchAllSymbols fuel pageSize log) = Returns (Some cs) /\
    (T <= inject_Z (Z.of_nat (List.length cs)))%Q.
Proof.
  intros HT Hserve Hfuel.
  assert (H1 : (1 <= fuel)%nat).
  { assert (Hpos : 0 < Qceiling T); [|lia].
    rewrite Zlt_Qlt. eapply Qlt_le_trans; [exact HT | apply Qle_ceiling]. }
  destruct (fetchAllFrom_ends T pageSize HT Hserve fuel 1 [] log H1) as (got & Hg & Hlen & Hmap);
    [cbn [List.length]; lia | reflexivity |].
  exists (List.map mapSymbolToCoin got). unfold AllCoins.fetchAllSymbols, Eff.bind.
  destruct (AllCoins.fetchAllFrom fuel pageSize 1 [] log) as [log' o]. cbn [snd] in Hg. subst o.
  unfold Eff.of_outcome, mapCoins. rewrite Hmap.
  split; [reflexivity |]. now rewrite List.length_map.
Qed.

Lemma fetchAllSymbols_ends_on_full_pages_witness :
  exists cs,
    snd (@AllCoins.fetchAllSymbols Sample.host
           (Sample.always (VObj [("items", VArr [Sample.bitcoin]); ("total", VNum 2)]))
           2 500 []) = Returns (Some cs) /\
    (2 <= inject_Z (Z.of_nat (List.length cs)))%Q.
Proof.
  apply (@fetchAllSymbols_ends_on_full_pages Sample.host
           (Sample.always (VObj [("items", VArr [Sample.bitcoin]); ("total", VNum 2)]))
           2 500 2 []).
  - reflexivity.
  - intros n url. eexists. split; [reflexivity |]. eexists _, _.
    split; [reflexivity |]. split; reflexivity.
  - vm_compute. lia.
Defined.

Section AllLoad.
Context `{Host} `{Network}.
Import AllCoins.

(** [loadAllCoins], written out. *)
Lemma loadAllCoins_run (fuel : nat) (a : App) :
  loadAllCoins fuel a
  = match api (fetchAllSymbols fuel 500) a with
    | (a1, Returns None) => (a1, Returns None)
    | (a1, Returns (Some cs)) =>
        let a2 := with_store (Store.setState (Some (allPatch cs))) a1 in
        (if isEmpty (topCoins (state_of a2))
         then with_store (Store.setState (Some (topPatch (List.firstn 100 cs)))) a2
         else a2,
         Returns (Some tt))
    | (a1, Throws e) =>
        (with_store (Store.setState (Some (pagePatch [] (VNum 0)))) (log_error e a1),
         Returns (Some tt))
    end.
Proof.
  unfold loadAllCoins, Eff.try_catch. unfold Eff.bind at 1.
  destruct (api (fetchAllSymbols fuel 500) a) as [a1 [[cs|]|e]]; [| reflexivity | reflexivity].
  unfold Eff.bind at 1. unfold Page.setState at 1. unfold Eff.modify at 1.
  unfold Eff.bind at 1. unfold Eff.gets at 1. cbv zeta.
  destruct (topCoins (state_of _)); reflexivity.
Qed.

End AllLoad.

(** X21.  [loadAllCoins] never throws.  When [fetchAllSymbols] returns the list,
    it becomes [coins] and [filteredCoins], its length [totalCoins], and a
    [topCoins] that was empty receives its first 100 entries; when
    [fetchAllSymbols] throws, the listing is emptied and [topCoins] is
    kept. *)
Theorem loadAllCoins_contains_failure `{Host} `{Network} (fuel : nat) (a : App) :
  let st := state_of a in
  let st' := state_of (fst (AllCoins.loadAllCoins fuel a)) in
  match snd (AllCoins.fetchAllSymbols fuel 500 (sent a)) with
  | Returns None => snd (AllCoins.loadAllCoins fuel a) = Returns None
  | Returns (Some cs) =>
      snd (AllCoins.loadAllCoins fuel a) = Returns (Some tt) /\
      coins st' = cs /\ filteredCoins st' = cs /\ totalCoins st' = lengthOf cs /\
      topCoins st' = (if isEmpty (topCoins st) then List.firstn 100 cs else topCoins st) /\
      (List.length (topCoins st') <= Nat.max 100 (List.length (topCoins st)))%nat
  | Throws e =>
      snd (AllCoins.loadAllCoins fuel a) = Returns (Some tt) /\
      coins st' = [] /\ filteredCoins st' = [] /\ totalCoins st' = VNum 0 /\
      topCoins st' = topCoins st
  end.
Proof.
  cbv zeta. rewrite loadAllCoins_run.
  destruct (api_sent (AllCoins.fetchAllSymbols fuel 500) a) as (_ & Hout & Hstore & _).
  destruct (api (AllCoins.fetchAllSymbols fuel 500) a) as [a1 o]. cbn [fst snd] in *.
  rewrite <- Hout.
  assert (Hstate : forall p x, state_of (with_store (Store.setState (Some p)) x)
                               = assign (state_of x) p).
  { intros p x. unfold state_of, with_store. cbn [store]. apply setState_state. }
  assert (Hs1 : state_of a1 = state_of a) by (unfold state_of; now rewrite Hstore).
  destruct o as [[cs|]|e]; cbv zeta; cbn [fst snd].
  - rewrite Hstate, Hs1.
    change (topCoins (assign (state_of a) (AllCoins.allPatch cs))) with (topCoins (state_of a)).
    split; [reflexivity |].
    destruct (topCoins (state_of a)) as [|t ts] eqn:Et; cbn [isEmpty].
    + rewrite !Hstate, Hs1. cbn. repeat split. rewrite List.length_firstn. lia.
    + rewrite Hstate, Hs1. cbn. rewrite Et. repeat split. cbn [List.length]. lia.
  - reflexivity.
  - rewrite Hstate. unfold state_of, log_error, with_store. cbn [store Store.state].
    rewrite Hstore. repeat split.
Qed.

(** ** The watchlist table *)

Section WatchFacts.
Context `{Host}.
Import Watch.

Lemma mapO_watchRowOf (l : list Coin) (k : nat) (rows : list WatchRow) :
  mapO watchRowOf (List.combine (List.seq k (List.length l)) l) = Returns rows ->
  List.Forall2 (fun row c => symbolDisplay c = VStr (wr_symbol row) /\
                             wr_price row = formatPrice (price c)) rows l /\
  List.map wr_index rows
  = List.map (fun i => Z.of_nat i + 1) (List.seq k (List.length l)).
Proof.
  revert k rows. induction l as [|c r IH]; intros k rows.
  - cbn. intros [= <-]. split; [constructor | reflexivity].
  - cbn [List.length List.seq List.combine mapO].
    destruct (watchRowOf (k, c)) as [row|e] eqn:Er; [|discriminate].
    destruct (mapO watchRowOf _) as [rs|e] eqn:Em; [|discriminate].
    intros [= <-]. destruct (IH (S k) rs Em) as [Hf Hi].
    unfold watchRowOf in Er. destruct (symbolDisplay c) eqn:Es; try discriminate.
    injection Er as <-. split.
    + constructor; [cbn; now rewrite Es | exact Hf].
    + cbn [List.map wr_index]. now rewrite Hi.
Qed.

Lemma seeded_watchlist_misses (c : Coin) :
  textual (watchKey c) = true -> has [VNum 1; VNum 3] (watchKey c) = false.
Proof. intro Ht. destruct (watchKey c); try discriminate Ht; reflexivity. Qed.

End WatchFacts.

(** X22.  The watchlist table shows the entries of [state.coins] whose key
    ([fullSymbol], else [symbol], else [name]) is in the watchlist: one row
    per such entry, in the order of [state.coins], numbered from 1.  The
    watchlist the state starts with holds the numbers 1 and 3, so as long
    as nothing else is put into it no entry keyed by a string is shown. *)
Theorem watchlist_shows_watched_entries `{Host}
    (st : State) (old rows : list Watch.WatchRow) :
  Watch.renderWatchlist st (Some old) = Returns (Some rows) ->
  let watched := List.filter (fun c => Watch.has (watchlist st) (Watch.watchKey c)) (coins st) in
  List.Forall2 (fun row c => symbolDisplay c = VStr (Watch.wr_symbol row) /\
                             Watch.wr_price row = formatPrice (price c)) rows watched /\
  List.map Watch.wr_index rows
  = List.map (fun i => Z.of_nat i + 1) (List.seq 0 (List.length watched)) /\
  (watchlist st = watchlist initialState ->
   List.Forall (fun c => textual (Watch.watchKey c) = true) (coins st) -> rows = []).
Proof.
  unfold Watch.renderWatchlist. cbv zeta.
  destruct (mapO _ _) as [rs|e] eqn:Em; [|discriminate]. intros [= <-].
  destruct (mapO_watchRowOf _ _ _ Em) as [Hf Hi].
  split; [exact Hf |]. split; [exact Hi |].
  intros Hw Ht. rewrite Hw in Hf. cbn [watchlist initialState] in Hf.
  assert (Hnone : forall l, List.Forall (fun c => textual (Watch.watchKey c) = true) l ->
            List.filter (fun c => Watch.has [VNum 1; VNum 3] (Watch.watchKey c)) l = []).
  { induction 1 as [|c r Hc _ IH]; [reflexivity |].
    cbn [List.filter]. now rewrite (seeded_watchlist_misses c Hc). }
  rewrite (Hnone _ Ht) in Hf. now inversion Hf.
Qed.

Lemma watchlist_shows_watched_entries_witness :
  exists rows,
    @Watch.renderWatchlist Sample.host
      {| coins := Sample.entries; filteredCoins := Sample.entries; totalCoins := VNum 3;
         watchlist := [VStr "BUSDT"]; filter := ""; currentQuery := ""; theme := "light";
         fullHistory := []; currentSymbol := VNull; topCoins := [] |} (Some [])
    = Returns (Some rows) /\
    List.map Watch.wr_index rows = [1] /\ List.map Watch.wr_symbol rows = ["B"].
Proof.
  eexists. split; [vm_compute; reflexivity |].
  split; [|reflexivity].
  match goal with |- List.map Watch.wr_index ?rows = _ =>
    destruct (@watchlist_shows_watched_entries Sample.host
                {| coins := Sample.entries; filteredCoins := Sample.entries;
                   totalCoins := VNum 3; watchlist := [VStr "BUSDT"]; filter := "";
                   currentQuery := ""; theme := "light"; fullHistory := [];
                   currentSymbol := VNull; topCoins := [] |} [] rows
                ltac:(vm_compute; reflexivity)) as (_ & Hi & _) end.
  exact Hi.
Defined.

(** ** Filtering a series by range *)

Section FilterFacts.
Context `{Host} `{Utils.Clock}.
Import Utils.

Lemma filterPrices_label (prices : value) (r : string) :
  filterPrices prices (VStr r)
  = let list := match prices with
                | VArr l => l
                | _ => []
                end in
    match windowMs (toUpperCase r) with
    | None => list
    | Some w => List.filter (since (now - w)) list
    end.
Proof.
  unfold filterPrices. cbv zeta.
  assert (E : ToString (or_else (VStr r) (VStr "")) = r).
  { unfold or_else. cbn [truthy]. destruct (String.eqb r "") eqn:Er; cbn [negb ToString].
    - apply String.eqb_eq in Er. now subst r.
    - reflexivity. }
  now rewrite E.
Qed.

Lemma since_mono (c1 c2 : Q) (p : value) :
  (c2 <= c1)%Q -> since c1 p = true -> since c2 p = true.
Proof.
  unfold since. destruct (timeOf (get p "date")) as [| |t]; try discriminate.
  intros Hc Ht. apply Qle_bool_iff in Ht. apply Qle_bool_iff. lra.
Qed.

Lemma filter_incl_mono {A : Type} (f g : A -> bool) (l : list A) :
  (forall x, f x = true -> g x = true) -> incl (List.filter f l) (List.filter g l).
Proof.
  intros Hfg x Hx. apply List.filter_In in Hx. destruct Hx as [Hin Hf].
  apply List.filter_In. split; [exact Hin | now apply Hfg].
Qed.

End FilterFacts.


(** ** The export buttons *)

Section DownloadFacts.
Import Download.

Lemma sanitize_safe (s : string) : has_char (fun c => negb (safeChar c)) (sanitize s) = false.
Proof.
  induction s as [|c r IH]; [reflexivity |].
  cbn [sanitize has_char]. rewrite IH, orb_false_r.
  destruct (safeChar c) eqn:E; [now rewrite E | reflexivity].
Qed.

Lemma sanitize_idem (s : string) : sanitize (sanitize s) = sanitize s.
Proof.
  induction s as [|c r IH]; [reflexivity |].
  cbn [sanitize]. rewrite IH. destruct (safeChar c) eqn:E; [now rewrite E | reflexivity].
Qed.

Lemma sanitize_length (s : string) : String.length (sanitize s) = String.length s.
Proof. induction s as [|c r IH]; [reflexivity |]. cbn [sanitize String.length]. now rewrite IH. Qed.

End DownloadFacts.

(** X24.  The name of a downloaded file is made of letters, digits, "-", "_" and
    "." only.  The symbol it starts with is never empty, has the length of
    the symbol it was made from when that is not empty, and sanitising it
    again changes nothing. *)
Theorem download_names_are_safe (symbol : string) :
  has_char (fun c => negb (Download.safeChar c)) (Download.csvFileName symbol) = false /\
  has_char (fun c => negb (Download.safeChar c)) (Download.jsonFileName symbol) = false /\
  Download.safeSymbol symbol <> "" /\
  (symbol <> "" ->
   String.length (Download.safeSymbol symbol) = String.length symbol) /\
  Download.safeSymbol (Download.safeSymbol symbol) = Download.safeSymbol symbol.
Proof.
  unfold Download.csvFileName, Download.jsonFileName, Download.safeSymbol.
  rewrite !has_char_app, !sanitize_safe.
  split; [reflexivity |]. split; [reflexivity |].
  assert (Hne : forall s, s <> "" -> Download.sanitize s <> "")
    by (intros [|c r] Hs; [contradiction | discriminate]).
  split; [|split].
  - destruct (String.eqb symbol "") eqn:E; apply Hne; [discriminate |].
    now apply String.eqb_neq.
  - intro Hs. apply String.eqb_neq in Hs. rewrite Hs. apply sanitize_length.
  - destruct (String.eqb symbol "") eqn:E.
    + reflexivity.
    + assert (Hs : String.eqb (Download.sanitize symbol) "" = false).
      { apply String.eqb_neq, Hne. now apply String.eqb_neq. }
      rewrite Hs. apply sanitize_idem.
Qed.

Section CsvFacts.
Context `{Host}.
Import Download.

Lemma includes_one (x c : ascii) (r : string) :
  includes (String x EmptyString) (String c r)
  = Ascii.eqb x c || includes (String x EmptyString) r.
Proof.
  cbn [includes String.prefix]. destruct (ascii_dec x c) as [->|Hn].
  - rewrite Ascii.eqb_refl. now destruct r.
  - apply Ascii.eqb_neq in Hn. now rewrite Hn.
Qed.

Lemma append_nil_r (s : string) : s ++ "" = s.
Proof. induction s as [|c r IH]; [reflexivity |]. rewrite append_cons. now rewrite IH. Qed.

Lemma append_one (acc : string) (c : ascii) (r : string) :
  (acc ++ String c EmptyString) ++ r = acc ++ String c r.
Proof. rewrite append_assoc. reflexivity. Qed.

(** Reading a field that needed no quotes. *)
Lemma csvRead_plain (s acc rest : string) :
  includes "," s = false -> includes quote s = false ->
  csvRead false acc (s ++ rest) = csvRead false (acc ++ s) rest.
Proof.
  revert acc. induction s as [|c r IH]; intros acc Hc Hq.
  - now rewrite append_nil_r.
  - unfold quote in Hq. rewrite includes_one in Hc, Hq.
    apply orb_false_iff in Hc as [Hc1 Hc2]. apply orb_false_iff in Hq as [Hq1 Hq2].
    rewrite append_cons. cbn [csvRead].
    rewrite Ascii.eqb_sym in Hc1. rewrite Ascii.eqb_sym in Hq1. rewrite Hc1, Hq1.
    rewrite (IH _ Hc2 Hq2), append_one. reflexivity.
Qed.

(** Reading the rest of a quoted field, up to its closing quote. *)
Lemma csvRead_quoted (s acc rest : string) :
  (rest = "" \/ exists m, rest = String "," m) ->
  csvRead true acc (replaceAll dquote (quote ++ quote) s ++ quote ++ rest)
  = csvRead false (acc ++ s) rest.
Proof.
  intro Hrest. revert acc. induction s as [|c r IH]; intro acc.
  - rewrite append_nil_r. cbn [replaceAll]. change ("" ++ quote ++ rest) with (String dquote rest).
    cbn [csvRead]. rewrite Ascii.eqb_refl.
    destruct Hrest as [-> | [m ->]]; [reflexivity |].
    change (Ascii.eqb "," dquote) with false. reflexivity.
  - cbn [replaceAll]. destruct (Ascii.eqb c dquote) eqn:E.
    + apply Ascii.eqb_eq in E. subst c.
      change ((quote ++ quote) ++ replaceAll dquote (quote ++ quote) r)
        with (String dquote (String dquote (replaceAll dquote (quote ++ quote) r))).
      rewrite !append_cons. cbn [csvRead]. rewrite !Ascii.eqb_refl.
      rewrite IH, append_one. reflexivity.
    + rewrite append_cons. cbn [csvRead]. rewrite E.
      rewrite IH, append_one. reflexivity.
Qed.

Lemma csvRead_cell (v : value) (rest : string) :
  (rest = "" \/ exists m, rest = String "," m) ->
  csvRead false "" (csvCell v ++ rest) = csvRead false (cellText v) rest.
Proof.
  intro Hrest. unfold csvCell, cellText. destruct (nullish v); [reflexivity |].
  destruct (includes "," (ToString v)) eqn:Hc; cbn [orb];
    [|destruct (includes quote (ToString v)) eqn:Hq].
  - change (quote ++ replaceAll dquote (quote ++ quote) (ToString v) ++ quote)
      with (String dquote (replaceAll dquote (quote ++ quote) (ToString v) ++ quote)).
    rewrite append_cons, append_assoc. cbn [csvRead].
    change (Ascii.eqb dquote ",") with false. rewrite Ascii.eqb_refl.
    now rewrite csvRead_quoted.
  - change (quote ++ replaceAll dquote (quote ++ quote) (ToString v) ++ quote)
      with (String dquote (replaceAll dquote (quote ++ quote) (ToString v) ++ quote)).
    rewrite append_cons, append_assoc. cbn [csvRead].
    change (Ascii.eqb dquote ",") with false. rewrite Ascii.eqb_refl.
    now rewrite csvRead_quoted.
  - now rewrite csvRead_plain.
Qed.

Lemma join_cons (sep x y : string) (r : list string) :
  join sep (x :: y :: r) = x ++ sep ++ join sep (y :: r).
Proof. reflexivity. Qed.

Lemma csvParse_line (x : value) (fields : list value) :
  csvParse (csvLine (x :: fields)) = List.map cellText (x :: fields).
Proof.
  unfold csvParse, csvLine. revert x. induction fields as [|y r IH]; intro x.
  - cbn [List.map join]. rewrite <- (append_nil_r (csvCell x)).
    rewrite csvRead_cell by (now left). reflexivity.
  - change (List.map csvCell (x :: y :: r)) with (csvCell x :: List.map csvCell (y :: r)).
    change (List.map cellText (x :: y :: r)) with (cellText x :: List.map cellText (y :: r)).
    rewrite <- IH.
    change (List.map csvCell (y :: r)) with (csvCell y :: List.map csvCell r).
    rewrite join_cons.
    change ("," ++ join "," (csvCell y :: List.map csvCell r))
      with (String "," (join "," (csvCell y :: List.map csvCell r))).
    rewrite csvRead_cell by (right; eexists; reflexivity).
    cbn [csvRead]. rewrite Ascii.eqb_refl. reflexivity.
Qed.

End CsvFacts.



(** ** From the backend to the table *)

Section EndToEnd.
Context `{Host} `{Network}.

Lemma setState_quiet {W : Type} (p : Patch) (w : Store.World W) :
  Store.listeners w = [] ->
  Store.setState (Some p) w
  = {| Store.state := assign (Store.state w) p; Store.listeners := [];
       Store.page := Store.page w; Store.console := Store.console w |}.
Proof. intro Hl. unfold Store.setState. rewrite Hl. reflexivity. Qed.

Lemma symbolDisplay_mapped (raw : value) :
  symbolDisplay (mapSymbolToCoin raw) = listedAs raw.
Proof.
  unfold symbolDisplay, listedAs, mapSymbolToCoin. cbn [symbol name fullSymbol].
  unfold or_else. destruct (truthy (get raw "name")) eqn:Tn; rewrite ?Tn; reflexivity.
Qed.

Lemma mapM_cardOf_returns (l : list Coin) (a : App) :
  List.Forall drawable l -> exists a1 cards, mapM cardOf l a = (a1, Returns cards).
Proof.
  intro Hd. revert a. induction Hd as [|c r [s Hs] _ IH]; intro a.
  - eexists _, _. reflexivity.
  - cbn [mapM]. unfold Eff.bind at 1.
    assert (Hc : exists a1 card, cardOf c a = (a1, Returns card)).
    { unfold cardOf. unfold Eff.bind.
      destruct (draws_only_points (change c) a) as (n & pts & ->).
      rewrite Hs. eexists _, _. reflexivity. }
    destruct Hc as (a1 & card & ->). unfold Eff.bind at 1.
    destruct (IH a1) as (a2 & cards & ->). eexists _, _. reflexivity.
Qed.

Lemma in_firstn {A : Type} (n : nat) (l : list A) (x : A) :
  List.In x (List.firstn n l) -> List.In x l.
Proof.
  intro Hx. rewrite <- (List.firstn_skipn n l). apply List.in_or_app. left. exact Hx.
Qed.

Lemma renderTopCards_returns (a : App) :
  List.Forall drawable (cardSource (state_of a)) -> snd (renderTopCards a) = Returns tt.
Proof.
  intro Hd. rewrite renderTopCards_run.
  destruct (topCards (dom_of a)); [|reflexivity].
  destruct (cardSource (state_of a)) as [|c cs] eqn:Ec; [reflexivity |].
  assert (Hd5 : List.Forall drawable (List.firstn 5 (sortByRank (c :: cs)))).
  { apply List.Forall_forall. intros x Hx. apply in_firstn in Hx.
    rewrite List.Forall_forall in Hd. apply Hd.
    apply (Permutation_in _ (Permutation_sym (sortByRank_perm (c :: cs)))). exact Hx. }
  destruct (mapM_cardOf_returns _ a Hd5) as (a1 & cards & ->). reflexivity.
Qed.

Lemma rowsOf_mapped (l : list value) (s : Z) (k : nat) :
  List.Forall listable l ->
  exists rows,
    mapO (rowOf s) (List.combine (List.seq k (List.length l)) (List.map mapSymbolToCoin l))
    = Returns rows /\
    List.Forall2 rowShows rows l.
Proof.
  intro Hl. revert k. induction Hl as [|raw r [t Ht] _ IH]; intro k.
  - exists []. split; [reflexivity | constructor].
  - cbn [List.length List.seq List.map List.combine mapO].
    destruct (IH (S k)) as (rows & -> & Hf).
    unfold rowOf. rewrite symbolDisplay_mapped, Ht.
    eexists. split; [reflexivity |]. constructor; [|exact Hf].
    unfold rowShows. cbn [row_symbol row_price row_changeText]. auto.
Qed.

Lemma fetchSymbolsPage_answered (page pageSize : Z) (q : string) (log : list Url)
    (payload : value) (l : list value) :
  serve (List.length log) (SymbolsUrl page pageSize (queryParam q))
  = Responded {| ok := true; json := Some payload |} ->
  truthy payload = true ->
  fst (normalizeSymbolsResponse payload) = VArr l ->
  existsb unmappable l = false ->
  snd (fetchSymbolsPage page pageSize q log)
  = Returns {| page_coins := List.map mapSymbolToCoin l;
               page_total := snd (normalizeSymbolsResponse payload) |}.
Proof.
  intros Hs Ht Hn Hm. unfold fetchSymbolsPage, getJson, fetch. unfold Eff.bind at 1.
  unfold Eff.bind at 1. rewrite Hs. cbn [ok json negb]. unfold Eff.ret at 1.
  rewrite Ht. cbn [negb].
  destruct (normalizeSymbolsResponse payload) as [items total]. cbn [fst snd] in *. subst items.
  unfold Eff.bind, Eff.of_outcome, mapItems, mapCoins. rewrite Hm. reflexivity.
Qed.

Lemma opaque_truthy (v : value) : opaque v = true -> truthy v = true.
Proof. destruct v; try discriminate; reflexivity. Qed.

Lemma printable_mappable (l : list value) :
  List.Forall (fun raw => printable raw = true) l -> existsb unmappable l = false.
Proof.
  induction 1 as [|raw r Hp _ IH]; [reflexivity |]. cbn [existsb]. rewrite IH.
  unfold printable in Hp. unfold unmappable.
  destruct (opaque (get raw "price")); [discriminate |].
  destruct (opaque (get raw "change")); [discriminate | reflexivity].
Qed.

Lemma existsb_firstn_false {A : Type} (f : A -> bool) (n : nat) (l : list A) :
  List.Forall (fun x => f x = false) l -> existsb f (List.firstn n l) = false.
Proof.
  intro Hl. revert n. induction Hl as [|x r Hx _ IH]; intros [|n]; try reflexivity.
  cbn [List.firstn existsb]. now rewrite Hx, IH.
Qed.

Lemma finiteOrNull_plain (v : value) : opaque (finiteOrNull v) = false.
Proof. unfold finiteOrNull. destruct (nullish v); [reflexivity |]. now destruct (ToNumber v). Qed.

Lemma listable_name (raw : value) : listable raw -> opaque (get raw "name") = false.
Proof.
  intros [s Hs]. destruct (opaque (get raw "name")) eqn:E; [|reflexivity].
  pose proof (opaque_truthy _ E) as Ht. unfold listedAs, or_else in Hs.
  rewrite Ht in Hs. rewrite Ht in Hs. rewrite Hs in E. discriminate.
Qed.

Lemma ticker_mapped (l : list value) :
  List.Forall listable l -> tickerThrows (List.map mapSymbolToCoin l) = false.
Proof.
  intro Hl. unfold tickerThrows. apply existsb_firstn_false.
  apply List.Forall_map. revert Hl. apply List.Forall_impl. intros raw Hr.
  cbn [change symbol mapSymbolToCoin]. now rewrite finiteOrNull_plain, (listable_name raw Hr).
Qed.

Lemma listenRow_shows (h : Handler) (rows : list Row) (l : list value) :
  List.Forall2 rowShows rows l -> List.Forall2 rowShows (List.map (listenRow h) rows) l.
Proof.
  induction 1 as [|row raw rows l Hr _ IH]; [constructor |].
  cbn [List.map]. constructor; [exact Hr | exact IH].
Qed.

Lemma drawable_mapped (l : list value) :
  List.Forall listable l -> List.Forall drawable (List.map mapSymbolToCoin l).
Proof.
  intro Hl. apply List.Forall_map. revert Hl. apply List.Forall_impl.
  intros raw [s Hs]. exists s. rewrite symbolDisplay_mapped. exact Hs.
Qed.

End EndToEnd.

(** X26.  With no subscriber on the store (the application registers none) and a
    table body on the page: when the backend answers the page request with
    a list of entries, bare or in an [items] envelope, every entry and
    every kept top entry has a text to be listed under, and their fields
    can be converted where the code converts them, the load followed by a
    render returns and the table holds one row per entry, in the backend's
    order, each showing that entry's name (else symbol, else the dash), its
    formatted price and its formatted change. *)
Theorem answered_page_is_the_table `{Host} `{Network} (page pageSize : Z) (a : App)
    (payload : value) (l : list value) :
  Store.listeners (store a) = [] ->
  tableBody (dom_of a) <> None ->
  serve (List.length (sent a)) (pageRequest page pageSize a)
  = Responded {| ok := true; json := Some payload |} ->
  truthy payload = true ->
  fst (normalizeSymbolsResponse payload) = VArr l ->
  List.Forall listable l ->
  List.Forall (fun raw => printable raw = true) l ->
  List.Forall drawable (topCoins (state_of a)) ->
  List.Forall (fun c => plain c = true) (topCoins (state_of a)) ->
  let r := (loadCoinsPage page pageSize ;;; renderDashboard) a in
  snd r = Returns tt /\
  exists rows, tableBody (dom_of (fst r)) = Some rows /\ List.Forall2 rowShows rows l.
Proof.
  intros Hq Ht Hs Hp Hn Hl Hpr Hd _. cbv zeta.
  pose proof (fetchSymbolsPage_answered _ _ _ _ _ _ Hs Hp Hn (printable_mappable l Hpr)) as Hf.
  set (cs := List.map mapSymbolToCoin l) in *.
  set (total := snd (normalizeSymbolsResponse payload)) in *.
  destruct (api_sent (fetchSymbolsPage (pageOr1 page) (sizeOr50 pageSize)
              (currentQuery (state_of a))) a) as (_ & Ho & Hstore & _).
  rewrite Hf in Ho. unfold pageOr1, sizeOr50 in Ho, Hstore.
  assert (Hload : exists a4, loadCoinsPage page pageSize a = (a4, Returns tt) /\
            tableBody (dom_of a4) = tableBody (dom_of a) /\
            filteredCoins (state_of a4) = cs /\
            (cardSource (state_of a4) = cs \/
             cardSource (state_of a4) = topCoins (state_of a))).
  { rewrite loadCoinsPage_run. destruct (api _ a) as [a1 o]. cbn [fst snd] in Ho, Hstore.
    subst o. cbv zeta. cbn [page_coins page_total].
    set (a2 := with_store (Store.setState (Some (pagePatch cs total))) a1).
    assert (Hq2 : store a2 = {| Store.state := assign (state_of a) (pagePatch cs total);
                                Store.listeners := []; Store.page := dom_of a;
                                Store.console := Store.console (store a) |}).
    { unfold a2, with_store. cbn [store]. rewrite Hstore. apply setState_quiet. exact Hq. }
    set (a3 := if (page =? 1) && isEmpty (topCoins (state_of a2))
               then with_store (Store.setState (Some (topPatch cs))) a2 else a2).
    assert (H3 : dom_of a3 = dom_of a /\ filteredCoins (state_of a3) = cs /\
                 coins (state_of a3) = cs /\
                 (topCoins (state_of a3) = cs \/
                  topCoins (state_of a3) = topCoins (state_of a) /\
                  (topCoins (state_of a) = [] -> False) \/
                  topCoins (state_of a3) = [])).
    { assert (Ht2 : topCoins (state_of a2) = topCoins (state_of a))
        by (unfold state_of; rewrite Hq2; reflexivity).
      unfold a3. rewrite Ht2.
      destruct ((page =? 1) && isEmpty (topCoins (state_of a))) eqn:Eb.
      - unfold dom_of, state_of, with_store. cbn [store].
        rewrite (setState_quiet (topPatch cs) (store a2)) by (rewrite Hq2; reflexivity).
        rewrite Hq2. cbn [Store.page Store.state]. repeat split. left. reflexivity.
      - split; [unfold dom_of; rewrite Hq2; reflexivity |].
        split; [unfold state_of; rewrite Hq2; reflexivity |].
        split; [unfold state_of; rewrite Hq2; reflexivity |].
        rewrite Ht2. destruct (topCoins (state_of a)) eqn:Et.
        + right. right. reflexivity.
        + right. left. split; [reflexivity | discriminate]. }
    destruct H3 as (Hdom & Hfc & Hc & Htop).
    assert (Hok : tickerFails cs page a3 = false).
    { unfold tickerFails. destruct (ticker (dom_of a3)); [|reflexivity].
      unfold cs. rewrite (ticker_mapped l Hl). apply andb_false_r. }
    rewrite Hok.
    destruct (renderTicker_frame cs page a3) as (Hro & _ & Hrs & _ & _ & _ & _ & Hrt).
    cbv zeta in Hro, Hrs, Hrt. rewrite Hok in Hro.
    exists (fst (renderTicker cs page a3)).
    split; [rewrite <- Hro; apply surjective_pairing |].
    split; [rewrite Hrt; unfold dom_of in *; now rewrite Hdom |].
    rewrite Hrs. split; [exact Hfc |].
    unfold cardSource. rewrite Hc.
    destruct Htop as [E | [[E Hne] | E]]; rewrite E.
    - left. now destruct cs.
    - destruct (topCoins (state_of a)); [contradiction | right; reflexivity].
    - left. reflexivity. }
  destruct Hload as (a4 & Hrun & Htb & Hfc & Hcards).
  unfold Eff.bind. rewrite Hrun. rewrite renderDashboard_run.
  destruct (tableBody (dom_of a4)) eqn:Etb; [|rewrite <- Htb in Ht; contradiction].
  assert (Hdraw : List.Forall drawable (cardSource (state_of a4))).
  { destruct Hcards as [-> | ->]; [apply drawable_mapped; exact Hl | exact Hd]. }
  pose proof (renderTopCards_returns a4 Hdraw) as Hret.
  destruct (after_cards a4) as (Hs5 & Hi5 & _). cbv zeta in Hs5, Hi5.
  destruct (renderTopCards a4) as [a5 o]. cbn [fst snd] in *. subst o.
  unfold tableOf. rewrite Hs5, Hfc.
  destruct cs as [|c cs'] eqn:Ecs.
  - cbn [fst snd]. split; [reflexivity |]. exists [].
    match goal with |- context [writeBar ?b ?x] => destruct (writeBar_dom b x) as (Hb & _) end.
    rewrite Hb. split; [reflexivity |].
    destruct l; [constructor | discriminate].
  - cbv zeta. rewrite <- Ecs. unfold rowsOf.
    set (w := windowOf (state_of a4) cs (paginationOr a5)).
    destruct (rowsOf_mapped l (w_startIndex w) 0 Hl) as (rows & Er & Hf2).
    assert (Hlen : List.length cs = List.length l) by apply List.length_map.
    rewrite Hlen. change (List.map mapSymbolToCoin l) with cs in Er. rewrite Er.
    cbn [fst snd]. split; [reflexivity |].
    exists (List.map (listenRow OpenCoin) rows).
    match goal with |- context [writeBar ?b ?x] => destruct (writeBar_dom b x) as (Hb & _) end.
    rewrite Hb. split; [reflexivity |]. apply listenRow_shows. exact Hf2.
Qed.

Lemma answered_page_is_the_table_witness :
  let ether := VObj [("symbol", VStr "ETHUSDT"); ("price", VStr "2")] in
  let net := Sample.always (VObj [("items", VArr [Sample.bitcoin; ether]); ("total", VNum 2)]) in
  let r := (@loadCoinsPage Sample.host net 1 50 ;;; @renderDashboard Sample.host)
             (Sample.session Sample.dashboardDom initialState) in
  snd r = Returns tt /\
  exists rows, tableBody (dom_of (fst r)) = Some rows /\
               List.Forall2 (@rowShows Sample.host) rows [Sample.bitcoin; ether].
Proof.
  cbv zeta.
  apply (@answered_page_is_the_table Sample.host
           (Sample.always (VObj [("items", VArr [Sample.bitcoin;
                                   VObj [("symbol", VStr "ETHUSDT"); ("price", VStr "2")]]);
                                 ("total", VNum 2)]))
           1 50 (Sample.session Sample.dashboardDom initialState)
           (VObj [("items", VArr [Sample.bitcoin;
                                   VObj [("symbol", VStr "ETHUSDT"); ("price", VStr "2")]]);
                  ("total", VNum 2)])).
  - reflexivity.
  - vm_compute. discriminate.
  - reflexivity.
  - reflexivity.
  - vm_compute. reflexivity.
  - repeat constructor; eexists; vm_compute; reflexivity.
  - repeat constructor.
  - vm_compute. constructor.
  - vm_compute. constructor.
Defined.

Import Indicators.

(** ** The indicator table *)

Section IndicatorFacts.
Context `{Host}.

Lemma distinct_in (l : list string) (x : string) : List.In x (distinct l) <-> List.In x l.
Proof.
  induction l as [|y r IH]; [reflexivity |]. cbn [distinct List.In].
  rewrite List.filter_In, IH. split.
  - intros [-> | [Hr _]]; auto.
  - intros [-> | Hr]; [auto |].
    destruct (String.eqb x y) eqn:E; [apply String.eqb_eq in E; auto |].
    right. split; [exact Hr | reflexivity].
Qed.

Lemma distinct_NoDup (l : list string) : List.NoDup (distinct l).
Proof.
  induction l as [|y r IH]; cbn [distinct]; constructor.
  - rewrite List.filter_In. intros [_ E]. now rewrite String.eqb_refl in E.
  - apply List.NoDup_filter. exact IH.
Qed.

Lemma indexName_inj (i j : nat) : indexName i = indexName j -> i = j.
Proof.
  unfold indexName. intro E.
  apply (f_equal DecimalString.NilEmpty.uint_of_string) in E. rewrite !DecimalString.NilEmpty.usu in E.
  injection E as E. apply (f_equal Nat.of_uint) in E. now rewrite !DecimalNat.Unsigned.of_to in E.
Qed.

Lemma indexNames_NoDup (n : nat) : List.NoDup (List.map indexName (List.seq 0 n)).
Proof.
  generalize (List.seq_NoDup n 0). generalize (List.seq 0 n).
  induction 1 as [|i r Hi _ IH]; cbn [List.map]; constructor; [|exact IH].
  intro Hin. apply List.in_map_iff in Hin as (j & E & Hj).
  apply indexName_inj in E. now subst j.
Qed.

Lemma keys_NoDup (v : value) : List.NoDup (keys v).
Proof.
  destruct v; cbn [keys]; try constructor; try apply indexNames_NoDup. apply distinct_NoDup.
Qed.

Lemma string_ltb_total (x y : string) :
  string_ltb x y = false -> string_ltb y x = false -> x = y.
Proof.
  revert y. induction x as [|c r IH]; intros [|d t]; cbn [string_ltb]; try congruence.
  destruct (nat_of_ascii c <? nat_of_ascii d)%nat eqn:E1; [discriminate |].
  destruct (nat_of_ascii d <? nat_of_ascii c)%nat eqn:E2; [discriminate |].
  intros Hr Ht. apply Nat.ltb_ge in E1, E2.
  assert (E : nat_of_ascii c = nat_of_ascii d) by lia.
  apply (f_equal ascii_of_nat) in E. rewrite !ascii_nat_embedding in E. subst d.
  f_equal. apply IH; assumption.
Qed.

Lemma string_ltb_trans (x y z : string) :
  string_ltb x y = true -> string_ltb y z = true -> string_ltb x z = true.
Proof.
  intros Hxy Hyz. destruct (string_ltb_cotrans z x y Hyz) as [E | E]; [|exact E].
  apply string_ltb_asym in Hxy. congruence.
Qed.

Lemma insert_in (x y : string) (l : list string) :
  List.In y (insertStable (fun a b => string_ltb b a) x l) <-> y = x \/ List.In y l.
Proof.
  induction l as [|z r IH]; cbn [insertStable List.In]; [intuition |].
  destruct (string_ltb z x); cbn [List.In]; rewrite ?IH; intuition.
Qed.

Lemma insert_ascending (x : string) (l : list string) :
  ascending l -> ~ List.In x l -> ascending (insertStable (fun a b => string_ltb b a) x l).
Proof.
  unfold ascending. induction 1 as [|z r Hs IH Hz]; intro Hx; cbn [insertStable].
  - repeat constructor.
  - destruct (string_ltb z x) eqn:E.
    + constructor; [apply IH; intro; apply Hx; now right |].
      apply List.Forall_forall. intros y Hy. apply insert_in in Hy as [-> | Hy]; [exact E |].
      rewrite List.Forall_forall in Hz. now apply Hz.
    + assert (Hxz : string_ltb x z = true).
      { destruct (string_ltb x z) eqn:E'; [reflexivity |].
        exfalso. apply Hx. left. symmetry. now apply string_ltb_total. }
      constructor; [now constructor |].
      constructor; [exact Hxz |].
      revert Hz. apply List.Forall_impl. intros y Hy. now apply (string_ltb_trans x z y).
Qed.

Lemma sortNames_in (l : list string) (x : string) : List.In x (sortNames l) <-> List.In x l.
Proof.
  unfold sortNames, stableSort. induction l as [|y r IH]; [reflexivity |].
  cbn [List.fold_right List.In]. rewrite insert_in, IH. intuition.
Qed.

Lemma sortNames_ascending (l : list string) : List.NoDup l -> ascending (sortNames l).
Proof.
  unfold sortNames, stableSort. induction 1 as [|y r Hy _ IH]; [constructor |].
  cbn [List.fold_right]. apply insert_ascending; [exact IH |].
  intro Hin. apply Hy. now apply (sortNames_in r y).
Qed.

Lemma cellOf_blank (tfs : value) (name key : string) :
  truthy (entryOf (indicatorsOf tfs key) name) = false -> cellOf tfs name key = blank.
Proof.
  intro Hf. unfold cellOf, or_else. rewrite Hf. reflexivity.
Qed.

End IndicatorFacts.


